(** * Experiment runners of scikit-learn-extensions

  A shallow embedding of
    - [src/imbtools/evaluation.py]  ([count_elements], [BinaryExperiment]),
    - [src/hyperlearn/experiment.py] ([read_csv_dir], [BaseExperiment],
      [ExtendedExperiment], [ResamplingExperiment], [KaggleCompetition]),
  and the properties of the experiment runner stated about them.

  Python objects are records, attributes that may be missing are
  [option]s, a Python [int] is a [Z], exceptions are values of [exn]
  carried by an error-and-state monad whose state survives a raise (what
  was appended to a result list before an exception is still there after
  it).  Library calls whose code is not part of the repository
  (scikit-learn, imbalanced-learn, pandas, the operating system) are
  fields of an interface class; the runner is a function of them. *)

From stdpp Require Import base list gmap strings pretty.
From Stdlib Require Import ZArith Lia Ascii.

Open Scope Z_scope.
Set Warnings "-register-all".

(** ** Python runtime: exceptions, the run monad, loops *)

Module Py.

(** The exception classes the modelled code can meet.  [LibraryError] is
    any exception raised inside a library call (a fit, a score, a parse). *)
Inductive exn : Type :=
| AttributeError (msg : string)
| ValueError (msg : string)
| IndexError (msg : string)
| TypeError (msg : string)
| OSError (msg : string)
| LibraryError (msg : string).

Inductive outcome (A : Type) : Type :=
| Ok (a : A)
| Raise (e : exn).
Arguments Ok {A} a.
Arguments Raise {A} e.

(** A computation over a state [St]: the state is returned in both cases. *)
Definition M (St A : Type) : Type := St → outcome A * St.

Definition ret {St A} (a : A) : M St A := λ s, (Ok a, s).
Definition raise {St A} (e : exn) : M St A := λ s, (Raise e, s).
Definition bind {St A B} (m : M St A) (k : A → M St B) : M St B :=
  λ s, match m s with
       | (Ok a, s') => k a s'
       | (Raise e, s') => (Raise e, s')
       end.
Definition gets {St A} (f : St → A) : M St A := λ s, (Ok (f s), s).
Definition modify {St} (f : St → St) : M St unit := λ s, (Ok tt, f s).
Definition lift {St A} (o : outcome A) : M St A := λ s, (o, s).

Definition is_ok {A} (o : outcome A) : bool :=
  match o with Ok _ => true | Raise _ => false end.

(** [for x in l: body x] *)
Fixpoint for_each {St A} (l : list A) (body : A → M St unit) : M St unit :=
  match l with
  | [] => ret tt
  | x :: l' => bind (body x) (λ _, for_each l' body)
  end.

(** [enumerate(l)] *)
Definition enumerate {A} (l : list A) : list (Z * A) :=
  imap (λ i x, (Z.of_nat i, x)) l.

(** [range(n)]: empty for [n <= 0]. *)
Definition range (n : Z) : list Z := seqZ 0 n.

(** [l[i]]: a negative index counts from the end. *)
Definition index {A} (l : list A) (i : Z) : outcome A :=
  let j := if 0 <=? i then i else Z.of_nat (length l) + i in
  if 0 <=? j then
    match l !! Z.to_nat j with
    | Some x => Ok x
    | None => Raise (IndexError "list index out of range")
    end
  else Raise (IndexError "list index out of range").

(** [str(n)] of an [int]. *)
Definition str (n : Z) : string := pretty n.

(** [itertools.product(a, b, c)]: the rightmost argument advances fastest. *)
Definition product {A B C} (a : list A) (b : list B) (c : list C)
  : list (A * B * C) :=
  x ← a; y ← b; z ← c; [(x, y, z)].

(** [itertools.product(a, b)] *)
Definition product2 {A B} (a : list A) (b : list B) : list (A * B) :=
  x ← a; y ← b; [(x, y)].

(** The line feed, the one character the regular expression [.] refuses. *)
Definition is_newline (c : ascii) : bool := Ascii.eqb c "010"%char.

(** Does [s] consist of a non-empty run of [.] followed by [.csv]? *)
Fixpoint dot_plus_csv (s : string) : bool :=
  match s with
  | EmptyString => false
  | String c s' =>
      negb (is_newline c) && (String.eqb s' ".csv" || dot_plus_csv s')
  end.

(** [s] without one final line feed, if it has one: [$] also matches there. *)
Fixpoint chomp (s : string) : string :=
  match s with
  | EmptyString => EmptyString
  | String c s' =>
      match s' with
      | EmptyString => if is_newline c then EmptyString else s
      | _ => String c (chomp s')
      end
  end.

(** [match('^.+\.csv$', s)] as a truth value. *)
Definition match_csv (s : string) : bool :=
  dot_plus_csv s || dot_plus_csv (chomp s).

(** [sub] of the pattern [.csv] by the empty string: every leftmost,
    non-overlapping occurrence of one character other than a line feed
    followed by [csv] is removed. *)
Fixpoint sub_csv (s : string) : string :=
  match s with
  | EmptyString => EmptyString
  | String c s' =>
      match s' with
      | String "c" (String "s" (String "v" rest)) =>
          if is_newline c then String c (sub_csv s') else sub_csv rest
      | _ => String c (sub_csv s')
      end
  end.

Fixpoint ends_with_slash (s : string) : bool :=
  match s with
  | EmptyString => false
  | String c s' =>
      match s' with
      | EmptyString => Ascii.eqb c "/"%char
      | _ => ends_with_slash s'
      end
  end.

(** [os.path.join(a, b)] on a POSIX system. *)
Definition path_join (a b : string) : string :=
  if String.prefix "/" b then b
  else if String.eqb a EmptyString || ends_with_slash a then a +:+ b
  else a +:+ "/" +:+ b.

(** [triple P m Q E]: from a state with [P], the computation [m] ends
    normally in a state with [Q], or raises [e] in a state with [E e]. *)
Definition triple {St A} (P : St → Prop) (m : M St A) (Q : A → St → Prop)
    (E : exn → St → Prop) : Prop :=
  ∀ s, P s →
    match m s with
    | (Ok a, s') => Q a s'
    | (Raise e, s') => E e s'
    end.

End Py.

Import Py.

Declare Scope py_scope.
Delimit Scope py_scope with py.
Notation "'let!' x ':=' m 'in' k" := (bind m (λ x, k))
(at level 10, x pattern, m at level 100, k at level 200) : py_scope.
Notation "m ';;' k" := (bind m (λ _, k))
(at level 100, k at level 200, right associativity) : py_scope.
Open Scope py_scope.

(** ** Tables *)

Module Pandas.

(** A table as pandas reads it: its columns, cells kept as text. *)
Definition Column : Type := list string.
Definition Frame : Type := list Column.

(** [dataset.iloc[:, :-1], dataset.iloc[:, -1]]: the features are all
    columns but the last, the target is the last one. *)
Definition split_target (dataset : Frame) : outcome (Frame * Column) :=
  match last dataset with
  | Some y => Ok (removelast dataset, y)
  | None => Raise (IndexError "single positional indexer is out-of-bounds")
  end.

End Pandas.

Import Pandas.

(** ** imbtools/evaluation.py *)

Module Imbtools.

(** [count_elements], lines 10-21.  [elements_map] is the dictionary of
    the source, [elements_modified] the list it appends to. *)
Fixpoint count_elements_loop (elements : list string)
    (elements_map : gmap string Z) (elements_modified : list string)
  : list string :=
  match elements with
  | [] => elements_modified
  | element :: rest =>
      match elements_map !! element with
      | Some n =>
          let elements_map' := <[element := n + 1]> elements_map in
          count_elements_loop rest elements_map'
            (elements_modified ++ [element +:+ str (n + 1)])
      | None =>
          count_elements_loop rest (<[element := 1]> elements_map)
            (elements_modified ++ [element])
      end
  end.

Definition count_elements (elements : list string) : list string :=
  count_elements_loop elements ∅ [].

(** Line 56: the resolution of [random_state] into [random_states_]. *)
Definition resolve_random_states (random_state : option Z)
    (experiment_repetitions : Z) : list (option Z) :=
  match random_state with
  | Some seed => (λ index, Some (seed * index)) <$> range experiment_repetitions
  | None => replicate (Z.to_nat experiment_repetitions) None
  end.

(** *** The objects [BinaryExperiment] works on *)

(** An estimator object: a leaf (a classifier or an oversampler, with its
    class name, whether its class has a [random_state] parameter, and that
    parameter's value) or a pipeline of estimator objects. *)
Inductive Estimator : Type :=
| Leaf (cls : string) (has_random_state : bool) (random_state : option Z)
| Pipeline (steps : list Estimator).

(** [obj.__class__.__name__], for an object that may be [None]. *)
Definition class_name (obj : option Estimator) : string :=
  match obj with
  | None => "NoneType"
  | Some (Leaf cls _ _) => cls
  | Some (Pipeline _) => "Pipeline"
  end.

(** [obj.set_params(random_state=r)]: [None] has no such method; an
    estimator without that parameter refuses it. *)
Definition set_params (obj : option Estimator) (r : option Z)
  : outcome Estimator :=
  match obj with
  | None =>
      Raise (AttributeError "'NoneType' object has no attribute 'set_params'")
  | Some (Leaf cls true _) => Ok (Leaf cls true r)
  | Some (Leaf cls false _) =>
      Raise (ValueError "Invalid parameter random_state")
  | Some (Pipeline _) =>
      Raise (ValueError "Invalid parameter random_state")
  end.

(** [make_pipeline(a, b)] *)
Definition make_pipeline (a b : Estimator) : Estimator := Pipeline [a; b].

Record Metric : Type := { metric_name : string }.

(** [make_scorer(metric)] *)
Inductive Scorer : Type := make_scorer (metric : Metric).

(** A dictionary with string keys that remembers insertion order. *)
Definition dict (V : Type) : Type := list (string * V).

(** [d[k] = v] *)
Fixpoint dict_set {V} (d : dict V) (k : string) (v : V) : dict V :=
  match d with
  | [] => [(k, v)]
  | (k', v') :: d' =>
      if String.eqb k' k then (k, v) :: d' else (k', v') :: dict_set d' k v
  end.

(** The [datasets] argument: a directory path or a dictionary. *)
Inductive Datasets : Type :=
| DirPath (path : string)
| Dict (d : dict (Frame * Column)).

(** The keyword arguments [StratifiedKFold] is built with; [shuffle] is
    the library's default when the call does not pass it. *)
Record StratifiedKFold : Type := {
  n_splits : Z;
  shuffle : bool;
  random_state : option Z;
}.
Definition StratifiedKFold_default_shuffle : bool := false.

(** What the module imports from outside the repository. *)
Class Library : Type := {
  (** a cross-validated mean score, a float *)
  Score : Type;
  (** the state of the process-wide random number generator *)
  Ambient : Type;
  (** [os.chdir(path)] *)
  chdir : string → outcome unit;
  (** [os.listdir()] of the directory the process is in *)
  listdir : string → outcome (list string);
  (** [pandas.read_csv(file)] relative to the directory the process is in *)
  read_csv : string → string → outcome Frame;
  (** [cross_val_score(clf, X, y, cv=cv, scoring=scorer).mean()] *)
  cross_val_score :
    Ambient → Estimator → Frame → Column → StratifiedKFold → Scorer →
    outcome Score * Ambient;
}.

Section BinaryExperiment.
Context `{Library}.

(** The attributes of a [BinaryExperiment]: the constructor's arguments,
    then what [_initialize_parameters] sets (empty before that). *)
Record BinaryExperiment : Type := {
  oversampling_methods : list (option Estimator);
  classifiers : list Estimator;
  metrics : list Metric;
  datasets : Datasets;
  experiment_n_splits : Z;
  experiment_repetitions : Z;
  experiment_random_state : option Z;
  scorers_ : list Scorer;
  random_states_ : list (option Z);
  cv_scores_ : list Score;
  classifiers_names_ : list string;
  oversampling_methods_names_ : list string;
  metrics_names_ : list string;
}.

(** [__init__], lines 28-42. *)
Definition init (oversampling_methods : list (option Estimator))
    (classifiers : list Estimator) (metrics : list Metric)
    (datasets : Datasets) (n_splits experiment_repetitions : Z)
    (random_state : option Z) : BinaryExperiment :=
  {| oversampling_methods := oversampling_methods;
     classifiers := classifiers;
     metrics := metrics;
     datasets := datasets;
     experiment_n_splits := n_splits;
     experiment_repetitions := experiment_repetitions;
     experiment_random_state := random_state;
     scorers_ := [];
     random_states_ := [];
     cv_scores_ := [];
     classifiers_names_ := [];
     oversampling_methods_names_ := [];
     metrics_names_ := [] |}.

(** One call of [cross_val_score] as the run made it: the arguments, the
    loop indices [(experiment_ind, clf_ind, oversampling_method_ind,
    scorer_ind, dataset_ind)] it was made at, and how it ended. *)
Record Call : Type := {
  call_indices : Z * Z * Z * Z * Z;
  call_clf : Estimator;
  call_data : Frame * Column;
  call_cv : StratifiedKFold;
  call_scoring : Scorer;
  call_result : outcome Score;
}.

(** One printed message, line 83. *)
Record Message : Type := {
  msg_experiment : Z;
  msg_classifier : string;
  msg_oversampling_method : string;
  msg_metric : string;
  msg_dataset : string;
  msg_cv_score : Score;
}.

(** The experiment object, the local variable [clf] of [run], and the
    world around them.  [calls] records the calls of [cross_val_score]
    in the order they were made. *)
Record State : Type := {
  self : BinaryExperiment;
  clf : Estimator;
  cwd : string;
  stdout : list Message;
  ambient : Ambient;
  calls : list Call;
}.

Definition with_self (f : BinaryExperiment → BinaryExperiment) (s : State)
  : State :=
  {| self := f (self s); clf := clf s; cwd := cwd s; stdout := stdout s;
     ambient := ambient s; calls := calls s |}.

Definition set_clf (c : Estimator) (s : State) : State :=
  {| self := self s; clf := c; cwd := cwd s; stdout := stdout s;
     ambient := ambient s; calls := calls s |}.

Definition set_cwd (d : string) (s : State) : State :=
  {| self := self s; clf := clf s; cwd := d; stdout := stdout s;
     ambient := ambient s; calls := calls s |}.

Definition print (m : Message) (s : State) : State :=
  {| self := self s; clf := clf s; cwd := cwd s; stdout := stdout s ++ [m];
     ambient := ambient s; calls := calls s |}.

(** The state a run starts from; [clf] is unbound until line 69 binds
    it, the placeholder is never read. *)
Definition start (e : BinaryExperiment) (dir : string) (a : Ambient) : State :=
  {| self := e; clf := Pipeline []; cwd := dir; stdout := [];
     ambient := a; calls := [] |}.

(** Attribute assignment, [self.attr = v]. *)
Definition set_oversampling_methods (v : _) (e : BinaryExperiment)
  : BinaryExperiment :=
  {| oversampling_methods := v; classifiers := classifiers e;
     metrics := metrics e; datasets := datasets e;
     experiment_n_splits := experiment_n_splits e;
     experiment_repetitions := experiment_repetitions e;
     experiment_random_state := experiment_random_state e;
     scorers_ := scorers_ e; random_states_ := random_states_ e;
     cv_scores_ := cv_scores_ e;
     classifiers_names_ := classifiers_names_ e;
     oversampling_methods_names_ := oversampling_methods_names_ e;
     metrics_names_ := metrics_names_ e |}.

Definition set_classifiers (v : _) (e : BinaryExperiment)
  : BinaryExperiment :=
  {| oversampling_methods := oversampling_methods e; classifiers := v;
     metrics := metrics e; datasets := datasets e;
     experiment_n_splits := experiment_n_splits e;
     experiment_repetitions := experiment_repetitions e;
     experiment_random_state := experiment_random_state e;
     scorers_ := scorers_ e; random_states_ := random_states_ e;
     cv_scores_ := cv_scores_ e;
     classifiers_names_ := classifiers_names_ e;
     oversampling_methods_names_ := oversampling_methods_names_ e;
     metrics_names_ := metrics_names_ e |}.

Definition set_datasets (v : _) (e : BinaryExperiment)
  : BinaryExperiment :=
  {| oversampling_methods := oversampling_methods e;
     classifiers := classifiers e; metrics := metrics e; datasets := v;
     experiment_n_splits := experiment_n_splits e;
     experiment_repetitions := experiment_repetitions e;
     experiment_random_state := experiment_random_state e;
     scorers_ := scorers_ e; random_states_ := random_states_ e;
     cv_scores_ := cv_scores_ e;
     classifiers_names_ := classifiers_names_ e;
     oversampling_methods_names_ := oversampling_methods_names_ e;
     metrics_names_ := metrics_names_ e |}.

Definition set_scorers_ (v : _) (e : BinaryExperiment)
  : BinaryExperiment :=
  {| oversampling_methods := oversampling_methods e;
     classifiers := classifiers e; metrics := metrics e;
     datasets := datasets e; experiment_n_splits := experiment_n_splits e;
     experiment_repetitions := experiment_repetitions e;
     experiment_random_state := experiment_random_state e; scorers_ := v;
     random_states_ := random_states_ e; cv_scores_ := cv_scores_ e;
     classifiers_names_ := classifiers_names_ e;
     oversampling_methods_names_ := oversampling_methods_names_ e;
     metrics_names_ := metrics_names_ e |}.

Definition set_random_states_ (v : _) (e : BinaryExperiment)
  : BinaryExperiment :=
  {| oversampling_methods := oversampling_methods e;
     classifiers := classifiers e; metrics := metrics e;
     datasets := datasets e; experiment_n_splits := experiment_n_splits e;
     experiment_repetitions := experiment_repetitions e;
     experiment_random_state := experiment_random_state e;
     scorers_ := scorers_ e; random_states_ := v;
     cv_scores_ := cv_scores_ e;
     classifiers_names_ := classifiers_names_ e;
     oversampling_methods_names_ := oversampling_methods_names_ e;
     metrics_names_ := metrics_names_ e |}.

Definition set_cv_scores_ (v : _) (e : BinaryExperiment)
  : BinaryExperiment :=
  {| oversampling_methods := oversampling_methods e;
     classifiers := classifiers e; metrics := metrics e;
     datasets := datasets e; experiment_n_splits := experiment_n_splits e;
     experiment_repetitions := experiment_repetitions e;
     experiment_random_state := experiment_random_state e;
     scorers_ := scorers_ e; random_states_ := random_states_ e;
     cv_scores_ := v; classifiers_names_ := classifiers_names_ e;
     oversampling_methods_names_ := oversampling_methods_names_ e;
     metrics_names_ := metrics_names_ e |}.

Definition set_classifiers_names_ (v : _) (e : BinaryExperiment)
  : BinaryExperiment :=
  {| oversampling_methods := oversampling_methods e;
     classifiers := classifiers e; metrics := metrics e;
     datasets := datasets e; experiment_n_splits := experiment_n_splits e;
     experiment_repetitions := experiment_repetitions e;
     experiment_random_state := experiment_random_state e;
     scorers_ := scorers_ e; random_states_ := random_states_ e;
     cv_scores_ := cv_scores_ e; classifiers_names_ := v;
     oversampling_methods_names_ := oversampling_methods_names_ e;
     metrics_names_ := metrics_names_ e |}.

Definition set_oversampling_methods_names_ (v : _) (e : BinaryExperiment)
  : BinaryExperiment :=
  {| oversampling_methods := oversampling_methods e;
     classifiers := classifiers e; metrics := metrics e;
     datasets := datasets e; experiment_n_splits := experiment_n_splits e;
     experiment_repetitions := experiment_repetitions e;
     experiment_random_state := experiment_random_state e;
     scorers_ := scorers_ e; random_states_ := random_states_ e;
     cv_scores_ := cv_scores_ e;
     classifiers_names_ := classifiers_names_ e;
     oversampling_methods_names_ := v;
     metrics_names_ := metrics_names_ e |}.

Definition set_metrics_names_ (v : _) (e : BinaryExperiment)
  : BinaryExperiment :=
  {| oversampling_methods := oversampling_methods e;
     classifiers := classifiers e; metrics := metrics e;
     datasets := datasets e; experiment_n_splits := experiment_n_splits e;
     experiment_repetitions := experiment_repetitions e;
     experiment_random_state := experiment_random_state e;
     scorers_ := scorers_ e; random_states_ := random_states_ e;
     cv_scores_ := cv_scores_ e;
     classifiers_names_ := classifiers_names_ e;
     oversampling_methods_names_ := oversampling_methods_names_ e;
     metrics_names_ := v |}.

(** [cross_val_score(...).mean()] as a step of the run: the call is
    recorded with its result, and a raised exception propagates. *)
Definition do_cross_val_score (indices : Z * Z * Z * Z * Z)
    (c : Estimator) (X : Frame) (y : Column) (cv : StratifiedKFold)
    (scorer : Scorer) : M State Score :=
  λ s,
    let '(result, a) := cross_val_score (ambient s) c X y cv scorer in
    (result,
     {| self := self s; clf := clf s; cwd := cwd s; stdout := stdout s;
        ambient := a;
        calls := calls s ++
          [{| call_indices := indices; call_clf := c; call_data := (X, y);
              call_cv := cv; call_scoring := scorer;
              call_result := result |}] |}).

(** [self.datasets.values()] and [list(self.datasets.keys())] *)
Definition values (d : Datasets) : outcome (list (Frame * Column)) :=
  match d with
  | Dict d => Ok (d.*2)
  | DirPath _ => Raise (AttributeError "'str' object has no attribute 'values'")
  end.
Definition keys (d : Datasets) : outcome (list string) :=
  match d with
  | Dict d => Ok (d.*1)
  | DirPath _ => Raise (AttributeError "'str' object has no attribute 'keys'")
  end.

(** [_initialize_parameters], lines 44-61. *)
Definition initialize_parameters : M State unit :=
  modify (with_self (λ e, set_scorers_ (make_scorer <$> metrics e) e));;
  (let! e := gets self in
   match datasets e with
   | DirPath path =>
       lift (chdir path);;
       modify (set_cwd path);;
       modify (with_self (set_datasets (Dict [])));;
       let! d := gets cwd in
       let! names := lift (listdir d) in
       let csv_files := List.filter match_csv names in
       for_each csv_files (λ csv_file,
         let! dataset := lift (read_csv d csv_file) in
         let! (X, y) := lift (split_target dataset) in
         let dataset_name := sub_csv csv_file in
         modify (with_self (λ e,
           match datasets e with
           | Dict dd => set_datasets (Dict (dict_set dd dataset_name (X, y))) e
           | DirPath _ => e
           end)))
   | Dict _ => ret tt
   end);;
  modify (with_self (λ e,
    set_random_states_
      (resolve_random_states (experiment_random_state e)
         (experiment_repetitions e)) e));;
  modify (with_self (set_cv_scores_ []));;
  modify (with_self (λ e,
    set_classifiers_names_
      (count_elements ((λ c, class_name (Some c)) <$> classifiers e)) e));;
  modify (with_self (λ e,
    set_oversampling_methods_names_
      (count_elements (class_name <$> oversampling_methods e)) e));;
  modify (with_self (λ e,
    set_metrics_names_ (metric_name <$> metrics e) e));;
  (** [self.datasets_names_ = self.datasets.keys()]: a view, it fails
      where [self.datasets] has no [keys]. *)
  let! e := gets self in
  lift (keys (datasets e));;
  ret tt.

(** [run], lines 63-84, one definition per loop, innermost first.
    Lines 75-84, the body of the loop over the datasets. *)
Definition run_dataset (experiment_ind : Z) (cv : StratifiedKFold)
    (clf_ind oversampling_method_ind : Z)
    (oversampling_method : option Estimator)
    (scorer_ind : Z) (scorer : Scorer)
    (dataset_ind : Z) (X : Frame) (y : Column) : M State unit :=
  match oversampling_method with
  | Some om => modify (λ s, set_clf (make_pipeline om (clf s)) s)
  | None => ret tt
  end;;
  let! e := gets self in
  let! clf_name := lift (index (classifiers_names_ e) clf_ind) in
  let! om_name :=
    lift (index (oversampling_methods_names_ e) oversampling_method_ind) in
  let! metric_name := lift (index (metrics_names_ e) scorer_ind) in
  let! names := lift (keys (datasets e)) in
  let! dataset_name := lift (index names dataset_ind) in
  let! c := gets clf in
  let! cv_score :=
    do_cross_val_score
      (experiment_ind, clf_ind, oversampling_method_ind, scorer_ind,
       dataset_ind) c X y cv scorer in
  modify (print {| msg_experiment := experiment_ind + 1;
                   msg_classifier := clf_name;
                   msg_oversampling_method := om_name;
                   msg_metric := metric_name;
                   msg_dataset := dataset_name;
                   msg_cv_score := cv_score |});;
  modify (with_self (λ e, set_cv_scores_ (cv_scores_ e ++ [cv_score]) e)).

(** Lines 74-84. *)
Definition run_scorer (experiment_ind : Z) (cv : StratifiedKFold)
    (clf_ind oversampling_method_ind : Z)
    (oversampling_method : option Estimator)
    (scorer_ind : Z) (scorer : Scorer) : M State unit :=
  let! e := gets self in
  let! data := lift (values (datasets e)) in
  for_each (enumerate data) (λ '(dataset_ind, (X, y)),
    run_dataset experiment_ind cv clf_ind oversampling_method_ind
      oversampling_method scorer_ind scorer dataset_ind X y).

(** Lines 72-84.  [set_params] changes the object held by
    [self.oversampling_methods] in place. *)
Definition run_oversampling_method (experiment_ind : Z)
    (random_state : option Z) (cv : StratifiedKFold) (clf_ind : Z)
    (oversampling_method_ind : Z) (oversampling_method : option Estimator)
  : M State unit :=
  let! om := lift (set_params oversampling_method random_state) in
  modify (with_self (λ e,
    set_oversampling_methods
      (<[Z.to_nat oversampling_method_ind := Some om]>
         (oversampling_methods e)) e));;
  let oversampling_method := Some om in
  let! e := gets self in
  for_each (enumerate (scorers_ e)) (λ '(scorer_ind, scorer),
    run_scorer experiment_ind cv clf_ind oversampling_method_ind
      oversampling_method scorer_ind scorer).

(** Lines 70-84.  The loop binds the local [clf] to the classifier;
    [set_params] changes that object, held by [self.classifiers]. *)
Definition run_classifier (experiment_ind : Z) (random_state : option Z)
    (cv : StratifiedKFold) (clf_ind : Z) (classifier : Estimator)
  : M State unit :=
  modify (set_clf classifier);;
  let! c := lift (set_params (Some classifier) random_state) in
  modify (with_self (λ e,
    set_classifiers (<[Z.to_nat clf_ind := c]> (classifiers e)) e));;
  modify (set_clf c);;
  let! e := gets self in
  for_each (enumerate (oversampling_methods e))
    (λ '(oversampling_method_ind, oversampling_method),
       run_oversampling_method experiment_ind random_state cv clf_ind
         oversampling_method_ind oversampling_method).

(** Lines 68-84. *)
Definition run_experiment (experiment_ind : Z) (random_state : option Z)
  : M State unit :=
  let! e := gets self in
  let cv := {| n_splits := experiment_n_splits e;
               shuffle := StratifiedKFold_default_shuffle;
               random_state := random_state |} in
  for_each (enumerate (classifiers e)) (λ '(clf_ind, classifier),
    run_classifier experiment_ind random_state cv clf_ind classifier).

Definition run : M State unit :=
  initialize_parameters;;
  let! e := gets self in
  for_each (enumerate (random_states_ e)) (λ '(experiment_ind, random_state),
    run_experiment experiment_ind random_state).

End BinaryExperiment.

End Imbtools.

(** ** hyperlearn/experiment.py *)

Module Hyperlearn.

(** The kinds of values the module handles without looking inside. *)
Class Types : Type := {
  (** an estimator object as the caller supplies it *)
  Obj : Type;
  (** a parameter grid as the caller supplies it *)
  RawGrid : Type;
  (** an element of [estimators_] *)
  Est : Type;
  (** an element of [param_grids_] *)
  Grid : Type;
  (** the [scoring] argument *)
  Scoring : Type;
  (** the [cv] argument *)
  CV : Type;
  (** what a splitter object is, apart from the two attributes below *)
  SplitterBase : Type;
  (** a fitted [GridSearchCV] *)
  Fitted : Type;
  (** the state of the process-wide random number generator *)
  Ambient : Type;
}.

Section Model.
Context `{Types}.

(** [(dataset_name, (X, y))] *)
Definition Dataset : Type := string * (Frame * Column).

(** [(name, estimator, param_grid)]; the estimator of a resampler may be
    [None], a 2-tuple has no grid. *)
Record Spec : Type := {
  spec_name : string;
  spec_estimator : option Obj;
  spec_param_grid : option RawGrid;
}.

(** What [check_estimators] and [check_param_grids] are called with: the
    list of tuples of an [ExtendedExperiment], or the list of lists of
    tuples a [ResamplingExperiment] builds. *)
Inductive Estimators : Type :=
| Specs (l : list Spec)
| Chains (l : list (list Spec)).

(** A cross-validation splitter object with its attributes [shuffle] and
    [random_state]. *)
Record Splitter : Type := {
  splitter_base : SplitterBase;
  shuffle : bool;
  splitter_random_state : option Z;
}.

Definition set_shuffle (b : bool) (cv : Splitter) : Splitter :=
  {| splitter_base := splitter_base cv; shuffle := b;
     splitter_random_state := splitter_random_state cv |}.

Definition set_splitter_random_state (r : option Z) (cv : Splitter)
  : Splitter :=
  {| splitter_base := splitter_base cv; shuffle := shuffle cv;
     splitter_random_state := r |}.

(** [GridSearchCV(estimator, param_grid, scoring, cv=cv, refit=refit,
    n_jobs=n_jobs)] *)
Record GridSearchCV : Type := {
  gs_estimator : Est;
  gs_param_grid : Grid;
  gs_scoring : Scoring;
  gs_cv : Splitter;
  gs_refit : bool;
  gs_n_jobs : Z;
}.

(** What the module imports from outside the repository. *)
Class Library : Type := {
  (** [os.listdir(dirpath)] *)
  listdir : string → outcome (list string);
  (** [pandas.read_csv(path)] *)
  read_csv : string → outcome Frame;
  (** [sklearn.base.is_classifier] *)
  is_classifier : Est → bool;
  (** [sklearn.model_selection.check_cv(cv, y, classifier)] *)
  check_cv : CV → Column → bool → outcome Splitter;
  (** [gscv.fit(X, y)] *)
  fit : Ambient → GridSearchCV → Frame → Column → outcome Fitted * Ambient;
}.

(** The four validators of [hyperlearn/utils.py].  That file is not among
    the sources, so the runner is a function of them. *)
Class Utils : Type := {
  check_datasets : list Dataset → outcome (list Dataset);
  check_estimators : Estimators → outcome (list Est);
  (** the second argument is the optional one, ['resampling'] in
      [ResamplingExperiment.run] *)
  check_param_grids : Estimators → option string → outcome (list Grid);
  check_random_states : option Z → Z → outcome (list (option Z));
}.

Context `{Library} `{Utils}.

(** [read_csv_dir], lines 22-31.  The state of the loop is the local
    list [datasets]. *)
Definition read_csv_dir (dirpath : string) : outcome (list Dataset) :=
  match listdir dirpath with
  | Raise e => Raise e
  | Ok names =>
      let csv_files := List.filter match_csv names in
      let '(o, datasets) :=
        for_each csv_files (λ csv_file,
          let! dataset := lift (read_csv (path_join dirpath csv_file)) in
          let! (X, y) := lift (split_target dataset) in
          let dataset_name := sub_csv csv_file in
          modify (λ datasets : list Dataset,
                    datasets ++ [(dataset_name, (X, y))])) [] in
      match o with
      | Ok _ => Ok datasets
      | Raise e => Raise e
      end
  end.

(** An experiment object.  [own] holds the attributes particular to the
    class, the others are those all three classes have.  [datasets] is
    [None] once [save] has deleted the attribute; the attributes with a
    trailing underscore do not exist before [run] sets them. *)
Record Experiment (E : Type) : Type := {
  own : E;
  scoring : Scoring;
  cv : CV;
  n_jobs : Z;
  datasets : option (list Dataset);
  experiment_repetitions : Z;
  random_state : option Z;
  estimators_ : option (list Est);
  param_grids_ : option (list Grid);
  random_states_ : option (list (option Z));
  results_ : option (list (string * Fitted));
}.
Arguments own {E}.
Arguments scoring {E}.
Arguments cv {E}.
Arguments n_jobs {E}.
Arguments datasets {E}.
Arguments experiment_repetitions {E}.
Arguments random_state {E}.
Arguments estimators_ {E}.
Arguments param_grids_ {E}.
Arguments random_states_ {E}.
Arguments results_ {E}.

Definition set_own {E} (v : _) (e : Experiment E) : Experiment E :=
  {| own := v; scoring := scoring e; cv := cv e; n_jobs := n_jobs e;
     datasets := datasets e;
     experiment_repetitions := experiment_repetitions e;
     random_state := random_state e; estimators_ := estimators_ e;
     param_grids_ := param_grids_ e; random_states_ := random_states_ e;
     results_ := results_ e |}.

Definition set_datasets {E} (v : _) (e : Experiment E) : Experiment E :=
  {| own := own e; scoring := scoring e; cv := cv e; n_jobs := n_jobs e;
     datasets := v; experiment_repetitions := experiment_repetitions e;
     random_state := random_state e; estimators_ := estimators_ e;
     param_grids_ := param_grids_ e; random_states_ := random_states_ e;
     results_ := results_ e |}.

Definition set_estimators_ {E} (v : _) (e : Experiment E) : Experiment E :=
  {| own := own e; scoring := scoring e; cv := cv e; n_jobs := n_jobs e;
     datasets := datasets e;
     experiment_repetitions := experiment_repetitions e;
     random_state := random_state e; estimators_ := v;
     param_grids_ := param_grids_ e; random_states_ := random_states_ e;
     results_ := results_ e |}.

Definition set_param_grids_ {E} (v : _) (e : Experiment E) : Experiment E :=
  {| own := own e; scoring := scoring e; cv := cv e; n_jobs := n_jobs e;
     datasets := datasets e;
     experiment_repetitions := experiment_repetitions e;
     random_state := random_state e; estimators_ := estimators_ e;
     param_grids_ := v; random_states_ := random_states_ e;
     results_ := results_ e |}.

Definition set_random_states_ {E} (v : _) (e : Experiment E) : Experiment E :=
  {| own := own e; scoring := scoring e; cv := cv e; n_jobs := n_jobs e;
     datasets := datasets e;
     experiment_repetitions := experiment_repetitions e;
     random_state := random_state e; estimators_ := estimators_ e;
     param_grids_ := param_grids_ e; random_states_ := v;
     results_ := results_ e |}.

Definition set_results_ {E} (v : _) (e : Experiment E) : Experiment E :=
  {| own := own e; scoring := scoring e; cv := cv e; n_jobs := n_jobs e;
     datasets := datasets e;
     experiment_repetitions := experiment_repetitions e;
     random_state := random_state e; estimators_ := estimators_ e;
     param_grids_ := param_grids_ e; random_states_ := random_states_ e;
     results_ := v |}.

(** [ProgressBar(redirect_stdout=False, max_value=...)] and the value it
    was last updated with. *)
Record ProgressBar : Type := {
  max_value : Z;
  value : Z;
}.

(** One combination of the run, and one call of [fit] as the run made it. *)
Definition Combination : Type := option Z * Dataset * (Est * Grid).

Record Call : Type := {
  call_combination : Combination;
  call_search : GridSearchCV;
  call_result : outcome Fitted;
}.

(** The experiment object, the locals [progress_bar] and [iterations] of
    [run], and the world around them: the warning filters installed, the
    ambient random generator, the files written by [save].  [calls]
    records the calls of [fit] in the order they were made. *)
Record State (E : Type) : Type := {
  self : Experiment E;
  filters : list string;
  ambient : Ambient;
  progress_bar : option ProgressBar;
  iterations : Z;
  calls : list Call;
  files : list (string * Experiment E);
}.
Arguments self {E}.
Arguments filters {E}.
Arguments ambient {E}.
Arguments progress_bar {E}.
Arguments iterations {E}.
Arguments calls {E}.
Arguments files {E}.

Definition with_self {E} (f : Experiment E → Experiment E) (s : State E)
  : State E :=
  {| self := f (self s); filters := filters s; ambient := ambient s;
     progress_bar := progress_bar s; iterations := iterations s;
     calls := calls s; files := files s |}.

Definition set_filters {E} (v : _) (s : State E) : State E :=
  {| self := self s; filters := v; ambient := ambient s;
     progress_bar := progress_bar s; iterations := iterations s;
     calls := calls s; files := files s |}.

Definition set_progress_bar {E} (v : _) (s : State E) : State E :=
  {| self := self s; filters := filters s; ambient := ambient s;
     progress_bar := v; iterations := iterations s; calls := calls s;
     files := files s |}.

Definition set_iterations {E} (v : _) (s : State E) : State E :=
  {| self := self s; filters := filters s; ambient := ambient s;
     progress_bar := progress_bar s; iterations := v; calls := calls s;
     files := files s |}.

Definition set_files {E} (v : _) (s : State E) : State E :=
  {| self := self s; filters := filters s; ambient := ambient s;
     progress_bar := progress_bar s; iterations := iterations s;
     calls := calls s; files := v |}.

(** The state a call starts from. *)
Definition start {E} (e : Experiment E) (a : Ambient) : State E :=
  {| self := e; filters := []; ambient := a; progress_bar := None;
     iterations := 0; calls := []; files := [] |}.

(** Reading an attribute that may not exist. *)
Definition attr {A} (name : string) (v : option A) : outcome A :=
  match v with
  | Some a => Ok a
  | None => Raise (AttributeError name)
  end.

(** [filterwarnings(action)] puts a filter in front of the others. *)
Definition filterwarnings {E} (action : string) (s : State E) : State E :=
  set_filters (action :: filters s) s.

(** [gscv.fit(X, y)] as a step of the run: the call is recorded with its
    result, and a raised exception propagates. *)
Definition do_fit {E} (c : Combination) (gscv : GridSearchCV) (X : Frame)
    (y : Column) : M (State E) Fitted :=
  λ s,
    let '(result, a) := fit (ambient s) gscv X y in
    (result,
     {| self := self s; filters := filters s; ambient := a;
        progress_bar := progress_bar s; iterations := iterations s;
        calls := calls s ++
          [{| call_combination := c; call_search := gscv;
              call_result := result |}];
        files := files s |}).

(** The body of the loop over the combinations, lines 135-142 (the same
    text as lines 228-235 and 316-323). *)
Definition run_combination {E} (c : Combination) : M (State E) unit :=
  let '(random_state, (dataset_name, (X, y)), (estimator, param_grid)) := c in
  let! e := gets self in
  let! cv := lift (check_cv (cv e) y (is_classifier estimator)) in
  let cv := set_shuffle true cv in
  let cv := set_splitter_random_state random_state cv in
  let gscv := {| gs_estimator := estimator; gs_param_grid := param_grid;
                 gs_scoring := scoring e; gs_cv := cv; gs_refit := false;
                 gs_n_jobs := n_jobs e |} in
  let! fitted := do_fit c gscv X y in
  (let! e := gets self in
   let! results := lift (attr "results_" (results_ e)) in
   modify (with_self (set_results_ (Some (results ++ [(dataset_name, fitted)])))));;
  modify (λ s, set_iterations (iterations s + 1) s);;
  let! iterations := gets iterations in
  let! bar := gets progress_bar in
  match bar with
  | Some bar =>
      modify (set_progress_bar
                (Some {| max_value := max_value bar; value := iterations |}))
  | None => raise (AttributeError "progress_bar")
  end.

(** Lines 123-142 (the same text as lines 216-235 and 304-323): the seeds
    are resolved, the total is computed for the progress bar, and the
    combinations are run. *)
Definition run_combinations {E} (datasets : list Dataset) : M (State E) unit :=
  (let! e := gets self in
   let! random_states :=
     lift (check_random_states (random_state e) (experiment_repetitions e)) in
   modify (with_self (set_random_states_ (Some random_states))));;
  let! e := gets self in
  let! random_states := lift (attr "random_states_" (random_states_ e)) in
  let! estimators := lift (attr "estimators_" (estimators_ e)) in
  modify (set_progress_bar
            (Some {| max_value := Z.of_nat (length random_states)
                                  * Z.of_nat (length datasets)
                                  * Z.of_nat (length estimators);
                     value := 0 |}));;
  modify (set_iterations 0);;
  let! param_grids := lift (attr "param_grids_" (param_grids_ e)) in
  let combinations :=
    product random_states datasets (zip estimators param_grids) in
  modify (with_self (set_results_ (Some [])));;
  for_each combinations run_combination.

(** [ExtendedExperiment.run], lines 108-142. *)
Definition ExtendedExperiment_run (hide_warnings : bool)
  : M (State (list Spec)) unit :=
  modify (filterwarnings (if hide_warnings then "ignore" else "default"));;
  let! e := gets self in
  match datasets e with
  | None => ret tt
  | Some given =>
      let! datasets := lift (check_datasets given) in
      (let! estimators := lift (check_estimators (Specs (own e))) in
       modify (with_self (set_estimators_ (Some estimators))));;
      (let! param_grids := lift (check_param_grids (Specs (own e)) None) in
       modify (with_self (set_param_grids_ (Some param_grids))));;
      run_combinations datasets
  end.

(** [KaggleCompetition.run], lines 288-323, is the same text. *)
Definition KaggleCompetition_run (hide_warnings : bool)
  : M (State (list Spec)) unit :=
  ExtendedExperiment_run hide_warnings.

(** The attributes particular to a [ResamplingExperiment]; [estimators]
    does not exist before [run] sets it. *)
Record Resampling : Type := {
  classifiers : list Spec;
  resamplers : list Spec;
  estimators : option (list (list Spec));
}.

(** Line 212: one list of tuples per (resampler, classifier) pair. *)
Definition chain (pair : Spec * Spec) : list Spec :=
  let '(resampler, classifier) := pair in
  match spec_estimator resampler with
  | Some _ => [resampler; classifier]
  | None => [classifier]
  end.

Definition resampling_estimators (resamplers classifiers : list Spec)
  : list (list Spec) :=
  chain <$> product2 resamplers classifiers.

(** [ResamplingExperiment.run], lines 198-235. *)
Definition ResamplingExperiment_run (hide_warnings : bool)
  : M (State Resampling) unit :=
  modify (filterwarnings (if hide_warnings then "ignore" else "default"));;
  let! e := gets self in
  match datasets e with
  | None => ret tt
  | Some given =>
      let! datasets := lift (check_datasets given) in
      let estimators :=
        resampling_estimators (resamplers (own e)) (classifiers (own e)) in
      modify (with_self (λ e,
        set_own {| classifiers := classifiers (own e);
                   resamplers := resamplers (own e);
                   estimators := Some estimators |} e));;
      (let! checked := lift (check_estimators (Chains estimators)) in
       modify (with_self (set_estimators_ (Some checked))));;
      (let! param_grids :=
         lift (check_param_grids (Chains estimators) (Some "resampling")) in
       modify (with_self (set_param_grids_ (Some param_grids))));;
      run_combinations datasets
  end.

(** [BaseExperiment.save], lines 52-57, and [KaggleCompetition.save],
    lines 325-330: the dataset attribute is deleted unless asked
    otherwise, then the object is written. *)
Definition save {E} (filename : string) (pickle_datasets : bool)
  : M (State E) unit :=
  (if pickle_datasets then ret tt
   else modify (with_self (set_datasets None)));;
  modify (λ s, set_files (files s ++ [(filename, self s)]) s).

End Model.

Arguments own {_ E} _.
Arguments scoring {_ E} _.
Arguments cv {_ E} _.
Arguments n_jobs {_ E} _.
Arguments datasets {_ E} _.
Arguments experiment_repetitions {_ E} _.
Arguments random_state {_ E} _.
Arguments estimators_ {_ E} _.
Arguments param_grids_ {_ E} _.
Arguments random_states_ {_ E} _.
Arguments results_ {_ E} _.
Arguments self {_ E} _.
Arguments filters {_ E} _.
Arguments ambient {_ E} _.
Arguments progress_bar {_ E} _.
Arguments iterations {_ E} _.
Arguments calls {_ E} _.
Arguments files {_ E} _.

End Hyperlearn.

(** ** Vocabulary of the statements *)

Module Wording.

(** How many times [element] occurs in [before]. *)
Definition seen (element : string) (before : list string) : Z :=
  Z.of_nat (length (filter (λ x, x = element) before)).

(** The name [count_elements] gives the element at position [i]: the
    element itself when it was not met before, the element followed by
    its occurrence number otherwise. *)
Definition canonical (elements : list string) (i : nat) (element : string)
  : string :=
  let k := seen element (take i elements) in
  if k =? 0 then element else element +:+ str (k + 1).

(** The dictionary of [count_elements] holds the number of occurrences of
    every element met so far, and nothing for the others. *)
Definition counts (before : list string) (elements_map : gmap string Z)
  : Prop :=
  ∀ element, elements_map !! element =
             if seen element before =? 0 then None
             else Some (seen element before).

End Wording.

Module BinaryWording.
Import Imbtools.

Section Wording.
Context `{Library}.

(** The state [_initialize_parameters] leaves when it ends normally with
    the dataset dictionary [d], the process being in directory [dir]. *)
Definition initialized (d : dict (Frame * Column)) (dir : string) (s : State)
  : State :=
  let e := self s in
  {| self :=
       {| oversampling_methods := oversampling_methods e;
          classifiers := classifiers e;
          metrics := metrics e;
          datasets := Dict d;
          experiment_n_splits := experiment_n_splits e;
          experiment_repetitions := experiment_repetitions e;
          experiment_random_state := experiment_random_state e;
          scorers_ := make_scorer <$> metrics e;
          random_states_ :=
            resolve_random_states (experiment_random_state e)
              (experiment_repetitions e);
          cv_scores_ := [];
          classifiers_names_ :=
            count_elements ((λ c, class_name (Some c)) <$> classifiers e);
          oversampling_methods_names_ :=
            count_elements (class_name <$> oversampling_methods e);
          metrics_names_ := metric_name <$> metrics e |};
     clf := clf s; cwd := dir; stdout := stdout s; ambient := ambient s;
     calls := calls s |}.

(** The scores of the calls that ended normally, in order. *)
Definition completed_scores (log : list Call) : list Score :=
  omap (λ c, match call_result c with
             | Ok v => Some v
             | Raise _ => None
             end) log.

Definition call_ok (c : Call) : Prop := is_ok (call_result c) = true.

(** The invariant of [run]: the score list holds the scores of the calls
    made, none of which raised, and no call was given a shuffling
    splitter. *)
Definition tidy (s : State) : Prop :=
  cv_scores_ (self s) = completed_scores (calls s)
  ∧ Forall call_ok (calls s)
  ∧ Forall (λ c, shuffle (call_cv c) = false) (calls s).

(** What holds when [run] raises [e]: the same, except that the last
    call may be the one that raised [e]. *)
Definition stopped (e : exn) (s : State) : Prop :=
  cv_scores_ (self s) = completed_scores (calls s)
  ∧ Forall (λ c, shuffle (call_cv c) = false) (calls s)
  ∧ (Forall call_ok (calls s)
     ∨ ∃ before c, calls s = before ++ [c] ∧ Forall call_ok before
                   ∧ call_result c = Raise e).

(** What the loops of [run] leave as it is: the seeds, the number of
    classifiers and of oversampling methods, the scorers, the datasets. *)
Definition shape (rss : list (option Z)) (n_classifiers n_oversamplers : nat)
    (sc : list Scorer) (d : dict (Frame * Column)) (s : State) : Prop :=
  random_states_ (self s) = rss
  ∧ length (classifiers (self s)) = n_classifiers
  ∧ length (oversampling_methods (self s)) = n_oversamplers
  ∧ scorers_ (self s) = sc
  ∧ datasets (self s) = Dict d.

(** The loop indices of the calls made so far. *)
Definition trace (s : State) : list (Z * Z * Z * Z * Z) :=
  call_indices <$> calls s.

(** The loop indices in the order the loops of [run] nest: experiment,
    classifier, oversampling method, scorer, dataset. *)
Definition nested_indices (n_experiments n_classifiers n_oversamplers
    n_scorers n_datasets : nat) : list (Z * Z * Z * Z * Z) :=
  i ← range (Z.of_nat n_experiments);
  c ← range (Z.of_nat n_classifiers);
  o ← range (Z.of_nat n_oversamplers);
  m ← range (Z.of_nat n_scorers);
  d ← range (Z.of_nat n_datasets);
  [(i, c, o, m, d)].

End Wording.

End BinaryWording.

Module ExperimentWording.
Import Hyperlearn.

Section Wording.
Context `{Types} `{!Library} `{!Utils}.

Definition seed_of (c : Combination) : option Z := c.1.1.
Definition dataset_name_of (c : Combination) : string := c.1.2.1.

(** The score records of the calls that ended normally, in order. *)
Definition completed (log : list Call) : list (string * Fitted) :=
  omap (λ c, match call_result c with
             | Ok fitted => Some (dataset_name_of (call_combination c), fitted)
             | Raise _ => None
             end) log.

Definition call_ok (c : Call) : Prop := is_ok (call_result c) = true.

(** The splitter of a call shuffles and is seeded with the seed of the
    call's combination. *)
Definition seeded_shuffled (c : Call) : Prop :=
  shuffle (gs_cv (call_search c)) = true
  ∧ splitter_random_state (gs_cv (call_search c))
    = seed_of (call_combination c).

(** The invariant of the loop of [run] once the combinations [done] have
    been evaluated, [total] being the total given to the progress bar. *)
Definition during {E} (total : Z) (done : list Combination) (s : State E)
  : Prop :=
  results_ (self s) = Some (completed (calls s))
  ∧ call_combination <$> calls s = done
  ∧ Forall call_ok (calls s)
  ∧ Forall seeded_shuffled (calls s)
  ∧ progress_bar s
    = Some {| max_value := total; value := Z.of_nat (length done) |}
  ∧ iterations s = Z.of_nat (length done).

(** What holds when the loop raises [err]: the calls made are a prefix of
    the combinations, and only the last call may have raised. *)
Definition halted {E} (total : Z) (combinations : list Combination)
    (err : exn) (s : State E) : Prop :=
  results_ (self s) = Some (completed (calls s))
  ∧ (call_combination <$> calls s) `prefix_of` combinations
  ∧ Forall seeded_shuffled (calls s)
  ∧ (∃ v, progress_bar s = Some {| max_value := total; value := v |})
  ∧ (Forall call_ok (calls s)
     ∨ ∃ before c, calls s = before ++ [c] ∧ Forall call_ok before
                   ∧ call_result c = Raise err).

(** The precomputed number of iterations. *)
Definition total_iterations (seeds : list (option Z))
    (datasets : list Dataset) (estimators : list Est) : Z :=
  Z.of_nat (length seeds) * Z.of_nat (length datasets)
  * Z.of_nat (length estimators).

(** Two experiment objects built with the same arguments. *)
Definition same_configuration {E} (e1 e2 : Experiment E) : Prop :=
  own e1 = own e2 ∧ scoring e1 = scoring e2 ∧ cv e1 = cv e2
  ∧ n_jobs e1 = n_jobs e2 ∧ datasets e1 = datasets e2
  ∧ experiment_repetitions e1 = experiment_repetitions e2
  ∧ random_state e1 = random_state e2.

(** Two states that differ at most in the ambient random generator. *)
Definition agree {E} (s1 s2 : State E) : Prop :=
  self s1 = self s2 ∧ filters s1 = filters s2
  ∧ progress_bar s1 = progress_bar s2 ∧ iterations s1 = iterations s2
  ∧ calls s1 = calls s2 ∧ files s1 = files s2.

(** The fit is a function of its arguments whenever the splitter is
    seeded: the ambient random generator plays no part in the result. *)
Definition fit_deterministic_when_seeded : Prop :=
  ∀ (a a' : Ambient) (gscv : GridSearchCV) (X : Frame) (y : Column),
    splitter_random_state (gs_cv gscv) ≠ None →
    (fit a gscv X y).1 = (fit a' gscv X y).1.

(** Seeds derived from an integer base seed are integers. *)
Definition seeds_derived_from_seed : Prop :=
  ∀ (base : Z) (n : Z) (seeds : list (option Z)),
    check_random_states (Some base) n = Ok seeds →
    Forall (λ r, r ≠ None) seeds.

End Wording.

End ExperimentWording.

(** ** Concrete libraries and experiments for the examples *)

Module BinaryDemo.
Import Imbtools.

(** A library in which the directory [reports] holds no csv file and
    every other directory holds one, scores count the calls made so far,
    and scoring a dataset without feature columns raises. *)
#[export] Instance library : Library :=
  {| Score := Z;
     Ambient := Z;
     chdir := λ _, Ok tt;
     listdir := λ path,
       Ok (if String.eqb path "reports" then ["notes.txt"; "README"]
           else ["iris.csv"; "notes.txt"]);
     read_csv := λ _ _, Ok [["5.1"; "4.9"]; ["0"; "1"]];
     cross_val_score := λ a _ X _ _ _,
       (match X with
        | [] => Raise (LibraryError "no feature column")
        | _ => Ok a
        end, a + 1) |}.

Definition smote : Estimator := Leaf "SMOTE" true None.
Definition svc : Estimator := Leaf "SVC" true None.
Definition forest : Estimator := Leaf "RandomForestClassifier" true None.
Definition f1 : Metric := {| metric_name := "f1_score" |}.
Definition good : Frame * Column := ([["5.1"; "4.9"]], ["0"; "1"]).
Definition bad : Frame * Column := ([], ["0"; "1"]).

(** One oversampler, one classifier, one metric, two datasets, one
    repetition. *)
Definition two_datasets : BinaryExperiment :=
  init [Some smote] [svc] [f1] (Dict [("a", good); ("b", good)]) 3 1 (Some 7).

(** The oversampler is [None]. *)
Definition no_oversampler : BinaryExperiment :=
  init [None] [svc] [f1] (Dict [("a", good)]) 3 1 (Some 7).

(** Two classifiers and two datasets. *)
Definition two_by_two : BinaryExperiment :=
  init [Some smote] [svc; forest] [f1] (Dict [("a", good); ("b", good)])
    3 1 (Some 7).

(** The second of three datasets cannot be scored. *)
Definition second_fails : BinaryExperiment :=
  init [Some smote] [svc] [f1]
    (Dict [("a", good); ("b", bad); ("c", good)]) 3 1 (Some 7).

(** The datasets are to be read from a directory without csv files. *)
Definition from_reports : BinaryExperiment :=
  init [Some smote] [svc] [f1] (DirPath "reports") 3 2 (Some 7).

End BinaryDemo.

Module ExperimentDemo.
Import Hyperlearn.

#[export] Instance types : Types :=
  {| Obj := string; RawGrid := list Z; Est := string; Grid := list Z;
     Scoring := list string; CV := Z; SplitterBase := Z; Fitted := Z;
     Ambient := Z |}.

(** A library in which the directory [reports] holds no csv file,
    [check_cv] returns a splitter that does not shuffle, a fit returns
    the seed of its splitter, or the state of the ambient generator when
    there is none, and fitting a dataset without feature columns raises. *)
#[export] Instance library : Library :=
  {| listdir := λ path,
       Ok (if String.eqb path "reports" then ["notes.txt"; "README"]
           else ["iris.csv"; "notes.txt"]);
     read_csv := λ _, Ok [["5.1"; "4.9"]; ["0"; "1"]];
     is_classifier := λ _, true;
     check_cv := λ n _ _,
       Ok {| splitter_base := n; shuffle := false;
             splitter_random_state := None |};
     fit := λ a gscv X _,
       (match X with
        | [] => Raise (LibraryError "no feature column")
        | _ => Ok (default a (splitter_random_state (gs_cv gscv)))
        end, a + 1) |}.

(** Modelled from the spec: the validators of [hyperlearn/utils.py],
    which is not among the sources.  Datasets given as a list are
    returned as they are; an estimator is validated to its name, or to
    the names of its chain; a missing grid is the empty grid, so that
    there is one grid per estimator; the seeds are derived from the base
    seed per repetition index, and are [None] for the base seed [None]. *)
#[export] Instance utils : Utils :=
  {| check_datasets := λ datasets, Ok datasets;
     check_estimators := λ estimators,
       Ok match estimators with
          | Specs l => spec_name <$> l
          | Chains l => (λ c, String.concat "+" (spec_name <$> c)) <$> l
          end;
     check_param_grids := λ estimators _,
       Ok match estimators with
          | Specs l => (λ s, default [] (spec_param_grid s)) <$> l
          | Chains l =>
              (λ c, mjoin ((λ s, default [] (spec_param_grid s)) <$> c)) <$> l
          end;
     check_random_states := λ random_state n,
       Ok (Imbtools.resolve_random_states random_state n) |}.

Definition spec (name : string) : Spec :=
  {| spec_name := name; spec_estimator := Some name;
     spec_param_grid := Some [1; 10] |}.
Definition good : Frame * Column := ([["5.1"; "4.9"]], ["0"; "1"]).
Definition bad : Frame * Column := ([], ["0"; "1"]).

Definition experiment (datasets : option (list (Dataset)))
    (random_state : option Z) : Experiment (list Spec) :=
  {| own := [spec "SVC"; spec "KNN"]; scoring := ["f1"]; cv := 3;
     n_jobs := 1; datasets := datasets; experiment_repetitions := 2;
     random_state := random_state; estimators_ := None;
     param_grids_ := None; random_states_ := None; results_ := None |}.

(** Two seeds, two datasets, two estimators. *)
Definition two_cubed : Experiment (list Spec) :=
  experiment (Some [("a", good); ("b", good)]) (Some 3).

(** The second dataset cannot be fitted. *)
Definition second_fails : Experiment (list Spec) :=
  experiment (Some [("a", good); ("b", bad)]) (Some 3).

Definition no_dataset : Experiment (list Spec) :=
  experiment (Some []) (Some 3).

Definition stripped : Experiment (list Spec) :=
  experiment None (Some 3).

End ExperimentDemo.

(** ** Vocabulary of the further properties *)

Module FileNameWording.

(** No character of [s] is a line feed. *)
Fixpoint one_line (s : string) : bool :=
  match s with
  | EmptyString => true
  | String c s' => negb (is_newline c) && one_line s'
  end.

(** [s] begins with [csv]. *)
Definition csv_then (s rest : string) : Prop :=
  s = String "c" (String "s" (String "v" rest)).

End FileNameWording.

Module BinaryRunWording.
Import Imbtools BinaryWording.

Section Wording.
Context `{Library}.

(** The calls that ended normally. *)
Definition completed_calls (log : list Call) : list Call :=
  filter (λ c, is_ok (call_result c) = true) log.

(** The message [m] is the one line 83 prints for the call [c] of an
    experiment [e]: the number of the repetition, the names at the loop
    indices of the call, and the score the call returned. *)
Definition describes (e : BinaryExperiment) (m : Message) (c : Call) : Prop :=
  let '(experiment_ind, clf_ind, oversampling_method_ind, scorer_ind,
        dataset_ind) := call_indices c in
  call_result c = Ok (msg_cv_score m)
  ∧ msg_experiment m = experiment_ind + 1
  ∧ index (classifiers_names_ e) clf_ind = Ok (msg_classifier m)
  ∧ index (oversampling_methods_names_ e) oversampling_method_ind
    = Ok (msg_oversampling_method m)
  ∧ index (metrics_names_ e) scorer_ind = Ok (msg_metric m)
  ∧ ∃ names, keys (datasets e) = Ok names
             ∧ index names dataset_ind = Ok (msg_dataset m).

(** The names and the datasets of [e], which the loops of [run] leave
    as they are. *)
Definition same_names (e e' : BinaryExperiment) : Prop :=
  classifiers_names_ e' = classifiers_names_ e
  ∧ oversampling_methods_names_ e' = oversampling_methods_names_ e
  ∧ metrics_names_ e' = metrics_names_ e
  ∧ datasets e' = datasets e.

(** The printed messages describe the completed calls, one by one. *)
Definition logged (e : BinaryExperiment) (s : State) : Prop :=
  same_names e (self s)
  ∧ Forall2 (describes e) (stdout s) (completed_calls (calls s)).

(** The name lists are as long as the lists they name, and the loops of
    [run] keep all these lengths and the datasets. *)
Definition aligned (n_classifiers n_oversamplers n_scorers : nat)
    (d : dict (Frame * Column)) (s : State) : Prop :=
  length (classifiers (self s)) = n_classifiers
  ∧ length (oversampling_methods (self s)) = n_oversamplers
  ∧ length (scorers_ (self s)) = n_scorers
  ∧ datasets (self s) = Dict d
  ∧ length (classifiers_names_ (self s)) = n_classifiers
  ∧ length (oversampling_methods_names_ (self s)) = n_oversamplers
  ∧ length (metrics_names_ (self s)) = n_scorers.

(** The two exceptions [set_params] raises. *)
Definition set_params_error (e : exn) : Prop :=
  e = AttributeError "'NoneType' object has no attribute 'set_params'"
  ∨ e = ValueError "Invalid parameter random_state".

(** The exception [e] was raised by [set_params], or by the last call of
    [cross_val_score]. *)
Definition raised_by_a_call (e : exn) (s : State) : Prop :=
  set_params_error e
  ∨ ∃ c, last (calls s) = Some c ∧ call_result c = Raise e.

(** What the loading loop of [_initialize_parameters] has made of the
    files [done] of the directory [path]: the names are pairwise
    distinct, they are the names derived from the files, each dataset
    is the split of a file with that derived name, and files whose
    derived names coincide leave one dataset. *)
Definition loaded (path : string) (done : list string)
    (d : dict (Frame * Column)) : Prop :=
  NoDup d.*1
  ∧ (∀ name, name ∈ d.*1 ↔ name ∈ sub_csv <$> done)
  ∧ (∀ name data, (name, data) ∈ d →
       ∃ f frame, f ∈ done ∧ name = sub_csv f
                  ∧ read_csv path f = Ok frame
                  ∧ split_target frame = Ok data)
  ∧ (length d ≤ length done)%nat.

End Wording.

End BinaryRunWording.


(** ** hyperlearn/experiment.py, [load_experiment] *)

Module Persistence.
Import Hyperlearn.

Section Model.
Context `{Types}.

(** What [pickle.load] returns: an experiment object, or an object of a
    class that does not derive from [BaseExperiment]. *)
Inductive Pickled (E : Type) : Type :=
| Experiment_object (e : Experiment E)
| Other_object.
Arguments Experiment_object {E} e.
Arguments Other_object {E}.

(** [load(open(filename, 'rb'))]: the object [save] wrote last under
    that name; for a name [save] has not written, what the file system
    [disk] holds, an [OSError] where there is no such file. *)
Definition load {E} (disk : string → outcome (Pickled E))
    (filename : string) (s : State E) : outcome (Pickled E) :=
  match last (List.filter (λ f, String.eqb f.1 filename) (files s)) with
  | Some f => Ok (Experiment_object f.2)
  | None => disk filename
  end.

(** [load_experiment], lines 33-38.  The message of line 37 is a format
    string that is never formatted. *)
Definition load_experiment {E} (disk : string → outcome (Pickled E))
    (filename : string) : M (State E) (Experiment E) :=
  let! loaded_obj := (λ s, (load disk filename s, s)) in
  match loaded_obj with
  | Experiment_object e => ret e
  | Other_object =>
      raise (TypeError "File {} is not a BinaryExperiment instance.")
  end.

End Model.

Arguments Experiment_object {_ E} e.
Arguments Other_object {_ E}.

End Persistence.

Module ExperimentRunWording.
Import Hyperlearn ExperimentWording.

Section Wording.
Context `{Types} `{!Library} `{!Utils}.

(** The dataset [d] is what [read_csv_dir] makes of the file [f] of the
    directory [dirpath]. *)
Definition read_from (dirpath : string) (f : string) (d : Dataset) : Prop :=
  d.1 = sub_csv f
  ∧ ∃ frame, read_csv (path_join dirpath f) = Ok frame
             ∧ split_target frame = Ok d.2.

(** Reading the file [f] raises [e], in the parser or at the split. *)
Definition unreadable (dirpath : string) (e : exn) (f : string) : Prop :=
  read_csv (path_join dirpath f) = Raise e
  ∨ ∃ frame, read_csv (path_join dirpath f) = Ok frame
             ∧ split_target frame = Raise e.

(** The search of the call [c] is built as lines 138, 231 and 319 build
    it for the experiment [e]: the estimator and the grid of the
    combination, the scoring and the number of jobs of the experiment,
    and no refit. *)
Definition search_of {E} (e : Experiment E) (c : Call) : Prop :=
  gs_estimator (call_search c) = (call_combination c).2.1
  ∧ gs_param_grid (call_search c) = (call_combination c).2.2
  ∧ gs_scoring (call_search c) = scoring e
  ∧ gs_n_jobs (call_search c) = n_jobs e
  ∧ gs_refit (call_search c) = false.

(** The attributes the constructors set from their arguments, the
    class's own apart: [e'] has them as [e] has. *)
Definition same_arguments {E} (e e' : Experiment E) : Prop :=
  scoring e' = scoring e ∧ cv e' = cv e ∧ n_jobs e' = n_jobs e
  ∧ datasets e' = datasets e
  ∧ experiment_repetitions e' = experiment_repetitions e
  ∧ random_state e' = random_state e.

(** What the loop of [run] keeps, whatever its outcome: the class's own
    attributes [x], the arguments of [e], the warning filters [fs], the
    files [fl], and that every call made since the log was [log] has the
    search of [e]. *)
Definition kept {E} (x : E) (e : Experiment E) (fs : list string)
    (fl : list (string * Experiment E)) (log : list Call) (s : State E)
  : Prop :=
  own (self s) = x ∧ same_arguments e (self s) ∧ filters s = fs
  ∧ files s = fl
  ∧ ∃ new, calls s = log ++ new ∧ Forall (search_of e) new.

(** The attributes of a [ResamplingExperiment] once line 213 has run. *)
Definition with_chains (x : Resampling) : Resampling :=
  {| classifiers := classifiers x; resamplers := resamplers x;
     estimators := Some (resampling_estimators (resamplers x)
                           (classifiers x)) |}.

(** The action [run] gives to [filterwarnings]. *)
Definition warning_action (hide_warnings : bool) : string :=
  if hide_warnings then "ignore" else "default".

End Wording.

End ExperimentRunWording.

(** ** Further concrete libraries and experiments *)

Module BinaryRunDemo.
Import Imbtools BinaryDemo.

(** The datasets are to be read from a directory with one csv file. *)
Definition from_data : BinaryExperiment :=
  init [Some smote] [svc] [f1] (DirPath "data") 3 2 (Some 7).

End BinaryRunDemo.

Module ExperimentRunDemo.
Import Hyperlearn ExperimentDemo.

(** A library in which the directory [missing] cannot be listed and the
    second of the three csv files of any other directory has no column. *)
Definition broken_library : Library :=
  {| listdir := λ path,
       if String.eqb path "missing"
       then Raise (OSError "No such file or directory: 'missing'")
       else Ok ["a.csv"; "notes.txt"; "empty.csv"; "b.csv"];
     read_csv := λ path,
       if String.eqb path "data/empty.csv" then Ok []
       else Ok [["5.1"; "4.9"]; ["0"; "1"]];
     is_classifier := λ _, true;
     check_cv := λ n _ _,
       Ok {| splitter_base := n; shuffle := false;
             splitter_random_state := None |};
     fit := λ a gscv X _, (Ok a, a + 1) |}.

(** A resampler tuple without a resampler object. *)
Definition no_resampler : Spec :=
  {| spec_name := "NO OVERSAMPLING"; spec_estimator := None;
     spec_param_grid := Some [] |}.

Definition resampling (datasets : option (list (Dataset)))
  : Experiment Resampling :=
  {| own := {| classifiers := [spec "SVC"; spec "KNN"];
               resamplers := [no_resampler; spec "SMOTE"];
               estimators := None |};
     scoring := ["f1"]; cv := 3; n_jobs := 1; datasets := datasets;
     experiment_repetitions := 2; random_state := Some 3;
     estimators_ := None; param_grids_ := None; random_states_ := None;
     results_ := None |}.

(** Two seeds, one dataset, two resamplers, two classifiers. *)
Definition two_by_two_chains : Experiment Resampling :=
  resampling (Some [("a", good)]).

(** The second dataset cannot be fitted. *)
Definition second_unfit : Experiment Resampling :=
  resampling (Some [("a", good); ("b", bad)]).

End ExperimentRunDemo.
(** * Reasoning about runs *)

Section Loops.
Context {St : Type}.

(** Running a computation one step at a time. *)
Lemma exec_bind {A B} (m : M St A) (k : A → M St B) s :
  bind m k s = match m s with
               | (Ok a, s') => k a s'
               | (Raise e, s') => (Raise e, s')
               end.
Proof. reflexivity. Qed.

Lemma exec_ret {A} (a : A) (s : St) : ret a s = (Ok a, s).
Proof. reflexivity. Qed.

Lemma exec_raise {A} e (s : St) : raise (A:=A) e s = (Raise e, s).
Proof. reflexivity. Qed.

Lemma exec_gets {A} (f : St → A) s : gets f s = (Ok (f s), s).
Proof. reflexivity. Qed.

Lemma exec_modify (f : St → St) s : modify f s = (Ok tt, f s).
Proof. reflexivity. Qed.

Lemma exec_lift {A} (o : outcome A) (s : St) : lift o s = (o, s).
Proof. reflexivity. Qed.

Lemma for_each_nil_run {A} (body : A → M St unit) s :
  for_each [] body s = (Ok tt, s).
Proof. reflexivity. Qed.

Lemma triple_ret {A} (P : St → Prop) (a : A) Q E :
  (∀ s, P s → Q a s) → triple P (ret a) Q E.
Proof. intros HQ s HP. exact (HQ s HP). Qed.

Lemma triple_raise {A} (P : St → Prop) e (Q : A → St → Prop) E :
  (∀ s, P s → E e s) → triple P (raise e) Q E.
Proof. intros HE s HP. exact (HE s HP). Qed.

Lemma triple_bind {A B} (P : St → Prop) (m : M St A) (k : A → M St B)
    (R : A → St → Prop) Q E :
  triple P m R E → (∀ a, triple (R a) (k a) Q E) → triple P (bind m k) Q E.
Proof.
  intros Hm Hk s HP. unfold bind. specialize (Hm s HP).
  destruct (m s) as [[a|e] s']; [exact (Hk a s' Hm) | exact Hm].
Qed.

Lemma triple_gets {A} (P : St → Prop) (f : St → A) Q E :
  (∀ s, P s → Q (f s) s) → triple P (gets f) Q E.
Proof. intros HQ s HP. exact (HQ s HP). Qed.

Lemma triple_modify (P : St → Prop) (f : St → St) Q E :
  (∀ s, P s → Q tt (f s)) → triple P (modify f) Q E.
Proof. intros HQ s HP. exact (HQ s HP). Qed.

Lemma triple_lift {A} (P : St → Prop) (o : outcome A) Q E :
  (∀ s, P s → match o with Ok a => Q a s | Raise e => E e s end) →
  triple P (lift o) Q E.
Proof. intros HQ s HP. specialize (HQ s HP). unfold lift. destruct o; exact HQ. Qed.

Lemma triple_conseq {A} (P P' : St → Prop) (m : M St A) (Q Q' : A → St → Prop)
    (E E' : exn → St → Prop) :
  triple P' m Q' E' → (∀ s, P s → P' s) → (∀ a s, Q' a s → Q a s) →
  (∀ e s, E' e s → E e s) → triple P m Q E.
Proof.
  intros Hm HP HQ HE s Hs. specialize (Hm s (HP s Hs)).
  destruct (m s) as [[a|e] s']; [exact (HQ a s' Hm) | exact (HE e s' Hm)].
Qed.

(** The loop rule: [I done] holds when the elements [done] have been
    processed. *)
Lemma triple_for_each {A} (I : list A → St → Prop) (E : exn → St → Prop)
    (body : A → M St unit) (l : list A) :
  (∀ done x rest, l = done ++ x :: rest →
     triple (I done) (body x) (λ _, I (done ++ [x])) E) →
  triple (I []) (for_each l body) (λ _, I l) E.
Proof.
  intros Hbody.
  assert (Hgen : ∀ rest done, l = done ++ rest →
            triple (I done) (for_each rest body) (λ _, I l) E).
  { induction rest as [|x rest IH]; intros done Hl.
    - rewrite app_nil_r in Hl. rewrite Hl. apply triple_ret. auto.
    - simpl. eapply triple_bind; [exact (Hbody done x rest Hl)|].
      intros []. apply IH. rewrite <- app_assoc. exact Hl. }
  exact (Hgen l [] eq_refl).
Qed.

(** The same rule for an invariant that does not look at the position. *)
Lemma triple_for_each_same {A} (I : St → Prop) (E : exn → St → Prop)
    (body : A → M St unit) (l : list A) :
  (∀ x, x ∈ l → triple I (body x) (λ _, I) E) →
  triple I (for_each l body) (λ _, I) E.
Proof.
  intros Hbody. apply (triple_for_each (λ _, I)).
  intros done x rest Hl. apply Hbody. subst l. set_solver.
Qed.

(** What every turn keeps, normal or not, the loop keeps. *)
Lemma for_each_keeps {A} (I : St → Prop) (body : A → M St unit)
    (l : list A) :
  (∀ x, triple I (body x) (λ _, I) (λ _, I)) →
  ∀ s, I s → I (for_each l body s).2.
Proof.
  intros Hbody s Hs.
  pose proof (triple_for_each_same I (λ _, I) body l (λ x _, Hbody x) s Hs)
    as Hloop.
  destruct (for_each l body s) as [[[]|e] s']; exact Hloop.
Qed.

(** Two runs of a loop from related states: when the body keeps the
    relation and ends the same way on both sides, so does the loop. *)
Lemma for_each_agree {A} (R : St → St → Prop) (body : A → M St unit)
    (l : list A) :
  (∀ x s1 s2, x ∈ l → R s1 s2 →
     (body x s1).1 = (body x s2).1 ∧ R (body x s1).2 (body x s2).2) →
  ∀ s1 s2, R s1 s2 →
    (for_each l body s1).1 = (for_each l body s2).1
    ∧ R (for_each l body s1).2 (for_each l body s2).2.
Proof.
  induction l as [|x l IH]; intros Hbody s1 s2 HR; [split; [reflexivity|exact HR]|].
  simpl. rewrite !exec_bind.
  destruct (Hbody x s1 s2 (list_elem_of_here x l) HR) as [Ho HR'].
  destruct (body x s1) as [[[]|e1] s1'], (body x s2) as [[[]|e2] s2'];
    simpl in *; try discriminate.
  - apply IH; [|exact HR']. intros y t1 t2 Hy. apply Hbody.
    apply list_elem_of_further. exact Hy.
  - split; [exact Ho|exact HR'].
Qed.

End Loops.

(** In a log whose entries all satisfy [P] except perhaps the last one, an
  entry that does not satisfy [P] is the last one. *)
Lemma only_last_fails {A} (P : A → Prop) (before after earlier : list A) c c' :
before ++ c :: after = earlier ++ [c'] → ¬ P c → Forall P earlier →
after = [] ∧ before = earlier ∧ c = c'.
Proof.
intros Hlog Hc Hok.
destruct after as [|a after _] using rev_ind.
- apply app_inj_tail in Hlog as [-> ->]. auto.
- exfalso. rewrite app_comm_cons, app_assoc in Hlog.
  apply app_inj_tail in Hlog as [<- _].
  apply Forall_app in Hok as [_ Hok]. inversion Hok; auto.
Qed.

Lemma filter_none {A} (f : A → bool) (l : list A) :
(∀ x, x ∈ l → f x = false) → List.filter f l = [].
Proof.
induction l as [|x l IH]; intros Hl; [reflexivity|].
simpl. rewrite (Hl x (list_elem_of_here x l)). apply IH.
intros y Hy. apply Hl. apply list_elem_of_further. exact Hy.
Qed.

(** Symbolic execution of straight-line code. *)
Ltac exec :=
repeat first
  [ rewrite exec_bind | rewrite exec_modify | rewrite exec_gets
  | rewrite exec_ret | rewrite exec_lift | rewrite exec_raise
  | progress cbv beta iota ].

(** * imbtools: names and seeds *)

Module BinaryFacts.
Import Imbtools Wording BinaryWording.

Lemma seen_nil element : seen element [] = 0.
Proof. reflexivity. Qed.

Lemma seen_snoc element before x :
  seen element (before ++ [x]) =
  seen element before + (if decide (x = element) then 1 else 0).
Proof.
  unfold seen. rewrite filter_app, length_app.
  rewrite filter_cons, filter_nil.
  destruct (decide (x = element)); simpl; lia.
Qed.

Lemma seen_nonneg element before : 0 ≤ seen element before.
Proof. unfold seen. lia. Qed.

Lemma counts_empty : counts [] ∅.
Proof. intros element. rewrite lookup_empty. reflexivity. Qed.

Lemma counts_first before m x :
  counts before m → m !! x = None → counts (before ++ [x]) (<[x := 1]> m).
Proof.
  intros Hm Hx element. rewrite seen_snoc.
  pose proof (Hm x) as Hmx. rewrite Hx in Hmx.
  destruct (decide (x = element)) as [->|Hne].
  - rewrite lookup_insert_eq.
    destruct (seen element before =? 0) eqn:E; [|discriminate].
    apply Z.eqb_eq in E. rewrite E. reflexivity.
  - rewrite lookup_insert_ne by exact Hne. rewrite Z.add_0_r. apply Hm.
Qed.

Lemma counts_again before m x n :
  counts before m → m !! x = Some n →
  n = seen x before ∧ counts (before ++ [x]) (<[x := n + 1]> m).
Proof.
  intros Hm Hx. pose proof (Hm x) as Hmx. rewrite Hx in Hmx.
  destruct (seen x before =? 0) eqn:E; [discriminate|].
  injection Hmx as ->. split; [reflexivity|].
  intros element. rewrite seen_snoc.
  destruct (decide (x = element)) as [->|Hne].
  - rewrite lookup_insert_eq.
    pose proof (seen_nonneg element before).
    destruct (seen element before + 1 =? 0) eqn:E'; [lia|reflexivity].
  - rewrite lookup_insert_ne by exact Hne. rewrite Z.add_0_r. apply Hm.
Qed.

Lemma count_elements_loop_spec rest : ∀ before m acc,
  counts before m →
  count_elements_loop rest m acc =
  acc ++ imap (λ i, canonical (before ++ rest) (length before + i)) rest.
Proof.
  induction rest as [|x rest IH]; intros before m acc Hm; simpl.
  - rewrite app_nil_r. reflexivity.
  - assert (Hhere : canonical (before ++ x :: rest) (length before + 0) x =
                    if seen x before =? 0 then x
                    else x +:+ str (seen x before + 1)).
    { unfold canonical. rewrite Nat.add_0_r, take_app_length. reflexivity. }
    assert (Hrest : imap (λ i, canonical ((before ++ [x]) ++ rest)
                                 (length (before ++ [x]) + i)) rest =
                    imap ((λ i, canonical (before ++ x :: rest)
                                  (length before + i)) ∘ S) rest).
    { apply imap_ext. intros i y _. simpl. rewrite <- app_assoc. simpl.
      rewrite length_app. simpl. f_equal. lia. }
    rewrite Hhere.
    destruct (m !! x) as [n|] eqn:Hx.
    + destruct (counts_again before m x n Hm Hx) as [-> Hm'].
      rewrite (IH (before ++ [x]) _ _ Hm'), Hrest, <- app_assoc. simpl.
      pose proof (Hm x) as Hmx. rewrite Hx in Hmx.
      destruct (seen x before =? 0); [discriminate|reflexivity].
    + rewrite (IH (before ++ [x]) _ _ (counts_first before m x Hm Hx)).
      rewrite Hrest, <- app_assoc. simpl.
      pose proof (Hm x) as Hmx. rewrite Hx in Hmx.
      destruct (seen x before =? 0); [reflexivity|discriminate].
Qed.

(** C8, as the code has it.  [count_elements] leaves the first occurrence
    of a name unchanged and gives the k-th occurrence, for k at least 2,
    the name followed by k; so two estimators both named SVC become SVC
    and SVC2. *)
Theorem count_elements_appends_occurrence_number :
  (∀ elements : list string,
     count_elements elements = imap (canonical elements) elements)
  ∧ count_elements ["SVC"; "SVC"] = ["SVC"; "SVC2"].
Proof.
  split; [|vm_compute; reflexivity].
  intros elements. unfold count_elements.
  rewrite (count_elements_loop_spec elements [] ∅ [] counts_empty).
  reflexivity.
Qed.

(** C8, as it is worded, fails: the second SVC is not named SVC1. *)
Lemma count_elements_second_SVC_is_not_SVC1 :
  count_elements ["SVC"; "SVC"] ≠ ["SVC"; "SVC1"].
Proof. vm_compute. discriminate. Qed.

(** C5.  For an integer base seed and a repetition count [n], the
    resolution of line 56 returns [n] seeds, the one at index [i] being
    the base seed times [i], so that the one at index 0 is 0 whatever the
    base seed; for the base seed [None] it returns [n] times [None]. *)
Theorem resolve_random_states_derives_seed_times_index (n : Z) :
  0 ≤ n →
  (∀ seed : Z,
     Z.of_nat (length (resolve_random_states (Some seed) n)) = n
     ∧ (∀ index, 0 ≤ index < n →
          resolve_random_states (Some seed) n !! Z.to_nat index
          = Some (Some (seed * index)))
     ∧ (0 < n → resolve_random_states (Some seed) n !! 0%nat = Some (Some 0)))
  ∧ Z.of_nat (length (resolve_random_states None n)) = n
  ∧ (∀ r, r ∈ resolve_random_states None n → r = None).
Proof.
  intros Hn. split; [intros seed; split; [|split]|split].
  - unfold resolve_random_states, range.
    rewrite length_fmap, length_seqZ. lia.
  - intros index Hindex. unfold resolve_random_states, range.
    rewrite list_lookup_fmap.
    rewrite (proj2 (lookup_seqZ 0 n (Z.to_nat index) index)) by lia.
    reflexivity.
  - intros Hpos. unfold resolve_random_states, range.
    rewrite list_lookup_fmap.
    rewrite (proj2 (lookup_seqZ 0 n 0%nat 0)) by lia.
    simpl. f_equal. f_equal. lia.
  - simpl. rewrite length_replicate. lia.
  - intros r Hr. simpl in Hr. apply elem_of_replicate in Hr. tauto.
Qed.

Lemma resolve_random_states_witness :
  Z.of_nat (length (resolve_random_states (Some 7) 3)) = 3
  ∧ resolve_random_states (Some 7) 3 = [Some 0; Some 7; Some 14]
  ∧ resolve_random_states None 3 = [None; None; None].
Proof.
  destruct (resolve_random_states_derives_seed_times_index 3 ltac:(lia))
    as [Hseed _].
  destruct (Hseed 7) as [Hlen _].
  split; [exact Hlen|]. split; reflexivity.
Defined.

Section Initialization.
Context `{Library}.

(** What [_initialize_parameters] does: a run that ends normally leaves
    the state [initialized]; the dictionary is the given one, or the one
    loaded from the directory, which is empty when no file name there
    matches.  No call of [cross_val_score] is made. *)
Lemma initialize_parameters_spec (s : State) :
  match initialize_parameters s with
  | (Ok _, s') =>
      ∃ d dir, s' = initialized d dir s
        ∧ (∀ d0, datasets (self s) = Dict d0 → d = d0)
        ∧ (∀ path, datasets (self s) = DirPath path →
             ∃ names, listdir path = Ok names
               ∧ (List.filter match_csv names = [] → d = []))
  | (Raise e, s') => calls s' = calls s
  end.
Proof.
  unfold initialize_parameters. exec.
  destruct (datasets (self _)) as [path|d0] eqn:Hd; simpl in Hd.
  - exec. destruct (chdir path) as [[]|e]; [|reflexivity].
    exec. simpl cwd.
    destruct (listdir path) as [names|e] eqn:Hnames; [|reflexivity].
    exec.
    match goal with
    | |- context [for_each ?l ?body ?s0] =>
        set (s1 := s0); set (body0 := body);
        pose proof (triple_for_each_same
          (λ s', ∃ d, s' = with_self (set_datasets (Dict d)) s1)
          (λ _ s', ∃ d, s' = with_self (set_datasets (Dict d)) s1)
          body0 l) as Hloop
    end.
    assert (Hbody : ∀ x, x ∈ List.filter match_csv names →
      triple (λ s', ∃ d, s' = with_self (set_datasets (Dict d)) s1)
        (body0 x)
        (λ _ s', ∃ d, s' = with_self (set_datasets (Dict d)) s1)
        (λ _ s', ∃ d, s' = with_self (set_datasets (Dict d)) s1)).
    { intros x _ s' [d ->]. unfold body0. exec.
      destruct (read_csv path x) as [dataset|e]; [|eexists; reflexivity].
      exec.
      destruct (split_target dataset) as [[X y]|e]; [|eexists; reflexivity].
      exec. eexists (dict_set d (sub_csv x) (X, y)). reflexivity. }
    specialize (Hloop Hbody s1 (ex_intro _ [] eq_refl)).
    assert (Hempty : List.filter match_csv names = [] →
              for_each (List.filter match_csv names) body0 s1 = (Ok tt, s1)).
    { intros ->. reflexivity. }
    destruct (for_each _ body0 s1) as [[[]|e] s2] eqn:Hfor.
    + destruct Hloop as [d ->]. exec. simpl.
      exists d, path. split; [reflexivity|]. split; [discriminate|].
      intros path' [= <-]. exists names. split; [exact Hnames|].
      intros Hnone. specialize (Hempty Hnone).
      injection Hempty as Hs. exact Hs.
    + destruct Hloop as [d ->]. reflexivity.
  - exec. simpl. rewrite Hd. exec.
    exists d0, (cwd s). split; [|split].
    + unfold initialized. destruct s as [e c0 d1 out a log]. simpl in *.
      rewrite <- Hd. reflexivity.
    + intros d1 [= ->]. reflexivity.
    + discriminate.
Qed.

(** Line 56 as a step of the run: [random_states_] is the resolution of
    the base seed and the repetition count the object was built with. *)
Lemma initialize_parameters_resolves_random_states (s s' : State) :
  initialize_parameters s = (Ok tt, s') →
  random_states_ (self s')
  = resolve_random_states (experiment_random_state (self s))
      (experiment_repetitions (self s)).
Proof.
  intros Hinit. pose proof (initialize_parameters_spec s) as Hspec.
  rewrite Hinit in Hspec. destruct Hspec as (d & dir & -> & _).
  reflexivity.
Qed.

(** A directory without a matching file: [_initialize_parameters] ends
    normally and leaves an empty dataset dictionary. *)
Lemma initialize_parameters_no_csv (s : State) path names :
  datasets (self s) = DirPath path → chdir path = Ok tt →
  listdir path = Ok names → (∀ f, f ∈ names → match_csv f = false) →
  initialize_parameters s = (Ok tt, initialized [] path s).
Proof.
  intros Hd Hchdir Hnames Hnone. unfold initialize_parameters. exec.
  cbn [self with_self set_scorers_ datasets]. rewrite Hd. exec.
  rewrite Hchdir. exec. cbn [cwd with_self set_cwd]. rewrite Hnames. exec.
  rewrite (filter_none _ _ Hnone). rewrite for_each_nil_run. exec.
  reflexivity.
Qed.

End Initialization.

Section Invariant.
Context `{Library}.

Lemma completed_scores_snoc_ok log c v :
  call_result c = Ok v →
  completed_scores (log ++ [c]) = completed_scores log ++ [v].
Proof.
  intros Hc. unfold completed_scores. rewrite omap_app. simpl.
  rewrite Hc. reflexivity.
Qed.

Lemma completed_scores_snoc_raise log c e :
  call_result c = Raise e →
  completed_scores (log ++ [c]) = completed_scores log.
Proof.
  intros Hc. unfold completed_scores. rewrite omap_app. simpl.
  rewrite Hc. apply app_nil_r.
Qed.

Lemma tidy_stopped e s : tidy s → stopped e s.
Proof. intros (Hs & Hok & Hcv). repeat split; auto. Qed.

(** A step that touches neither the score list nor the calls keeps the
    invariant. *)
Lemma tidy_frame s s' :
  cv_scores_ (self s') = cv_scores_ (self s) → calls s' = calls s →
  tidy s → tidy s'.
Proof. unfold tidy. intros -> ->. trivial. Qed.

Lemma run_dataset_tidy i cv c o om m scorer d X y :
  shuffle cv = false →
  triple tidy (run_dataset i cv c o om m scorer d X y) (λ _, tidy) stopped.
Proof.
  intros Hcv s Hs. unfold run_dataset. exec.
  set (s1 := match om with
             | Some om0 => set_clf (make_pipeline om0 (clf s)) s
             | None => s
             end).
  assert (Hs1 : tidy s1).
  { destruct om; [apply (tidy_frame s); [reflexivity..|exact Hs]|exact Hs]. }
  assert (Hstep : match om with
                  | Some om0 => modify (λ s, set_clf (make_pipeline om0 (clf s)) s)
                  | None => ret tt
                  end s = (Ok tt, s1)).
  { destruct om; reflexivity. }
  rewrite Hstep. clearbody s1. clear Hstep Hs s. exec.
  destruct (index (classifiers_names_ (self s1)) c) as [clf_name|e];
    [|exact (tidy_stopped _ _ Hs1)]. exec.
  destruct (index (oversampling_methods_names_ (self s1)) o) as [om_name|e];
    [|exact (tidy_stopped _ _ Hs1)]. exec.
  destruct (index (metrics_names_ (self s1)) m) as [metric_name|e];
    [|exact (tidy_stopped _ _ Hs1)]. exec.
  destruct (keys (datasets (self s1))) as [names|e];
    [|exact (tidy_stopped _ _ Hs1)]. exec.
  destruct (index names d) as [dataset_name|e];
    [|exact (tidy_stopped _ _ Hs1)]. exec.
  unfold do_cross_val_score.
  destruct (cross_val_score (ambient s1) (clf s1) X y cv scorer)
    as [[v|e] a] eqn:Hcall.
  - exec. destruct Hs1 as (Hscores & Hok & Hshuffle).
    unfold tidy. simpl. split; [|split].
    + rewrite Hscores. symmetry. apply completed_scores_snoc_ok. reflexivity.
    + apply Forall_app. split; [exact Hok|]. repeat constructor.
    + apply Forall_app. split; [exact Hshuffle|]. repeat constructor.
      exact Hcv.
  - destruct Hs1 as (Hscores & Hok & Hshuffle).
    unfold stopped. simpl. split; [|split].
    + rewrite Hscores. symmetry.
      apply (completed_scores_snoc_raise _ _ e). reflexivity.
    + apply Forall_app. split; [exact Hshuffle|]. repeat constructor.
      exact Hcv.
    + right. eexists _, _. split; [reflexivity|]. split; [exact Hok|].
      reflexivity.
Qed.

Lemma run_scorer_tidy i cv c o om m scorer :
  shuffle cv = false →
  triple tidy (run_scorer i cv c o om m scorer) (λ _, tidy) stopped.
Proof.
  intros Hcv s Hs. unfold run_scorer. exec.
  destruct (values (datasets (self s))) as [data|e];
    [|exact (tidy_stopped _ _ Hs)]. exec.
  apply (triple_for_each_same tidy stopped); [|exact Hs].
  intros [d [X y]] _. apply run_dataset_tidy. exact Hcv.
Qed.

Lemma run_oversampling_method_tidy i r cv c o om :
  shuffle cv = false →
  triple tidy (run_oversampling_method i r cv c o om) (λ _, tidy) stopped.
Proof.
  intros Hcv s Hs. unfold run_oversampling_method. exec.
  destruct (set_params om r) as [om'|e]; [|exact (tidy_stopped _ _ Hs)].
  exec.
  apply (triple_for_each_same tidy stopped);
    [|apply (tidy_frame s); [reflexivity..|exact Hs]].
  intros [m scorer] _. apply run_scorer_tidy. exact Hcv.
Qed.

Lemma run_classifier_tidy i r cv c classifier :
  shuffle cv = false →
  triple tidy (run_classifier i r cv c classifier) (λ _, tidy) stopped.
Proof.
  intros Hcv s Hs. unfold run_classifier. exec.
  destruct (set_params (Some classifier) r) as [c'|e];
    [|apply tidy_stopped; apply (tidy_frame s); [reflexivity..|exact Hs]].
  exec.
  apply (triple_for_each_same tidy stopped);
    [|apply (tidy_frame s); [reflexivity..|exact Hs]].
  intros [o om] _. apply run_oversampling_method_tidy. exact Hcv.
Qed.

Lemma run_experiment_tidy i r :
  triple tidy (run_experiment i r) (λ _, tidy) stopped.
Proof.
  intros s Hs. unfold run_experiment. exec.
  apply (triple_for_each_same tidy stopped); [|exact Hs].
  intros [c classifier] _. apply run_classifier_tidy. reflexivity.
Qed.

(** A run that starts with no call recorded ends with the invariant, or
    raises with it, or raises before its first loop without any call. *)
Lemma run_tidy s :
  calls s = [] →
  match run s with
  | (Ok _, s') => tidy s'
  | (Raise e, s') => stopped e s' ∨ calls s' = []
  end.
Proof.
  intros Hlog. unfold run. rewrite exec_bind.
  pose proof (initialize_parameters_spec s) as Hinit.
  destruct (initialize_parameters s) as [[[]|e] s1].
  - destruct Hinit as (d & dir & -> & _). exec.
    assert (Hs1 : tidy (initialized d dir s)).
    { unfold tidy. simpl. rewrite Hlog. repeat split; constructor. }
    pose proof (triple_for_each_same tidy stopped
      (λ '(experiment_ind, random_state),
         run_experiment experiment_ind random_state)
      (enumerate (random_states_ (self (initialized d dir s))))) as Hloop.
    specialize (Hloop (λ x _, let '(i, r) := x in run_experiment_tidy i r)).
    specialize (Hloop _ Hs1).
    destruct (for_each _ _ (initialized d dir s)) as [[[]|e] s'];
      [exact Hloop|left; exact Hloop].
  - right. congruence.
Qed.

Lemma raised_score_not_ok (c : Call) e : call_result c = Raise e → ¬ call_ok c.
Proof. unfold call_ok. intros -> Hok. discriminate. Qed.

(** Failure propagation in [BinaryExperiment.run]: a call of
    [cross_val_score] that raises is the last call made, the run raises
    the same exception, and the score list holds exactly the scores of
    the calls made before it. *)
Lemma binary_run_stops_at_failure s before c after err :
  calls s = [] →
  calls (run s).2 = before ++ c :: after → call_result c = Raise err →
  after = [] ∧ (run s).1 = Raise err
  ∧ cv_scores_ (self (run s).2) = completed_scores before
  ∧ Forall call_ok before.
Proof.
  intros Hlog Hcalls Hc. pose proof (run_tidy s Hlog) as Hrun.
  pose proof (raised_score_not_ok c err Hc) as Hnot.
  destruct (run s) as [[[]|e] s']; simpl in *.
  - exfalso. destruct Hrun as (_ & Hok & _). rewrite Hcalls in Hok.
    apply Forall_app in Hok as [_ Hok]. inversion Hok; auto.
  - destruct Hrun as [(Hscores & _ & [Hok|(earlier & c' & Hlast & Hok & Hc')])|Hnone].
    + exfalso. rewrite Hcalls in Hok.
      apply Forall_app in Hok as [_ Hok]. inversion Hok; auto.
    + rewrite Hcalls in Hlast.
      destruct (only_last_fails call_ok _ _ _ _ _ Hlast Hnot Hok)
        as (-> & -> & ->).
      split; [reflexivity|]. split; [congruence|]. split; [|exact Hok].
      rewrite Hscores, Hcalls. apply (completed_scores_snoc_raise _ _ e).
      exact Hc'.
    + rewrite Hnone in Hcalls. destruct before; discriminate.
Qed.

(** No call of [cross_val_score] made by [BinaryExperiment.run] gets a
    splitter that shuffles. *)
Lemma binary_run_never_shuffles s :
  calls s = [] →
  Forall (λ c, shuffle (call_cv c) = false) (calls (run s).2).
Proof.
  intros Hlog. pose proof (run_tidy s Hlog) as Hrun.
  destruct (run s) as [[[]|e] s']; simpl.
  - apply Hrun.
  - destruct Hrun as [Hstopped|Hnone]; [apply Hstopped|].
    rewrite Hnone. constructor.
Qed.

End Invariant.

Section Order.
Context `{Library}.

Lemma enumerate_bind {A B} (l : list A) (f : Z → list B) :
  enumerate l ≫= (λ x, f x.1) = range (Z.of_nat (length l)) ≫= f.
Proof.
  induction l as [|x l IH] using rev_ind; [reflexivity|].
  unfold enumerate, range in *.
  rewrite imap_app, bind_app, IH, length_app. simpl.
  rewrite Nat.add_1_r, seqZ_S, bind_app. simpl.
  rewrite Nat.add_0_r. reflexivity.
Qed.

(** A loop over [enumerate l] whose body, at index [i], adds the calls
    [plan i] adds the calls of all indices in order. *)
Lemma enumerate_loop_order {A} (P : State → Prop)
    (plan : Z → list (Z * Z * Z * Z * Z)) (body : Z * A → M State unit)
    (l : list A) base :
  (∀ i x base', triple (λ s, P s ∧ trace s = base') (body (i, x))
                  (λ _ s, P s ∧ trace s = base' ++ plan i) (λ _ _, True)) →
  triple (λ s, P s ∧ trace s = base) (for_each (enumerate l) body)
    (λ _ s, P s ∧ trace s = base ++ (range (Z.of_nat (length l)) ≫= plan))
    (λ _ _, True).
Proof.
  intros Hbody.
  eapply triple_conseq;
    [apply (triple_for_each
              (λ done s, P s ∧ trace s = base ++ (done ≫= λ x, plan x.1))
              (λ _ _, True))| | |].
  - intros done [i x] rest _.
    eapply triple_conseq; [apply (Hbody i x)|..].
    + intros s Hs. exact Hs.
    + intros _ s [HP Htrace]. split; [exact HP|].
      rewrite Htrace, bind_app, <- app_assoc. simpl.
      rewrite app_nil_r. reflexivity.
    + trivial.
  - intros s [HP Htrace]. split; [exact HP|]. simpl.
    rewrite app_nil_r. exact Htrace.
  - intros _ s [HP Htrace]. split; [exact HP|].
    rewrite Htrace, enumerate_bind. reflexivity.
  - trivial.
Qed.

Lemma run_dataset_order rss nc no sc ds i cv c o om m scorer d X y base :
  triple (λ s, shape rss nc no sc ds s ∧ trace s = base)
    (run_dataset i cv c o om m scorer d X y)
    (λ _ s, shape rss nc no sc ds s ∧ trace s = base ++ [(i, c, o, m, d)])
    (λ _ _, True).
Proof.
  intros s [Hshape Htrace]. unfold run_dataset. exec.
  set (s1 := match om with
             | Some om0 => set_clf (make_pipeline om0 (clf s)) s
             | None => s
             end).
  assert (Hs1 : shape rss nc no sc ds s1 ∧ trace s1 = base).
  { destruct om; split; assumption. }
  assert (Hstep : match om with
                  | Some om0 => modify (λ s, set_clf (make_pipeline om0 (clf s)) s)
                  | None => ret tt
                  end s = (Ok tt, s1)).
  { destruct om; reflexivity. }
  rewrite Hstep. clearbody s1. clear Hstep Hshape Htrace s. exec.
  destruct (index (classifiers_names_ (self s1)) c); [|exact I]. exec.
  destruct (index (oversampling_methods_names_ (self s1)) o); [|exact I].
  exec.
  destruct (index (metrics_names_ (self s1)) m); [|exact I]. exec.
  destruct (keys (datasets (self s1))) as [names|]; [|exact I]. exec.
  destruct (index names d); [|exact I]. exec.
  unfold do_cross_val_score.
  destruct (cross_val_score (ambient s1) (clf s1) X y cv scorer)
    as [[v|e] amb]; [|exact I].
  exec. destruct Hs1 as [Hshape Htrace]. split; [exact Hshape|].
  unfold trace in *. simpl. rewrite fmap_app, Htrace. reflexivity.
Qed.

Lemma run_scorer_order rss nc no sc ds i cv c o om m scorer base :
  triple (λ s, shape rss nc no sc ds s ∧ trace s = base)
    (run_scorer i cv c o om m scorer)
    (λ _ s, shape rss nc no sc ds s
            ∧ trace s = base ++ (range (Z.of_nat (length ds))
                                   ≫= λ d, [(i, c, o, m, d)]))
    (λ _ _, True).
Proof.
  intros s [Hshape Htrace]. unfold run_scorer. exec.
  destruct Hshape as (Hrss & Hc & Ho & Hsc & Hds). rewrite Hds. simpl values. exec.
  rewrite <- (length_fmap snd ds).
  apply (enumerate_loop_order (shape rss nc no sc ds)
           (λ d, [(i, c, o, m, d)])
           (λ '(dataset_ind, (X, y)),
              run_dataset i cv c o om m scorer dataset_ind X y));
    [|repeat split; assumption].
  intros d [X y] base'. apply run_dataset_order.
Qed.

Lemma run_oversampling_method_order rss nc no sc ds i r cv c o om base :
  triple (λ s, shape rss nc no sc ds s ∧ trace s = base)
    (run_oversampling_method i r cv c o om)
    (λ _ s, shape rss nc no sc ds s
            ∧ trace s = base ++ (range (Z.of_nat (length sc)) ≫= λ m,
                                 range (Z.of_nat (length ds)) ≫= λ d,
                                 [(i, c, o, m, d)]))
    (λ _ _, True).
Proof.
  intros s [Hshape Htrace]. unfold run_oversampling_method. exec.
  destruct (set_params om r) as [om'|]; [|exact I]. exec.
  destruct Hshape as (Hrss & Hc & Ho & Hsc & Hds). simpl scorers_. rewrite Hsc.
  apply (enumerate_loop_order (shape rss nc no sc ds)
           (λ m, range (Z.of_nat (length ds)) ≫= λ d, [(i, c, o, m, d)])
           (λ '(scorer_ind, scorer),
              run_scorer i cv c o (Some om') scorer_ind scorer)).
  - intros m scorer base'. apply run_scorer_order.
  - split; [|exact Htrace]. unfold shape. simpl.
    rewrite length_insert. repeat split; assumption.
Qed.

Lemma run_classifier_order rss nc no sc ds i r cv c classifier base :
  triple (λ s, shape rss nc no sc ds s ∧ trace s = base)
    (run_classifier i r cv c classifier)
    (λ _ s, shape rss nc no sc ds s
            ∧ trace s = base ++ (range (Z.of_nat no) ≫= λ o,
                                 range (Z.of_nat (length sc)) ≫= λ m,
                                 range (Z.of_nat (length ds)) ≫= λ d,
                                 [(i, c, o, m, d)]))
    (λ _ _, True).
Proof.
  intros s [Hshape Htrace]. unfold run_classifier. exec.
  destruct (set_params (Some classifier) r) as [c'|]; [|exact I]. exec.
  destruct Hshape as (Hrss & Hc & Ho & Hsc & Hds). simpl oversampling_methods.
  rewrite <- Ho.
  apply (enumerate_loop_order (shape rss nc (length (oversampling_methods (self s))) sc ds)
           (λ o, range (Z.of_nat (length sc)) ≫= λ m,
                 range (Z.of_nat (length ds)) ≫= λ d, [(i, c, o, m, d)])
           (λ '(oversampling_method_ind, oversampling_method),
              run_oversampling_method i r cv c oversampling_method_ind
                oversampling_method)).
  - intros o om base'. apply run_oversampling_method_order.
  - split; [|exact Htrace]. unfold shape. simpl.
    rewrite length_insert. repeat split; assumption.
Qed.

Lemma run_experiment_order rss nc no sc ds i r base :
  triple (λ s, shape rss nc no sc ds s ∧ trace s = base)
    (run_experiment i r)
    (λ _ s, shape rss nc no sc ds s
            ∧ trace s = base ++ (range (Z.of_nat nc) ≫= λ c,
                                 range (Z.of_nat no) ≫= λ o,
                                 range (Z.of_nat (length sc)) ≫= λ m,
                                 range (Z.of_nat (length ds)) ≫= λ d,
                                 [(i, c, o, m, d)]))
    (λ _ _, True).
Proof.
  intros s [Hshape Htrace]. unfold run_experiment. exec.
  destruct Hshape as (Hrss & Hc & Ho & Hsc & Hds). rewrite <- Hc.
  apply (enumerate_loop_order (shape rss (length (classifiers (self s))) no sc ds)
           (λ c, range (Z.of_nat no) ≫= λ o,
                 range (Z.of_nat (length sc)) ≫= λ m,
                 range (Z.of_nat (length ds)) ≫= λ d, [(i, c, o, m, d)])
           (λ '(clf_ind, classifier),
              run_classifier i r _ clf_ind classifier)).
  - intros c classifier base'. apply run_classifier_order.
  - repeat split; assumption.
Qed.

(** The order of evaluation of [BinaryExperiment.run]: a run that ends
    normally has called [cross_val_score] once per tuple of loop indices,
    the experiments outermost, then the classifiers, the oversampling
    methods, the scorers, and the datasets innermost. *)
Lemma run_order s s' :
  calls s = [] → run s = (Ok tt, s') →
  ∃ d, datasets (self s') = Dict d
    ∧ trace s' =
      nested_indices (length (random_states_ (self s')))
        (length (classifiers (self s')))
        (length (oversampling_methods (self s')))
        (length (scorers_ (self s'))) (length d).
Proof.
  intros Hlog. unfold run. rewrite exec_bind.
  pose proof (initialize_parameters_spec s) as Hinit.
  destruct (initialize_parameters s) as [[[]|e] s1]; [|discriminate].
  destruct Hinit as (d & dir & -> & _). exec.
  set (s1 := initialized d dir s).
  pose proof (enumerate_loop_order
    (shape (random_states_ (self s1)) (length (classifiers (self s1)))
       (length (oversampling_methods (self s1))) (scorers_ (self s1)) d)
    (λ i, range (Z.of_nat (length (classifiers (self s1)))) ≫= λ c,
          range (Z.of_nat (length (oversampling_methods (self s1)))) ≫= λ o,
          range (Z.of_nat (length (scorers_ (self s1)))) ≫= λ m,
          range (Z.of_nat (length d)) ≫= λ d, [(i, c, o, m, d)])
    (λ '(experiment_ind, random_state),
       run_experiment experiment_ind random_state)
    (random_states_ (self s1)) []) as Hloop.
  specialize (Hloop (λ i r base', run_experiment_order _ _ _ _ _ i r base')).
  assert (Hs1 : shape (random_states_ (self s1)) (length (classifiers (self s1)))
                  (length (oversampling_methods (self s1)))
                  (scorers_ (self s1)) d s1 ∧ trace s1 = []).
  { split; [repeat split|]. unfold trace. simpl. rewrite Hlog. reflexivity. }
  specialize (Hloop s1 Hs1). intros Hrun. rewrite Hrun in Hloop.
  destruct Hloop as [(Hrss & Hc & Ho & Hsc & Hds) Htrace].
  exists d. split; [exact Hds|].
  rewrite Htrace, Hrss, Hc, Ho, Hsc. reflexivity.
Qed.

End Order.

End BinaryFacts.

(** * hyperlearn: the combinatorial runner *)

Module ExperimentFacts.
Import Hyperlearn ExperimentWording.

(** *** [itertools.product] *)

Lemma bind_length_const {A B} (f : A → list B) (n : nat) (l : list A) :
  (∀ x, length (f x) = n) → length (l ≫= f) = (length l * n)%nat.
Proof.
  intros Hf. induction l as [|x l IH]; [reflexivity|].
  rewrite bind_cons, length_app, IH, Hf. simpl. lia.
Qed.

Lemma product_length {A B C} (a : list A) (b : list B) (c : list C) :
  length (product a b c) = (length a * length b * length c)%nat.
Proof.
  unfold product.
  rewrite (bind_length_const _ (length b * length c)); [lia|].
  intros x. apply bind_length_const. intros y.
  rewrite (bind_length_const _ 1); [lia|]. reflexivity.
Qed.

(** Blocks of equal length: the element at offset [j] of block [i]. *)
Lemma bind_lookup_const {A B} (f : A → list B) (n : nat) (l : list A) i j x :
  (∀ x, length (f x) = n) → l !! i = Some x → (j < n)%nat →
  (l ≫= f) !! (i * n + j)%nat = f x !! j.
Proof.
  intros Hf. revert i. induction l as [|x0 l IH]; intros i Hi Hj;
    [discriminate|].
  rewrite bind_cons. destruct i as [|i]; simpl in Hi.
  - injection Hi as ->. simpl. apply lookup_app_l. rewrite Hf. exact Hj.
  - rewrite lookup_app_r by (rewrite Hf; lia).
    rewrite Hf. replace (S i * n + j - n)%nat with (i * n + j)%nat by lia.
    apply IH; assumption.
Qed.

(** The order of [product]: the first list is the outermost loop, the
    last one the innermost. *)
Lemma product_lookup {A B C} (a : list A) (b : list B) (c : list C)
    i j k x y z :
  a !! i = Some x → b !! j = Some y → c !! k = Some z →
  product a b c !! ((i * length b + j) * length c + k)%nat = Some (x, y, z).
Proof.
  intros Hi Hj Hk. unfold product.
  pose proof (lookup_lt_Some _ _ _ Hj) as Hjlt.
  pose proof (lookup_lt_Some _ _ _ Hk) as Hklt.
  assert (Hinner : ∀ (x' : A) (y' : B),
            length (c ≫= λ z', [(x', y', z')]) = length c).
  { intros x' y'. rewrite (bind_length_const _ 1); [lia|]. reflexivity. }
  assert (Hmid : ∀ x' : A, length (b ≫= λ y', c ≫= λ z', [(x', y', z')])
                           = (length b * length c)%nat).
  { intros x'. apply bind_length_const. intros y'. apply Hinner. }
  replace ((i * length b + j) * length c + k)%nat
    with (i * (length b * length c) + (j * length c + k))%nat by lia.
  rewrite (bind_lookup_const _ (length b * length c) a i _ x Hmid Hi) by nia.
  rewrite (bind_lookup_const _ (length c) b j k y (Hinner x) Hj Hklt).
  replace k with (k * 1 + 0)%nat at 1 by lia.
  rewrite (bind_lookup_const _ 1 c k 0 z); [reflexivity| |exact Hk|lia].
  reflexivity.
Qed.

Lemma product_no_datasets {A B C} (a : list A) (c : list C) :
  product a (@nil B) c = [].
Proof.
  unfold product. induction a as [|x a IH]; [reflexivity|].
  rewrite bind_cons, IH. reflexivity.
Qed.

Lemma product_seed {A B C} (a : list A) (b : list B) (c : list C) t :
  t ∈ product a b c → t.1.1 ∈ a.
Proof.
  unfold product. intros Ht.
  apply list_elem_of_bind in Ht as (x & Ht & Hx).
  apply list_elem_of_bind in Ht as (y & Ht & Hy).
  apply list_elem_of_bind in Ht as (z & Ht & Hz).
  apply list_elem_of_singleton in Ht as ->. exact Hx.
Qed.

Section Runner.
Context `{Types} `{!Library} `{!Utils}.

Lemma completed_snoc_ok log c fitted :
  call_result c = Ok fitted →
  completed (log ++ [c])
  = completed log ++ [(dataset_name_of (call_combination c), fitted)].
Proof.
  intros Hc. unfold completed. rewrite omap_app. simpl. rewrite Hc.
  reflexivity.
Qed.

Lemma completed_snoc_raise log c e :
  call_result c = Raise e → completed (log ++ [c]) = completed log.
Proof.
  intros Hc. unfold completed. rewrite omap_app. simpl. rewrite Hc.
  apply app_nil_r.
Qed.

Lemma completed_length log :
  Forall call_ok log → length (completed log) = length log.
Proof.
  induction 1 as [|c log Hc _ IH]; [reflexivity|].
  unfold call_ok in Hc. change (c :: log) with ([c] ++ log).
  unfold completed in *. rewrite omap_app, length_app, IH. simpl.
  destruct (call_result c); [reflexivity|discriminate].
Qed.

Lemma during_halted {E} total combinations done err (s : State E) :
  done `prefix_of` combinations → during total done s →
  halted total combinations err s.
Proof.
  intros Hprefix (Hres & Hdone & Hok & Hcv & Hbar & _).
  unfold halted. rewrite Hdone. repeat split; eauto.
Qed.

(** One turn of the loop, lines 135-142. *)
Lemma run_combination_during {E} total combinations done c rest :
  combinations = done ++ c :: rest →
  triple (during (E:=E) total done) (run_combination c)
    (λ _, during total (done ++ [c])) (halted total combinations).
Proof.
  intros Hl s Hs. unfold run_combination.
  destruct c as [[random_state [dataset_name [X y]]] [estimator param_grid]].
  assert (Hprefix : done `prefix_of` combinations).
  { rewrite Hl. apply prefix_app_r. reflexivity. }
  exec.
  destruct (check_cv (cv (self s)) y (is_classifier estimator)) as [cv0|e];
    [|exact (during_halted _ _ _ _ _ Hprefix Hs)].
  exec. unfold do_fit.
  destruct (fit (ambient s) _ X y) as [[fitted|e] a] eqn:Hfit.
  - destruct Hs as (Hres & Hdone & Hok & Hcv & Hbar & Hit).
    exec. simpl results_. rewrite Hres. unfold attr. exec.
    simpl progress_bar. rewrite Hbar. exec.
    unfold during. simpl. rewrite fmap_app, Hdone, length_app. simpl.
    split; [|split; [|split; [|split; [|split]]]].
    + f_equal. symmetry. apply completed_snoc_ok. reflexivity.
    + reflexivity.
    + apply Forall_app. split; [exact Hok|]. repeat constructor.
    + apply Forall_app. split; [exact Hcv|]. repeat constructor.
    + rewrite Hit. f_equal. f_equal. lia.
    + rewrite Hit. lia.
  - destruct Hs as (Hres & Hdone & Hok & Hcv & Hbar & Hit).
    unfold halted. simpl. rewrite fmap_app, Hdone. simpl.
    split; [|split; [|split; [|split]]].
    + rewrite Hres. f_equal. symmetry.
      apply (completed_snoc_raise _ _ e). reflexivity.
    + rewrite Hl. apply prefix_app, prefix_cons, prefix_nil.
    + apply Forall_app. split; [exact Hcv|]. repeat constructor.
    + eauto.
    + right. eexists _, _. split; [reflexivity|]. split; [exact Hok|].
      reflexivity.
Qed.

(** Lines 123-142: the seeds are those [check_random_states] returns, the
    progress bar is given the product of the three lengths, and the loop
    runs over the product of the seeds, the datasets and the zipped
    estimators and grids. *)
Lemma run_combinations_spec {E} datasets (s : State E) :
  calls s = [] →
  match run_combinations datasets s with
  | (Ok _, s') =>
      ∃ seeds estimators grids,
        check_random_states (random_state (self s))
          (experiment_repetitions (self s)) = Ok seeds
        ∧ estimators_ (self s) = Some estimators
        ∧ param_grids_ (self s) = Some grids
        ∧ during (total_iterations seeds datasets estimators)
            (product seeds datasets (zip estimators grids)) s'
  | (Raise e, s') =>
      calls s' = []
      ∨ ∃ seeds estimators grids,
          check_random_states (random_state (self s))
            (experiment_repetitions (self s)) = Ok seeds
          ∧ estimators_ (self s) = Some estimators
          ∧ param_grids_ (self s) = Some grids
          ∧ halted (total_iterations seeds datasets estimators)
              (product seeds datasets (zip estimators grids)) e s'
  end.
Proof.
  intros Hlog. unfold run_combinations. exec.
  destruct (check_random_states _ _) as [seeds|e] eqn:Hseeds;
    [|left; exact Hlog].
  exec. simpl random_states_. unfold attr at 1. exec. simpl estimators_.
  destruct (estimators_ (self s)) as [estimators|] eqn:Hest;
    [|left; exact Hlog].
  unfold attr at 1. exec. simpl param_grids_.
  destruct (param_grids_ (self s)) as [grids|] eqn:Hgrids;
    [|left; exact Hlog].
  unfold attr at 1. exec.
  match goal with
  | |- context [for_each ?l _ ?s0] =>
      pose proof (triple_for_each
        (during (total_iterations seeds datasets estimators))
        (halted (total_iterations seeds datasets estimators) l)
        run_combination l
        (λ done x rest Hl, run_combination_during _ l done x rest Hl) s0)
        as Hloop;
      assert (Hs0 : during (total_iterations seeds datasets estimators) [] s0)
  end.
  { unfold during. simpl. rewrite Hlog. repeat split; constructor. }
  specialize (Hloop Hs0).
  destruct (for_each _ _ _) as [[[]|e] s'].
  - exists seeds, estimators, grids. auto.
  - right. exists seeds, estimators, grids. auto.
Qed.

(** [ExtendedExperiment.run] with the dataset attribute present. *)
Lemma ExtendedExperiment_run_spec hide_warnings given
    (s : State (list Spec)) :
  calls s = [] → datasets (self s) = Some given →
  match ExtendedExperiment_run hide_warnings s with
  | (Ok _, s') =>
      ∃ ds seeds estimators grids,
        check_datasets given = Ok ds
        ∧ check_estimators (Specs (own (self s))) = Ok estimators
        ∧ check_param_grids (Specs (own (self s))) None = Ok grids
        ∧ check_random_states (random_state (self s))
            (experiment_repetitions (self s)) = Ok seeds
        ∧ during (total_iterations seeds ds estimators)
            (product seeds ds (zip estimators grids)) s'
  | (Raise e, s') =>
      calls s' = []
      ∨ ∃ ds seeds estimators grids,
          check_datasets given = Ok ds
          ∧ check_estimators (Specs (own (self s))) = Ok estimators
          ∧ check_param_grids (Specs (own (self s))) None = Ok grids
          ∧ check_random_states (random_state (self s))
              (experiment_repetitions (self s)) = Ok seeds
          ∧ halted (total_iterations seeds ds estimators)
              (product seeds ds (zip estimators grids)) e s'
  end.
Proof.
  intros Hlog Hgiven. unfold ExtendedExperiment_run. exec.
  unfold filterwarnings, set_filters. cbn [self]. rewrite Hgiven. exec.
  destruct (check_datasets given) as [ds|e] eqn:Hds; [|left; exact Hlog].
  exec. simpl own.
  destruct (check_estimators _) as [estimators|e] eqn:Hest;
    [|left; exact Hlog].
  exec. simpl own.
  destruct (check_param_grids _ _) as [grids|e] eqn:Hgrids;
    [|left; exact Hlog].
  exec.
  match goal with
  | |- context [run_combinations ds ?s0] =>
      pose proof (run_combinations_spec ds s0 Hlog) as Hrun;
      destruct (run_combinations ds s0) as [[[]|e] s']
  end.
  - destruct Hrun as (seeds & estimators' & grids' & Hseeds & [= <-] & [= <-] & Hduring).
    exists ds, seeds, estimators, grids. auto.
  - destruct Hrun as [Hnone|(seeds & estimators' & grids' & Hseeds & [= <-] & [= <-] & Hhalted)];
      [left; exact Hnone|].
    right. exists ds, seeds, estimators, grids. auto.
Qed.

(** [run] without the dataset attribute: only the warning filter is
    installed. *)
Lemma ExtendedExperiment_run_absent hide_warnings (s : State (list Spec)) :
  datasets (self s) = None →
  ExtendedExperiment_run hide_warnings s
  = (Ok tt, filterwarnings (if hide_warnings then "ignore" else "default") s).
Proof.
  intros Hnone. unfold ExtendedExperiment_run. exec.
  unfold filterwarnings at 1, set_filters at 1. cbn [self]. rewrite Hnone.
  reflexivity.
Qed.

Lemma raised_fit_not_ok (c : Call) e : call_result c = Raise e → ¬ call_ok c.
Proof. unfold call_ok. intros -> Hok. discriminate. Qed.

(** Every call of [fit] gets a splitter that shuffles and carries the
    seed of its combination. *)
Lemma experiment_run_seeds_and_shuffles hide_warnings
    (s : State (list Spec)) :
  calls s = [] →
  Forall seeded_shuffled (calls (ExtendedExperiment_run hide_warnings s).2).
Proof.
  intros Hlog. destruct (datasets (self s)) as [given|] eqn:Hgiven.
  - pose proof (ExtendedExperiment_run_spec hide_warnings given s Hlog Hgiven)
      as Hrun.
    destruct (ExtendedExperiment_run hide_warnings s) as [[[]|e] s']; simpl.
    + destruct Hrun as (? & ? & ? & ? & _ & _ & _ & _ & Hduring).
      apply Hduring.
    + destruct Hrun as [->|(? & ? & ? & ? & _ & _ & _ & _ & Hhalted)];
        [constructor|apply Hhalted].
  - rewrite ExtendedExperiment_run_absent by exact Hgiven. simpl.
    rewrite Hlog. constructor.
Qed.

(** Failure propagation in [ExtendedExperiment.run]: a call of [fit]
    that raises is the last call made, the run raises the same
    exception, and [results_] holds exactly the records of the calls
    made before it. *)
Lemma experiment_run_stops_at_failure hide_warnings (s : State (list Spec))
    before c after err :
  calls s = [] →
  calls (ExtendedExperiment_run hide_warnings s).2 = before ++ c :: after →
  call_result c = Raise err →
  after = [] ∧ (ExtendedExperiment_run hide_warnings s).1 = Raise err
  ∧ results_ (self (ExtendedExperiment_run hide_warnings s).2)
    = Some (completed before)
  ∧ Forall call_ok before.
Proof.
  intros Hlog Hcalls Hc. pose proof (raised_fit_not_ok c err Hc) as Hnot.
  destruct (datasets (self s)) as [given|] eqn:Hgiven.
  - pose proof (ExtendedExperiment_run_spec hide_warnings given s Hlog Hgiven)
      as Hrun.
    destruct (ExtendedExperiment_run hide_warnings s) as [[[]|e] s'];
      simpl in *.
    + exfalso. destruct Hrun as (? & ? & ? & ? & _ & _ & _ & _ & Hduring).
      destruct Hduring as (_ & _ & Hok & _). rewrite Hcalls in Hok.
      apply Forall_app in Hok as [_ Hok]. inversion Hok; auto.
    + destruct Hrun as [Hnone|(? & ? & ? & ? & _ & _ & _ & _ & Hhalted)].
      { rewrite Hnone in Hcalls. destruct before; discriminate. }
      destruct Hhalted as (Hres & _ & _ & _ & [Hok|(earlier & c' & Hlast & Hok & Hc')]).
      * exfalso. rewrite Hcalls in Hok.
        apply Forall_app in Hok as [_ Hok]. inversion Hok; auto.
      * rewrite Hcalls in Hlast.
        destruct (only_last_fails call_ok _ _ _ _ _ Hlast Hnot Hok)
          as (-> & -> & ->).
        split; [reflexivity|]. split; [congruence|]. split; [|exact Hok].
        rewrite Hres, Hcalls. f_equal.
        apply (completed_snoc_raise _ _ e). exact Hc'.
  - rewrite ExtendedExperiment_run_absent in Hcalls by exact Hgiven.
    simpl in Hcalls. rewrite Hlog in Hcalls. destruct before; discriminate.
Qed.

(** The order of evaluation of [ExtendedExperiment.run]: a run that ends
    normally has called [fit] once per element of the product of the
    seeds, the datasets and the zipped estimators and grids, in the
    order of that product. *)
Lemma experiment_run_order hide_warnings given (s s' : State (list Spec)) :
  calls s = [] → datasets (self s) = Some given →
  ExtendedExperiment_run hide_warnings s = (Ok tt, s') →
  ∃ ds seeds estimators grids,
    check_datasets given = Ok ds
    ∧ check_estimators (Specs (own (self s))) = Ok estimators
    ∧ check_param_grids (Specs (own (self s))) None = Ok grids
    ∧ check_random_states (random_state (self s))
        (experiment_repetitions (self s)) = Ok seeds
    ∧ call_combination <$> calls s'
      = product seeds ds (zip estimators grids).
Proof.
  intros Hlog Hgiven Hrun.
  pose proof (ExtendedExperiment_run_spec hide_warnings given s Hlog Hgiven)
    as Hspec.
  rewrite Hrun in Hspec.
  destruct Hspec as (ds & seeds & estimators & grids & ? & ? & ? & ? & Hduring).
  exists ds, seeds, estimators, grids. repeat split; try assumption.
  apply Hduring.
Qed.

(** C1.  The total given to the progress bar before the loop is the
    product of the numbers of seeds, datasets and validated estimators,
    and a run that ends without raising leaves in [results_] exactly
    that many score records (the validated grids being as many as the
    validated estimators, as the two validators promise). *)
Theorem run_scores_every_combination hide_warnings given
    (s s' : State (list Spec)) :
  calls s = [] → datasets (self s) = Some given →
  (∀ estimators grids,
     check_estimators (Specs (own (self s))) = Ok estimators →
     check_param_grids (Specs (own (self s))) None = Ok grids →
     length grids = length estimators) →
  ExtendedExperiment_run hide_warnings s = (Ok tt, s') →
  ∃ ds seeds estimators records,
    check_datasets given = Ok ds
    ∧ check_estimators (Specs (own (self s))) = Ok estimators
    ∧ check_random_states (random_state (self s))
        (experiment_repetitions (self s)) = Ok seeds
    ∧ (∃ v, progress_bar s'
            = Some {| max_value := Z.of_nat (length seeds)
                                   * Z.of_nat (length ds)
                                   * Z.of_nat (length estimators);
                      value := v |})
    ∧ results_ (self s') = Some records
    ∧ Z.of_nat (length records)
      = Z.of_nat (length seeds) * Z.of_nat (length ds)
        * Z.of_nat (length estimators).
Proof.
  intros Hlog Hgiven Haligned Hrun.
  pose proof (ExtendedExperiment_run_spec hide_warnings given s Hlog Hgiven)
    as Hspec.
  rewrite Hrun in Hspec.
  destruct Hspec as (ds & seeds & estimators & grids & Hds & Hest & Hgrids & Hseeds & Hduring).
  destruct Hduring as (Hres & Hdone & Hok & _ & Hbar & _).
  exists ds, seeds, estimators, (completed (calls s')).
  split; [exact Hds|]. split; [exact Hest|]. split; [exact Hseeds|].
  split; [eexists; exact Hbar|]. split; [exact Hres|].
  rewrite (completed_length _ Hok).
  rewrite <- (length_fmap call_combination), Hdone. unfold Combination.
  rewrite product_length.
  rewrite length_zip, (Haligned _ _ Hest Hgrids). lia.
Qed.

(** C10.  When the dataset attribute is absent, [run] returns without
    raising and leaves the object, its [results_] included, as it was;
    when the dataset list is empty (and accepted as such by the
    validators), [run] returns without raising, calls [fit] not once,
    and [results_] is the empty list. *)
Theorem run_without_datasets_scores_nothing hide_warnings
    (s : State (list Spec)) :
  (datasets (self s) = None →
     ∃ s', ExtendedExperiment_run hide_warnings s = (Ok tt, s')
           ∧ self s' = self s ∧ calls s' = calls s)
  ∧ (datasets (self s) = Some [] →
     check_datasets [] = Ok [] →
     is_ok (check_estimators (Specs (own (self s)))) = true →
     is_ok (check_param_grids (Specs (own (self s))) None) = true →
     is_ok (check_random_states (random_state (self s))
              (experiment_repetitions (self s))) = true →
     ∃ s', ExtendedExperiment_run hide_warnings s = (Ok tt, s')
           ∧ results_ (self s') = Some [] ∧ calls s' = calls s).
Proof.
  split.
  - intros Hnone. eexists. split; [apply ExtendedExperiment_run_absent|];
      [exact Hnone|]. split; reflexivity.
  - intros Hempty Hds Hest Hgrids Hseeds.
    unfold ExtendedExperiment_run. exec.
    unfold filterwarnings at 1, set_filters at 1. cbn [self].
    rewrite Hempty. exec. rewrite Hds. exec. simpl own.
    destruct (check_estimators _) as [estimators|]; [|discriminate]. exec.
    simpl own.
    destruct (check_param_grids _ _) as [grids|]; [|discriminate]. exec.
    unfold run_combinations. exec. simpl random_state.
    simpl experiment_repetitions.
    destruct (check_random_states _ _) as [seeds|]; [|discriminate]. exec.
    simpl random_states_. unfold attr. exec. simpl estimators_. exec.
    simpl param_grids_. exec. rewrite product_no_datasets.
    eexists. split; [reflexivity|]. split; reflexivity.
Qed.

(** A directory without a matching file: [read_csv_dir] returns the
    empty list. *)
Lemma read_csv_dir_no_csv dirpath names :
  listdir dirpath = Ok names → (∀ f, f ∈ names → match_csv f = false) →
  read_csv_dir dirpath = Ok [].
Proof.
  intros Hnames Hnone. unfold read_csv_dir.
  rewrite Hnames, (filter_none _ _ Hnone). reflexivity.
Qed.

(** Line 212: no resampler object, the classifier alone; a resampler
    object, the resampler then the classifier. *)
Lemma chain_without_resampler resampler classifier :
  spec_estimator resampler = None →
  chain (resampler, classifier) = [classifier].
Proof. intros Hnone. unfold chain. rewrite Hnone. reflexivity. Qed.

Lemma chain_with_resampler resampler classifier :
  spec_estimator resampler ≠ None →
  chain (resampler, classifier) = [resampler; classifier].
Proof.
  intros Hsome. unfold chain.
  destruct (spec_estimator resampler); [reflexivity|congruence].
Qed.

Lemma run_combination_keeps_own {E} (x : E) c :
  triple (λ s : State E, own (self s) = x) (run_combination c)
    (λ _ s, own (self s) = x) (λ _ s, own (self s) = x).
Proof.
  intros s Hs. unfold run_combination.
  destruct c as [[random_state [dataset_name [X y]]] [estimator param_grid]].
  exec.
  destruct (check_cv (cv (self s)) y (is_classifier estimator)) as [cv0|e];
    [|exact Hs].
  exec. unfold do_fit.
  destruct (fit (ambient s) _ X y) as [[fitted|e] a]; [|exact Hs].
  exec. simpl results_. unfold attr.
  destruct (results_ (self s)) as [results|]; exec; [|exact Hs].
  simpl progress_bar. destruct (progress_bar s); exec; exact Hs.
Qed.

(** [ResamplingExperiment.run] stores in [estimators] the chains of line
    212, one per (resampler, classifier) pair, resamplers outermost. *)
Lemma ResamplingExperiment_run_chains hide_warnings given ds
    (s : State Resampling) :
  datasets (self s) = Some given → check_datasets given = Ok ds →
  estimators (own (self (ResamplingExperiment_run hide_warnings s).2))
  = Some (resampling_estimators (resamplers (own (self s)))
            (classifiers (own (self s)))).
Proof.
  intros Hgiven Hds. unfold ResamplingExperiment_run. exec.
  set (action := if hide_warnings then "ignore" else "default").
  change (self (filterwarnings action s)) with (self s).
  rewrite Hgiven. exec. rewrite Hds. exec.
  cbn [self with_self own set_own resamplers classifiers].
  destruct (check_estimators _) as [checked|e]; exec; [|reflexivity].
  destruct (check_param_grids _ _) as [param_grids|e]; exec; [|reflexivity].
  unfold run_combinations. exec.
  cbn [self with_self random_state experiment_repetitions set_param_grids_
       set_estimators_ set_own].
  destruct (check_random_states _ _) as [seeds|e]; exec; [|reflexivity].
  unfold attr.
  cbn [self with_self random_states_ estimators_ param_grids_
       set_random_states_ set_param_grids_ set_estimators_ set_own].
  exec.
  match goal with
  | |- context [for_each ?l run_combination ?s0] =>
      pose proof (for_each_keeps
        (λ t : State Resampling,
           own (self t)
           = {| classifiers := classifiers (own (self s));
                resamplers := resamplers (own (self s));
                estimators :=
                  Some (resampling_estimators (resamplers (own (self s)))
                          (classifiers (own (self s)))) |})
        run_combination l (run_combination_keeps_own _) s0 eq_refl)
        as Hloop
  end.
  apply (f_equal estimators) in Hloop. exact Hloop.
Qed.

(** *** Determinism *)

Lemma run_combination_agree {E} c (s1 s2 : State E) :
  fit_deterministic_when_seeded → seed_of c ≠ None → agree s1 s2 →
  (run_combination c s1).1 = (run_combination c s2).1
  ∧ agree (run_combination c s1).2 (run_combination c s2).2.
Proof.
  intros Hdet Hseed (Hself & Hfilters & Hbar & Hit & Hcalls & Hfiles).
  destruct c as [[random_state [dataset_name [X y]]] [estimator param_grid]].
  unfold run_combination. exec. rewrite <- Hself.
  destruct (check_cv (cv (self s1)) y (is_classifier estimator)) as [cv0|e].
  2:{ simpl. repeat split; assumption. }
  exec. unfold do_fit.
  match goal with
  | |- context [fit (ambient s1) ?g X y] =>
      pose proof (Hdet (ambient s1) (ambient s2) g X y Hseed) as Hfit;
      destruct (fit (ambient s1) g X y) as [[f1|e1] a1],
               (fit (ambient s2) g X y) as [[f2|e2] a2];
      simpl in Hfit; try discriminate
  end.
  - injection Hfit as <-. exec. simpl results_. rewrite <- ?Hself.
    destruct (results_ (self s1)) as [results|]; unfold attr; exec.
    + simpl progress_bar. simpl iterations. rewrite <- Hbar, <- Hit.
      destruct (progress_bar s1) as [bar|]; exec; simpl;
        unfold agree; simpl; rewrite <- ?Hself, <- ?Hcalls;
        repeat split; assumption.
    + simpl. unfold agree. simpl. rewrite <- ?Hcalls.
      repeat split; assumption.
  - injection Hfit as <-. simpl. unfold agree. simpl. rewrite <- ?Hcalls.
    repeat split; assumption.
Qed.

Lemma run_combinations_agree {E} datasets base (s1 s2 : State E) :
  fit_deterministic_when_seeded → seeds_derived_from_seed →
  random_state (self s1) = Some base → agree s1 s2 →
  (run_combinations datasets s1).1 = (run_combinations datasets s2).1
  ∧ agree (run_combinations datasets s1).2 (run_combinations datasets s2).2.
Proof.
  intros Hdet Hderived Hbase Hagree.
  pose proof Hagree as (Hself & Hfilters & Hbar & Hit & Hcalls & Hfiles).
  unfold run_combinations, attr. exec. rewrite <- Hself, Hbase.
  destruct (check_random_states (Some base) _) as [seeds|e] eqn:Hseeds.
  2:{ split; [reflexivity|exact Hagree]. }
  exec. cbn [self with_self set_random_states_ random_states_ estimators_
             param_grids_].
  rewrite <- ?Hself.
  destruct (estimators_ (self s1)) as [estimators|]; exec.
  2:{ simpl. unfold agree. simpl. rewrite <- ?Hself.
      repeat split; assumption. }
  destruct (param_grids_ (self s1)) as [grids|]; exec.
  2:{ simpl. unfold agree. simpl. rewrite <- ?Hself.
      repeat split; assumption. }
  apply (for_each_agree agree).
  - intros c t1 t2 Hc. apply run_combination_agree; [exact Hdet|].
    apply product_seed in Hc.
    pose proof (Hderived base _ seeds Hseeds) as Hall.
    rewrite Forall_forall in Hall. apply Hall. exact Hc.
  - unfold agree. simpl. rewrite <- ?Hself. repeat split; assumption.
Qed.

Lemma ExtendedExperiment_run_agree hide_warnings base
    (s1 s2 : State (list Spec)) :
  fit_deterministic_when_seeded → seeds_derived_from_seed →
  random_state (self s1) = Some base → agree s1 s2 →
  (ExtendedExperiment_run hide_warnings s1).1
  = (ExtendedExperiment_run hide_warnings s2).1
  ∧ agree (ExtendedExperiment_run hide_warnings s1).2
      (ExtendedExperiment_run hide_warnings s2).2.
Proof.
  intros Hdet Hderived Hbase Hagree.
  pose proof Hagree as (Hself & Hfilters & Hbar & Hit & Hcalls & Hfiles).
  unfold ExtendedExperiment_run. exec.
  set (action := if hide_warnings then "ignore" else "default").
  assert (Hagree0 : agree (filterwarnings action s1) (filterwarnings action s2)).
  { unfold agree. simpl. rewrite Hfilters. repeat split; assumption. }
  change (self (filterwarnings action s1)) with (self s1).
  change (self (filterwarnings action s2)) with (self s2).
  rewrite <- Hself.
  destruct (datasets (self s1)) as [given|]; exec;
    [|split; [reflexivity|exact Hagree0]].
  destruct (check_datasets given) as [ds|e]; exec;
    [|split; [reflexivity|exact Hagree0]].
  destruct (check_estimators _) as [estimators|e]; exec;
    [|split; [reflexivity|exact Hagree0]].
  destruct (check_param_grids _ _) as [grids|e]; exec.
  2:{ simpl. unfold agree. simpl. rewrite <- ?Hself, Hfilters.
      repeat split; assumption. }
  apply (run_combinations_agree ds base); [exact Hdet|exact Hderived|..].
  - exact Hbase.
  - unfold agree. simpl. rewrite <- ?Hself, Hfilters.
    repeat split; assumption.
Qed.

(** C3.  With an integer base seed, two runs of the same experiment
    object end the same way and leave the same sequence of score records
    in [results_], whatever the state of the ambient random generator at
    the start of each, provided the fit is a function of its arguments
    when its splitter is seeded and the seeds resolved from an integer
    base seed are integers. *)
Theorem seeded_runs_give_identical_results hide_warnings base
    (e : Experiment (list Spec)) (a1 a2 : Ambient) :
  fit_deterministic_when_seeded → seeds_derived_from_seed →
  random_state e = Some base →
  (ExtendedExperiment_run hide_warnings (start e a1)).1
  = (ExtendedExperiment_run hide_warnings (start e a2)).1
  ∧ results_ (self (ExtendedExperiment_run hide_warnings (start e a1)).2)
    = results_ (self (ExtendedExperiment_run hide_warnings (start e a2)).2)
  ∧ calls (ExtendedExperiment_run hide_warnings (start e a1)).2
    = calls (ExtendedExperiment_run hide_warnings (start e a2)).2.
Proof.
  intros Hdet Hderived Hbase.
  destruct (ExtendedExperiment_run_agree hide_warnings base
              (start e a1) (start e a2) Hdet Hderived Hbase)
    as [Ho (Hself & _ & _ & _ & Hcalls & _)].
  { repeat split. }
  split; [exact Ho|]. split; [rewrite Hself; reflexivity|exact Hcalls].
Qed.

End Runner.

End ExperimentFacts.

(** * The two runners side by side *)

Section BothRunners.
Context `{HT : Hyperlearn.Types} `{!Hyperlearn.Library} `{!Hyperlearn.Utils}.
Context `{HB : Imbtools.Library}.

(** C2, as the code has it.  [ExtendedExperiment.run] (and
    [KaggleCompetition.run], the same text) evaluates the combinations in
    the order of the product: the seeds are the outermost loop, then the
    datasets, then the (estimator, grid) pairs, each in the order of its
    list, so that two seeds, two datasets and two pairs give the eight
    combinations of the cross-product written out by hand.
    [BinaryExperiment.run] nests its loops differently: the experiments
    (seeds) outermost, then the classifiers, the oversampling methods,
    the scorers, and the datasets innermost. *)
Theorem runners_enumerate_in_their_loop_order
    hide_warnings given (s s' : Hyperlearn.State (list Hyperlearn.Spec))
    (b b' : Imbtools.State) :
  (Hyperlearn.calls s = [] → Hyperlearn.datasets (Hyperlearn.self s) = Some given →
   Hyperlearn.ExtendedExperiment_run hide_warnings s = (Ok tt, s') →
   ∃ ds seeds estimators grids,
     Hyperlearn.check_datasets given = Ok ds
     ∧ Hyperlearn.check_estimators
         (Hyperlearn.Specs (Hyperlearn.own (Hyperlearn.self s))) = Ok estimators
     ∧ Hyperlearn.check_param_grids
         (Hyperlearn.Specs (Hyperlearn.own (Hyperlearn.self s))) None = Ok grids
     ∧ Hyperlearn.check_random_states
         (Hyperlearn.random_state (Hyperlearn.self s))
         (Hyperlearn.experiment_repetitions (Hyperlearn.self s)) = Ok seeds
     ∧ Hyperlearn.call_combination <$> Hyperlearn.calls s'
       = product seeds ds (zip estimators grids)
     ∧ ∀ i j k seed dataset pair,
         seeds !! i = Some seed → ds !! j = Some dataset →
         zip estimators grids !! k = Some pair →
         (Hyperlearn.call_combination <$> Hyperlearn.calls s')
           !! ((i * length ds + j) * length (zip estimators grids) + k)%nat
         = Some (seed, dataset, pair))
  ∧ (∀ (s1 s2 : option Z) (d1 d2 : Hyperlearn.Dataset)
       (p1 p2 : Hyperlearn.Est * Hyperlearn.Grid),
       product [s1; s2] [d1; d2] [p1; p2]
       = [(s1, d1, p1); (s1, d1, p2); (s1, d2, p1); (s1, d2, p2);
          (s2, d1, p1); (s2, d1, p2); (s2, d2, p1); (s2, d2, p2)])
  ∧ (Imbtools.calls b = [] → Imbtools.run b = (Ok tt, b') →
     ∃ d, Imbtools.datasets (Imbtools.self b') = Imbtools.Dict d
       ∧ Imbtools.call_indices <$> Imbtools.calls b'
         = BinaryWording.nested_indices
             (length (Imbtools.random_states_ (Imbtools.self b')))
             (length (Imbtools.classifiers (Imbtools.self b')))
             (length (Imbtools.oversampling_methods (Imbtools.self b')))
             (length (Imbtools.scorers_ (Imbtools.self b')))
             (length d)).
Proof.
  split; [|split].
  - intros Hlog Hgiven Hrun.
    destruct (ExperimentFacts.experiment_run_order hide_warnings given s s'
                Hlog Hgiven Hrun)
      as (ds & seeds & estimators & grids & Hds & Hest & Hgrids & Hseeds & Horder).
    exists ds, seeds, estimators, grids.
    repeat (split; [assumption|]).
    intros i j k seed dataset pair Hi Hj Hk. rewrite Horder.
    apply ExperimentFacts.product_lookup; assumption.
  - reflexivity.
  - intros Hlog Hrun. exact (BinaryFacts.run_order b b' Hlog Hrun).
Qed.

(** C4.  A call of the fit (of [cross_val_score] in [BinaryExperiment])
    that raises is not caught: it is the last call the run makes, the run
    raises the same exception, and the result list ([results_], or
    [cv_scores_] in [BinaryExperiment]) holds exactly the records of the
    calls made before it, none of which raised. *)
Theorem failing_evaluation_aborts_the_run
    hide_warnings (s : Hyperlearn.State (list Hyperlearn.Spec))
    before c after err (b : Imbtools.State) before' c' after' err' :
  (Hyperlearn.calls s = [] →
   Hyperlearn.calls (Hyperlearn.ExtendedExperiment_run hide_warnings s).2
   = before ++ c :: after →
   Hyperlearn.call_result c = Raise err →
   after = []
   ∧ (Hyperlearn.ExtendedExperiment_run hide_warnings s).1 = Raise err
   ∧ Hyperlearn.results_
       (Hyperlearn.self (Hyperlearn.ExtendedExperiment_run hide_warnings s).2)
     = Some (ExperimentWording.completed before)
   ∧ Forall ExperimentWording.call_ok before)
  ∧ (Imbtools.calls b = [] →
     Imbtools.calls (Imbtools.run b).2 = before' ++ c' :: after' →
     Imbtools.call_result c' = Raise err' →
     after' = []
     ∧ (Imbtools.run b).1 = Raise err'
     ∧ Imbtools.cv_scores_ (Imbtools.self (Imbtools.run b).2)
       = BinaryWording.completed_scores before'
     ∧ Forall BinaryWording.call_ok before').
Proof.
  split.
  - apply ExperimentFacts.experiment_run_stops_at_failure.
  - apply BinaryFacts.binary_run_stops_at_failure.
Qed.

(** C7, as the code has it.  A directory that can be listed and holds no
    file matching the pattern makes no loading step raise:
    [read_csv_dir] returns the empty list, and
    [BinaryExperiment._initialize_parameters] ends normally with an
    empty dataset dictionary. *)
Theorem directory_without_csv_loads_nothing
    dirpath names (b : Imbtools.State) path names' :
  (Hyperlearn.listdir dirpath = Ok names →
   (∀ f, f ∈ names → match_csv f = false) →
   Hyperlearn.read_csv_dir dirpath = Ok [])
  ∧ (Imbtools.datasets (Imbtools.self b) = Imbtools.DirPath path →
     Imbtools.chdir path = Ok tt → Imbtools.listdir path = Ok names' →
     (∀ f, f ∈ names' → match_csv f = false) →
     Imbtools.initialize_parameters b
     = (Ok tt, BinaryWording.initialized [] path b)).
Proof.
  split.
  - apply ExperimentFacts.read_csv_dir_no_csv.
  - apply BinaryFacts.initialize_parameters_no_csv.
Qed.

End BothRunners.

(** * The runners on concrete experiments *)

Module BinaryExamples.
Import Imbtools BinaryWording BinaryDemo.

(** C9 on [BinaryExperiment.run].  With one real oversampler, one
    classifier and two datasets, the estimator scored on the first
    dataset is the chain (oversampler, classifier), but the one scored on
    the second dataset is the chain (oversampler, (oversampler,
    classifier)): line 76 rebinds [clf] to the pipeline it has just
    built.  With the oversampler [None], line 72 raises before the guard
    of line 75 is reached, and nothing is scored. *)
Theorem BinaryExperiment_chains_pile_up_and_None_raises :
  call_clf <$> calls (run (start two_datasets "." 0)).2
  = [Pipeline [Leaf "SMOTE" true (Some 0); Leaf "SVC" true (Some 0)];
     Pipeline [Leaf "SMOTE" true (Some 0);
               Pipeline [Leaf "SMOTE" true (Some 0);
                         Leaf "SVC" true (Some 0)]]]
  ∧ (run (start no_oversampler "." 0)).1
    = Raise (AttributeError "'NoneType' object has no attribute 'set_params'")
  ∧ calls (run (start no_oversampler "." 0)).2 = [].
Proof. vm_compute. repeat split. Qed.

(** C6 on [BinaryExperiment.run].  The splitter is built at line 68 from
    [n_splits] and the seed alone, so it keeps the library's default, no
    shuffling: in the run of [two_datasets] both calls get the splitter
    with [shuffle = false], and no run ever passes a shuffling splitter. *)
Theorem BinaryExperiment_splitter_does_not_shuffle :
  call_cv <$> calls (run (start two_datasets "." 0)).2
  = [ {| n_splits := 3; shuffle := false; random_state := Some 0 |};
      {| n_splits := 3; shuffle := false; random_state := Some 0 |} ]
  ∧ ∀ (L : Library) (e : BinaryExperiment (H := L)) (dir : string)
      (a : Ambient (Library := L)),
      Forall (λ c, shuffle (call_cv (H := L) c) = false)
        (calls (run (start e dir a)).2).
Proof.
  split; [vm_compute; reflexivity|].
  intros L e dir a. apply BinaryFacts.binary_run_never_shuffles. reflexivity.
Qed.

(** C2, as it is worded, fails on [BinaryExperiment.run]: with one seed,
    two datasets and two classifiers, the evaluations, read as
    (seed index, dataset index, classifier index), do not come in the
    order of the product seeds, datasets, estimators. *)
Lemma BinaryExperiment_does_not_nest_datasets_before_estimators :
  (λ c, let '(i, clf_ind, _, _, d) := call_indices c in (i, d, clf_ind))
    <$> calls (run (start two_by_two "." 0)).2
  ≠ product (range 1) (range 2) (range 2).
Proof. vm_compute. discriminate. Qed.

Example BinaryExperiment_two_by_two_order :
  (λ c, let '(i, clf_ind, _, _, d) := call_indices c in (i, d, clf_ind))
    <$> calls (run (start two_by_two "." 0)).2
  = [(0, 0, 0); (0, 1, 0); (0, 0, 1); (0, 1, 1)].
Proof. vm_compute. reflexivity. Qed.

End BinaryExamples.

Module ExperimentExamples.
Import Hyperlearn ExperimentWording ExperimentDemo.

Lemma demo_validators_aligned (l : list Spec) estimators grids :
  check_estimators (Specs l) = Ok estimators →
  check_param_grids (Specs l) None = Ok grids →
  length grids = length estimators.
Proof.
  intros [= <-] [= <-]. rewrite !length_fmap. reflexivity.
Qed.

Lemma demo_fit_deterministic : fit_deterministic_when_seeded.
Proof.
  intros a a' gscv X y Hseed. simpl.
  destruct X; [reflexivity|].
  destruct (splitter_random_state (gs_cv gscv)); [reflexivity|congruence].
Qed.

Lemma demo_seeds_derived : seeds_derived_from_seed.
Proof.
  intros base n seeds [= <-]. simpl. apply Forall_fmap, Forall_true.
  intros index. simpl. discriminate.
Qed.

Lemma run_scores_every_combination_witness :
  ∃ records,
    results_ (self (ExtendedExperiment_run true (start two_cubed 0)).2)
    = Some records
    ∧ Z.of_nat (length records) = 2 * 2 * 2.
Proof.
  destruct (ExperimentFacts.run_scores_every_combination true
              [("a", good); ("b", good)] (start two_cubed 0)
              (ExtendedExperiment_run true (start two_cubed 0)).2)
    as (ds & seeds & estimators & records & Hds & Hest & Hseeds & _ & Hres & Hlen).
  - reflexivity.
  - reflexivity.
  - apply demo_validators_aligned.
  - vm_compute. reflexivity.
  - exists records. split; [exact Hres|].
    injection Hds as <-. injection Hest as <-. injection Hseeds as <-.
    exact Hlen.
Defined.

Lemma seeded_runs_give_identical_results_witness :
  results_ (self (ExtendedExperiment_run true (start two_cubed 0)).2)
  = results_ (self (ExtendedExperiment_run true (start two_cubed 100)).2).
Proof.
  destruct (ExperimentFacts.seeded_runs_give_identical_results true 3
              two_cubed 0 100 demo_fit_deterministic demo_seeds_derived
              eq_refl) as (_ & Hresults & _).
  exact Hresults.
Defined.

(** Without a base seed the records do depend on the ambient generator. *)
Example unseeded_runs_differ :
  results_ (self (ExtendedExperiment_run true
                    (start (experiment (Some [("a", good)]) None) 0)).2)
  ≠ results_ (self (ExtendedExperiment_run true
                      (start (experiment (Some [("a", good)]) None) 100)).2).
Proof. vm_compute. discriminate. Qed.

Lemma run_without_datasets_scores_nothing_witness :
  (∃ s', ExtendedExperiment_run true (start stripped 0) = (Ok tt, s')
         ∧ self s' = stripped ∧ calls s' = [])
  ∧ (∃ s', ExtendedExperiment_run true (start no_dataset 0) = (Ok tt, s')
           ∧ results_ (self s') = Some [] ∧ calls s' = []).
Proof.
  split.
  - destruct (ExperimentFacts.run_without_datasets_scores_nothing true
                (start stripped 0)) as [Habsent _].
    exact (Habsent eq_refl).
  - destruct (ExperimentFacts.run_without_datasets_scores_nothing true
                (start no_dataset 0)) as [_ Hempty].
    exact (Hempty eq_refl eq_refl eq_refl eq_refl eq_refl).
Defined.

(** An object whose datasets were dropped by [save] is left alone by
    [run]. *)
Example run_after_save_is_a_no_op :
  let saved := (save "experiment.pkl" false (start two_cubed 0)).2 in
  datasets (self saved) = None
  ∧ (ExtendedExperiment_run true saved).1 = Ok tt
  ∧ self (ExtendedExperiment_run true saved).2 = self saved.
Proof. vm_compute. repeat split. Qed.

(** Two seeds, two datasets, two estimators: the eight combinations in
    the order they are evaluated. *)
Example two_cubed_order :
  (λ c, (seed_of c, dataset_name_of c, c.2.1))
    <$> (call_combination
           <$> calls (ExtendedExperiment_run true (start two_cubed 0)).2)
  = [(Some 0, "a", "SVC"); (Some 0, "a", "KNN");
     (Some 0, "b", "SVC"); (Some 0, "b", "KNN");
     (Some 3, "a", "SVC"); (Some 3, "a", "KNN");
     (Some 3, "b", "SVC"); (Some 3, "b", "KNN")].
Proof. vm_compute. reflexivity. Qed.

(** The splitter [check_cv] returns does not shuffle; the one the fit
    gets does, and carries the seed. *)
Example two_cubed_splitters :
  (λ c, (shuffle (gs_cv (call_search c)),
         splitter_random_state (gs_cv (call_search c))))
    <$> calls (ExtendedExperiment_run true (start two_cubed 0)).2
  = [(true, Some 0); (true, Some 0); (true, Some 0); (true, Some 0);
     (true, Some 3); (true, Some 3); (true, Some 3); (true, Some 3)].
Proof. vm_compute. reflexivity. Qed.

(** [ResamplingExperiment.run] builds one chain per pair, the resampler
    left out where it is [None]. *)
Example resampling_chains :
  (λ c : list Spec, spec_name <$> c)
    <$> resampling_estimators
          [ {| spec_name := "none"; spec_estimator := None;
               spec_param_grid := None |}; spec "SMOTE" ]
          [spec "SVC"; spec "KNN"]
  = [["SVC"]; ["KNN"]; ["SMOTE"; "SVC"]; ["SMOTE"; "KNN"]].
Proof. vm_compute. reflexivity. Qed.

End ExperimentExamples.

Module RunnerExamples.
Import BinaryDemo ExperimentDemo.

Lemma runners_enumerate_in_their_loop_order_witness :
  (λ c, (ExperimentWording.seed_of c, ExperimentWording.dataset_name_of c, c.2.1))
    <$> (Hyperlearn.call_combination
           <$> Hyperlearn.calls
                 (Hyperlearn.ExtendedExperiment_run true
                    (Hyperlearn.start two_cubed 0)).2)
  = [(Some 0, "a", "SVC"); (Some 0, "a", "KNN");
     (Some 0, "b", "SVC"); (Some 0, "b", "KNN");
     (Some 3, "a", "SVC"); (Some 3, "a", "KNN");
     (Some 3, "b", "SVC"); (Some 3, "b", "KNN")]
  ∧ Imbtools.call_indices
      <$> Imbtools.calls (Imbtools.run (Imbtools.start two_by_two "." 0)).2
    = [(0, 0, 0, 0, 0); (0, 0, 0, 0, 1); (0, 1, 0, 0, 0); (0, 1, 0, 0, 1)].
Proof.
  destruct (runners_enumerate_in_their_loop_order true
              [("a", ExperimentDemo.good); ("b", ExperimentDemo.good)]
              (Hyperlearn.start two_cubed 0)
              (Hyperlearn.ExtendedExperiment_run true
                 (Hyperlearn.start two_cubed 0)).2
              (Imbtools.start two_by_two "." 0)
              (Imbtools.run (Imbtools.start two_by_two "." 0)).2)
    as (Hextended & _ & Hbinary).
  split.
  - destruct Hextended
      as (ds & seeds & estimators & grids & Hds & Hest & Hgrids & Hseeds & Horder & _);
      [reflexivity|reflexivity|vm_compute; reflexivity|].
    rewrite Horder.
    injection Hds as <-. injection Hest as <-. injection Hgrids as <-.
    injection Hseeds as <-. reflexivity.
  - destruct Hbinary as (d & Hd & Htrace);
      [reflexivity|vm_compute; reflexivity|].
    rewrite Htrace. injection Hd as <-. reflexivity.
Defined.

Lemma failing_evaluation_aborts_the_run_witness :
  ((Hyperlearn.ExtendedExperiment_run true
      (Hyperlearn.start ExperimentDemo.second_fails 0)).1
   = Raise (LibraryError "no feature column")
   ∧ Hyperlearn.results_
       (Hyperlearn.self
          (Hyperlearn.ExtendedExperiment_run true
             (Hyperlearn.start ExperimentDemo.second_fails 0)).2)
     = Some [("a", 0); ("a", 0)])
  ∧ ((Imbtools.run (Imbtools.start BinaryDemo.second_fails "." 0)).1
     = Raise (LibraryError "no feature column")
     ∧ Imbtools.cv_scores_
         (Imbtools.self
            (Imbtools.run (Imbtools.start BinaryDemo.second_fails "." 0)).2)
       = [0]).
Proof.
  assert (Hlog : ∃ before c,
            Hyperlearn.calls
              (Hyperlearn.ExtendedExperiment_run true
                 (Hyperlearn.start ExperimentDemo.second_fails 0)).2
            = before ++ c :: []
            ∧ Hyperlearn.call_result c = Raise (LibraryError "no feature column")
            ∧ ExperimentWording.completed before = [("a", 0); ("a", 0)]).
  { vm_compute. eexists [_; _], _. repeat split. }
  assert (Hlog' : ∃ before c,
            Imbtools.calls
              (Imbtools.run (Imbtools.start BinaryDemo.second_fails "." 0)).2
            = before ++ c :: []
            ∧ Imbtools.call_result c = Raise (LibraryError "no feature column")
            ∧ BinaryWording.completed_scores before = [0]).
  { vm_compute. eexists [_], _. repeat split. }
  destruct Hlog as (before & c & Hcalls & Hc & Hbefore).
  destruct Hlog' as (before' & c' & Hcalls' & Hc' & Hbefore').
  destruct (failing_evaluation_aborts_the_run true
              (Hyperlearn.start ExperimentDemo.second_fails 0)
              before c [] (LibraryError "no feature column")
              (Imbtools.start BinaryDemo.second_fails "." 0)
              before' c' [] (LibraryError "no feature column"))
    as [Hextended Hbinary].
  split.
  - destruct (Hextended eq_refl Hcalls Hc) as (_ & Hraise & Hresults & _).
    split; [exact Hraise|]. rewrite Hresults, Hbefore. reflexivity.
  - destruct (Hbinary eq_refl Hcalls' Hc') as (_ & Hraise & Hscores & _).
    split; [exact Hraise|]. rewrite Hscores, Hbefore'. reflexivity.
Defined.

Lemma directory_without_csv_loads_nothing_witness :
  Hyperlearn.read_csv_dir "reports" = Ok []
  ∧ Imbtools.datasets
      (Imbtools.self
         (Imbtools.initialize_parameters
            (Imbtools.start from_reports "." 0)).2)
    = Imbtools.Dict [].
Proof.
  assert (Hnone : ∀ f : string,
            f ∈ ["notes.txt"; "README"] → match_csv f = false).
  { apply Forall_forall. repeat constructor. }
  destruct (directory_without_csv_loads_nothing "reports"
              ["notes.txt"; "README"] (Imbtools.start from_reports "." 0)
              "reports" ["notes.txt"; "README"]) as [Hextended Hbinary].
  split.
  - exact (Hextended eq_refl Hnone).
  - rewrite (Hbinary eq_refl eq_refl eq_refl Hnone). reflexivity.
Defined.

(** C7, as it is worded, fails: loading from a directory without csv
    files raises nothing, neither in [read_csv_dir] nor in
    [BinaryExperiment.run], which returns with no score. *)
Lemma directory_without_csv_raises_nothing :
  is_ok (Hyperlearn.read_csv_dir "reports") = true
  ∧ is_ok (Imbtools.initialize_parameters
             (Imbtools.start from_reports "." 0)).1 = true
  ∧ is_ok (Imbtools.run (Imbtools.start from_reports "." 0)).1 = true.
Proof. vm_compute. repeat split. Qed.

End RunnerExamples.

(** * Further properties: names and seeds *)

Module NamesAndSeeds.
Import Imbtools Wording.

(** *** Strings *)

Lemma append_cancel (x a b : string) : x +:+ a = x +:+ b → a = b.
Proof.
  induction x as [|c x IH]; simpl; [trivial|].
  intros [= Hab]. exact (IH Hab).
Qed.

Lemma append_grows (x a : string) : x +:+ a = x → a = "".
Proof.
  induction x as [|c x IH]; simpl; [trivial|].
  intros [= Hx]. exact (IH Hx).
Qed.

Lemma pretty_N_go_no_shorter (x : N) (s : string) :
  (String.length s ≤ String.length (pretty_N_go x s))%nat.
Proof.
  revert s. induction (N.lt_wf_0 x) as [x _ IH]; intros s.
  destruct (decide (x = 0%N)) as [->|Hx].
  - rewrite pretty_N_go_0. lia.
  - rewrite pretty_N_go_step by lia.
    etrans; [|apply IH; apply N.div_lt; lia]. simpl. lia.
Qed.

(** [str(n)] of a positive [int] is not the empty string. *)
Lemma str_not_empty (n : Z) : 0 < n → str n ≠ "".
Proof.
  intros Hn Hempty. destruct n as [|p|p]; try lia.
  unfold str, pretty, pretty_Z, pretty, pretty_positive, pretty, pretty_N
    in Hempty.
  destruct (decide (N.pos p = 0%N)) as [|_]; [discriminate|].
  rewrite pretty_N_go_step in Hempty by lia.
  pose proof (pretty_N_go_no_shorter (N.pos p `div` 10)
                (String (pretty_N_char (N.pos p `mod` 10)) "")) as Hlen.
  rewrite Hempty in Hlen. simpl in Hlen. lia.
Qed.

(** *** [count_elements] *)

Lemma count_elements_canonical (elements : list string) :
  count_elements elements = imap (canonical elements) elements.
Proof.
  unfold count_elements.
  rewrite (BinaryFacts.count_elements_loop_spec elements [] ∅ []
             BinaryFacts.counts_empty).
  reflexivity.
Qed.

Lemma seen_app_one element y l :
  seen element ([y] ++ l) = seen element [y] + seen element l.
Proof. unfold seen. rewrite filter_app, length_app. lia. Qed.

Lemma seen_zero element before : element ∉ before → seen element before = 0.
Proof.
  induction before as [|y before IH]; intros Hnot; [reflexivity|].
  change (y :: before) with ([y] ++ before). rewrite seen_app_one.
  rewrite IH by set_solver. unfold seen. rewrite filter_cons, filter_nil.
  destruct (decide (y = element)) as [->|_]; [set_solver|reflexivity].
Qed.

Lemma seen_app element l1 l2 :
  seen element (l1 ++ l2) = seen element l1 + seen element l2.
Proof. unfold seen. rewrite filter_app, length_app. lia. Qed.

(** Between two occurrences of a name, its count goes up. *)
Lemma seen_grows (elements : list string) i j x :
  (i < j)%nat → elements !! i = Some x →
  seen x (take i elements) < seen x (take j elements).
Proof.
  intros Hij Hi.
  replace j with (S i + (j - S i))%nat by lia.
  rewrite <- take_take_drop, (take_S_r _ _ _ Hi), !seen_app.
  pose proof (BinaryFacts.seen_nonneg x (take (j - S i) (drop (S i) elements))).
  assert (seen x [x] = 1) as ->; [|lia].
  unfold seen. rewrite filter_cons, filter_nil.
  destruct (decide (x = x)); [reflexivity|congruence].
Qed.

(** The list keeps its length, so that the name of the k-th estimator
    is at index k. *)
Lemma count_elements_length (elements : list string) :
  length (count_elements elements) = length elements.
Proof. rewrite count_elements_canonical. apply length_imap. Qed.

(** X1.
    [count_elements] changes nothing in a list without duplicates. *)
Theorem count_elements_keeps_distinct_names (elements : list string) :
  NoDup elements → count_elements elements = elements.
Proof.
  intros Hnodup. rewrite count_elements_canonical.
  apply list_eq. intros i. rewrite list_lookup_imap.
  destruct (elements !! i) as [x|] eqn:Hi; [|reflexivity].
  simpl. f_equal. unfold canonical.
  rewrite seen_zero; [reflexivity|].
  intros Hin. apply elem_of_take in Hin as (j & Hj & Hlt).
  pose proof (NoDup_lookup _ _ _ _ Hnodup Hi Hj). lia.
Qed.

(** X2.
    [count_elements] gives two occurrences of the same name two different
    names. *)
Theorem count_elements_separates_equal_names (elements : list string)
    (i j : nat) (x : string) :
  i ≠ j → elements !! i = Some x → elements !! j = Some x →
  count_elements elements !! i ≠ count_elements elements !! j.
Proof.
  assert (Hlt : ∀ i j, (i < j)%nat → elements !! i = Some x →
            elements !! j = Some x →
            count_elements elements !! i ≠ count_elements elements !! j).
  { clear i j. intros i j Hij Hi Hj.
    rewrite count_elements_canonical, !list_lookup_imap, Hi, Hj. simpl.
    pose proof (seen_grows elements i j x Hij Hi) as Hgrow.
    pose proof (BinaryFacts.seen_nonneg x (take i elements)) as Hpos.
    unfold canonical.
    destruct (seen x (take j elements) =? 0) eqn:Ej; [lia|].
    destruct (seen x (take i elements) =? 0) eqn:Ei.
    - intros [= Heq]. symmetry in Heq. apply append_grows in Heq.
      apply str_not_empty in Heq; [exact Heq|lia].
    - intros [= Heq]. apply append_cancel in Heq.
      unfold str in Heq. apply pretty_Z_inj in Heq. lia. }
  intros Hij Hi Hj.
  destruct (decide (i < j)%nat) as [Hless|Hmore].
  - exact (Hlt i j Hless Hi Hj).
  - intros Heq. symmetry in Heq.
    exact (Hlt j i ltac:(lia) Hj Hi Heq).
Qed.

(** X3.
    Names that differ can be given the same name: a name met twice,
    followed by that name with the suffix 2, gives the suffixed name
    twice. *)
Theorem count_elements_can_collide (x : string) :
  count_elements [x; x; x +:+ "2"] = [x; x +:+ "2"; x +:+ "2"].
Proof.
  assert (Hne : x +:+ "2" ≠ x).
  { intros Heq. apply append_grows in Heq. discriminate. }
  unfold count_elements. simpl.
  rewrite lookup_empty, lookup_insert_eq.
  rewrite lookup_insert_ne by congruence.
  rewrite lookup_insert_ne by congruence.
  rewrite lookup_empty. reflexivity.
Qed.

(** *** The seeds of line 56 *)

(** X4.
    With a base seed other than 0 the repetitions get pairwise different
    seeds; with the base seed 0 they all get the seed 0. *)
Theorem resolve_random_states_distinct_unless_zero (seed n : Z) :
  (seed ≠ 0 → NoDup (resolve_random_states (Some seed) n))
  ∧ (seed = 0 →
     Forall (λ r, r = Some 0) (resolve_random_states (Some seed) n)).
Proof.
  split.
  - intros Hseed. unfold resolve_random_states, range.
    apply NoDup_fmap_2_strong; [|apply NoDup_seqZ].
    intros a b _ _ [= Hab]. nia.
  - intros ->. unfold resolve_random_states.
    apply Forall_fmap, Forall_true. intros index. simpl. reflexivity.
Qed.

End NamesAndSeeds.

(** * Further properties: [BinaryExperiment] *)

Module BinaryRunFacts.
Import Imbtools Wording BinaryWording BinaryRunWording.

Section Counting.
Context `{Library}.

Lemma range_length (n : nat) : length (range (Z.of_nat n)) = n.
Proof. unfold range. rewrite length_seqZ. lia. Qed.

Lemma nested_indices_length a b c d e :
  length (nested_indices a b c d e) = (a * b * c * d * e)%nat.
Proof.
  unfold nested_indices.
  rewrite (ExperimentFacts.bind_length_const _ (b * c * d * e)), range_length;
    [lia|].
  intros i.
  rewrite (ExperimentFacts.bind_length_const _ (c * d * e)), range_length;
    [lia|].
  intros k.
  rewrite (ExperimentFacts.bind_length_const _ (d * e)), range_length;
    [lia|].
  intros o.
  rewrite (ExperimentFacts.bind_length_const _ e), range_length; [lia|].
  intros m.
  rewrite (ExperimentFacts.bind_length_const _ 1), range_length; [lia|].
  reflexivity.
Qed.

Lemma completed_scores_length log :
  Forall call_ok log → length (completed_scores log) = length log.
Proof.
  induction 1 as [|c log Hc _ IH]; [reflexivity|].
  unfold call_ok in Hc. change (c :: log) with ([c] ++ log).
  unfold completed_scores in *. rewrite omap_app, length_app, IH. simpl.
  destruct (call_result c); [reflexivity|discriminate].
Qed.

(** X5.
    A run that ends normally leaves one score per tuple of a repetition,
    a classifier, an oversampling method, a metric and a dataset. *)
Theorem BinaryExperiment_run_scores_every_tuple (s s' : State) :
  calls s = [] → run s = (Ok tt, s') →
  ∃ d, datasets (self s') = Dict d
    ∧ length (cv_scores_ (self s'))
      = (length (random_states_ (self s'))
         * length (classifiers (self s'))
         * length (oversampling_methods (self s'))
         * length (scorers_ (self s')) * length d)%nat.
Proof.
  intros Hlog Hrun.
  destruct (BinaryFacts.run_order s s' Hlog Hrun) as (d & Hd & Htrace).
  pose proof (BinaryFacts.run_tidy s Hlog) as Htidy. rewrite Hrun in Htidy.
  destruct Htidy as (Hscores & Hok & _).
  exists d. split; [exact Hd|].
  rewrite Hscores, (completed_scores_length _ Hok).
  rewrite <- (length_fmap call_indices). fold (trace s').
  rewrite Htrace. apply nested_indices_length.
Qed.

End Counting.

Section Log.
Context `{Library}.

(** [_initialize_parameters] prints nothing, calls nothing and leaves
    the local [clf] and the ambient generator alone, however it ends. *)
Lemma initialize_parameters_quiet (s : State) :
  ∃ e dir,
    (initialize_parameters s).2
    = {| self := e; clf := clf s; cwd := dir; stdout := stdout s;
         ambient := ambient s; calls := calls s |}.
Proof.
  unfold initialize_parameters. exec.
  destruct (datasets (self _)) as [path|d0] eqn:Hd; simpl in Hd.
  - exec. destruct (chdir path) as [[]|e]; [|simpl; eauto].
    exec. simpl cwd.
    destruct (listdir path) as [names|e]; [|simpl; eauto].
    exec.
    match goal with
    | |- context [for_each ?l ?body ?s0] =>
        pose proof (for_each_keeps
          (λ s', ∃ e, s' = {| self := e; clf := clf s; cwd := path;
                              stdout := stdout s; ambient := ambient s;
                              calls := calls s |})
          body l) as Hloop;
        assert (Hbody : ∀ x, triple
          (λ s', ∃ e, s' = {| self := e; clf := clf s; cwd := path;
                              stdout := stdout s; ambient := ambient s;
                              calls := calls s |})
          (body x)
          (λ _ s', ∃ e, s' = {| self := e; clf := clf s; cwd := path;
                                stdout := stdout s; ambient := ambient s;
                                calls := calls s |})
          (λ _ s', ∃ e, s' = {| self := e; clf := clf s; cwd := path;
                                stdout := stdout s; ambient := ambient s;
                                calls := calls s |}));
        [|specialize (Hloop Hbody s0 (ex_intro _ _ eq_refl));
          destruct (for_each l body s0) as [[[]|e] s2];
          simpl in Hloop; destruct Hloop as [e' ->]; exec;
          [cbn [self with_self]; destruct (keys _); simpl|simpl]; eauto]
    end.
    intros x s' [e' ->]. exec.
    destruct (read_csv path x) as [dataset|e]; [|eauto]. exec.
    destruct (split_target dataset) as [[X y]|e]; [|eauto]. exec.
    simpl. eauto.
  - exec. simpl. rewrite Hd. exec. simpl. eauto.
Qed.

Lemma completed_calls_snoc_ok log c v :
  call_result c = Ok v → completed_calls (log ++ [c]) = completed_calls log ++ [c].
Proof.
  intros Hc. unfold completed_calls. rewrite filter_app, filter_cons, filter_nil.
  rewrite Hc. simpl. destruct (decide (true = true)); [reflexivity|congruence].
Qed.

Lemma completed_calls_snoc_raise log c e :
  call_result c = Raise e → completed_calls (log ++ [c]) = completed_calls log.
Proof.
  intros Hc. unfold completed_calls. rewrite filter_app, filter_cons, filter_nil.
  rewrite Hc. simpl. destruct (decide (false = true)); [discriminate|].
  apply app_nil_r.
Qed.

Lemma logged_frame e s s' :
  same_names e (self s) → same_names e (self s') →
  stdout s' = stdout s → calls s' = calls s → logged e s → logged e s'.
Proof. unfold logged. intros _ Hnames -> -> [_ Hlog]. split; assumption. Qed.

Lemma run_dataset_logged e i cv c o om m scorer d X y :
  triple (logged e) (run_dataset i cv c o om m scorer d X y)
    (λ _, logged e) (λ _, logged e).
Proof.
  intros s Hs. unfold run_dataset. exec.
  set (s1 := match om with
             | Some om0 => set_clf (make_pipeline om0 (clf s)) s
             | None => s
             end).
  assert (Hs1 : logged e s1).
  { destruct om; [|exact Hs].
    apply (logged_frame e s); [apply Hs|apply Hs|reflexivity..|exact Hs]. }
  assert (Hstep : match om with
                  | Some om0 => modify (λ s, set_clf (make_pipeline om0 (clf s)) s)
                  | None => ret tt
                  end s = (Ok tt, s1)).
  { destruct om; reflexivity. }
  rewrite Hstep. clearbody s1. clear Hstep Hs s. exec.
  destruct Hs1 as [(Hn1 & Hn2 & Hn3 & Hn4) Hlog].
  rewrite Hn1, Hn2, Hn3, Hn4.
  assert (Hs1 : logged e s1) by (split; [repeat split|]; assumption).
  destruct (index (classifiers_names_ e) c) as [clf_name|?] eqn:Hclf;
    [|exact Hs1]. exec.
  destruct (index (oversampling_methods_names_ e) o) as [om_name|?] eqn:Hom;
    [|exact Hs1]. exec.
  destruct (index (metrics_names_ e) m) as [metric_name|?] eqn:Hmetric;
    [|exact Hs1]. exec.
  destruct (keys (datasets e)) as [names|?] eqn:Hkeys; [|exact Hs1]. exec.
  destruct (index names d) as [dataset_name|?] eqn:Hdataset; [|exact Hs1].
  exec. unfold do_cross_val_score.
  destruct (cross_val_score (ambient s1) (clf s1) X y cv scorer)
    as [[v|err] amb] eqn:Hcall.
  - exec. split; [repeat split; assumption|]. simpl.
    rewrite (completed_calls_snoc_ok _ _ v) by reflexivity.
    apply Forall2_app; [exact Hlog|]. repeat constructor; simpl; eauto.
  - split; [repeat split; assumption|]. simpl.
    rewrite (completed_calls_snoc_raise _ _ err) by reflexivity.
    exact Hlog.
Qed.

Lemma run_scorer_logged e i cv c o om m scorer :
  triple (logged e) (run_scorer i cv c o om m scorer)
    (λ _, logged e) (λ _, logged e).
Proof.
  intros s Hs. unfold run_scorer. exec.
  destruct (values (datasets (self s))) as [data|?]; [|exact Hs]. exec.
  apply (triple_for_each_same (logged e) (λ _, logged e)); [|exact Hs].
  intros [d [X y]] _. apply run_dataset_logged.
Qed.

Lemma run_oversampling_method_logged e i r cv c o om :
  triple (logged e) (run_oversampling_method i r cv c o om)
    (λ _, logged e) (λ _, logged e).
Proof.
  intros s Hs. unfold run_oversampling_method. exec.
  destruct (set_params om r) as [om'|?]; [|exact Hs]. exec.
  apply (triple_for_each_same (logged e) (λ _, logged e));
    [|apply (logged_frame e s); [apply Hs|apply Hs|reflexivity..|exact Hs]].
  intros [m scorer] _. apply run_scorer_logged.
Qed.

Lemma run_classifier_logged e i r cv c classifier :
  triple (logged e) (run_classifier i r cv c classifier)
    (λ _, logged e) (λ _, logged e).
Proof.
  intros s Hs. unfold run_classifier. exec.
  destruct (set_params (Some classifier) r) as [c'|?];
    [|apply (logged_frame e s); [apply Hs|apply Hs|reflexivity..|exact Hs]].
  exec.
  apply (triple_for_each_same (logged e) (λ _, logged e));
    [|apply (logged_frame e s); [apply Hs|apply Hs|reflexivity..|exact Hs]].
  intros [o om] _. apply run_oversampling_method_logged.
Qed.

Lemma run_experiment_logged e i r :
  triple (logged e) (run_experiment i r) (λ _, logged e) (λ _, logged e).
Proof.
  intros s Hs. unfold run_experiment. exec.
  apply (triple_for_each_same (logged e) (λ _, logged e)); [|exact Hs].
  intros [c classifier] _. apply run_classifier_logged.
Qed.

(** X6.
    However the run ends, what it printed is one message per call of
    [cross_val_score] that returned, in the order of the calls, each
    with the number of the repetition, the names of the classifier, the
    oversampling method, the metric and the dataset at the loop indices
    of the call, and the score the call returned. *)
Theorem BinaryExperiment_run_prints_every_score (s : State) :
  calls s = [] → stdout s = [] →
  Forall2 (describes (self (run s).2)) (stdout (run s).2)
    (completed_calls (calls (run s).2)).
Proof.
  intros Hcalls Hout. unfold run. rewrite exec_bind.
  destruct (initialize_parameters_quiet s) as (e & dir & Hinit).
  destruct (initialize_parameters s) as [[[]|err] s1]; simpl in Hinit;
    subst s1.
  - exec.
    match goal with
    | |- context [for_each ?l ?body ?s0] =>
        pose proof (for_each_keeps (logged e) body l
                      (λ x, let '(i, r) := x in run_experiment_logged e i r)
                      s0) as Hloop
    end.
    destruct Hloop as [(Hn1 & Hn2 & Hn3 & Hn4) Hlog].
    { split; [repeat split|]. simpl. rewrite Hcalls, Hout. constructor. }
    eapply Forall2_impl; [exact Hlog|].
    intros m c. unfold describes. rewrite Hn1, Hn2, Hn3, Hn4. trivial.
  - simpl. rewrite Hcalls, Hout. constructor.
Qed.

End Log.

Section Errors.
Context `{Library}.

Lemma index_in_range {A} (l : list A) (i : Z) :
  0 ≤ i < Z.of_nat (length l) → ∃ x, index l i = Ok x.
Proof.
  intros Hi. assert (E : (0 <=? i) = true) by lia.
  unfold index. cbv zeta. rewrite E. cbv iota. rewrite E.
  destruct (l !! Z.to_nat i) as [x|] eqn:Hx; [eauto|].
  apply lookup_ge_None in Hx. lia.
Qed.

Lemma enumerate_bounds {A} (l : list A) (i : Z) (x : A) :
  (i, x) ∈ enumerate l → 0 ≤ i < Z.of_nat (length l).
Proof.
  unfold enumerate. intros Hin.
  apply list_elem_of_lookup in Hin as [k Hk].
  apply list_lookup_imap_Some in Hk as (y & Hy & [= -> ->]).
  apply lookup_lt_Some in Hy. lia.
Qed.

Lemma set_params_raises obj r e :
  set_params obj r = Raise e → set_params_error e.
Proof.
  unfold set_params, set_params_error.
  destruct obj as [[cls [] r0|steps]|]; intros [= <-]; auto.
Qed.

Lemma run_dataset_raises nc no ns dd i cv c o om m scorer d X y :
  0 ≤ c < Z.of_nat nc → 0 ≤ o < Z.of_nat no → 0 ≤ m < Z.of_nat ns →
  0 ≤ d < Z.of_nat (length dd) →
  triple (aligned nc no ns dd) (run_dataset i cv c o om m scorer d X y)
    (λ _, aligned nc no ns dd) raised_by_a_call.
Proof.
  intros Hc Ho Hm Hd s Hs. unfold run_dataset. exec.
  set (s1 := match om with
             | Some om0 => set_clf (make_pipeline om0 (clf s)) s
             | None => s
             end).
  assert (Hs1 : aligned nc no ns dd s1) by (destruct om; exact Hs).
  assert (Hstep : match om with
                  | Some om0 => modify (λ s, set_clf (make_pipeline om0 (clf s)) s)
                  | None => ret tt
                  end s = (Ok tt, s1)).
  { destruct om; reflexivity. }
  rewrite Hstep. clearbody s1. clear Hstep Hs s. exec.
  pose proof Hs1 as (H1 & H2 & H3 & H4 & H5 & H6 & H7).
  destruct (index_in_range (classifiers_names_ (self s1)) c) as [clf_name ->];
    [lia|]. exec.
  destruct (index_in_range (oversampling_methods_names_ (self s1)) o)
    as [om_name ->]; [lia|]. exec.
  destruct (index_in_range (metrics_names_ (self s1)) m) as [metric_name ->];
    [lia|]. exec.
  rewrite H4. simpl keys. exec.
  destruct (index_in_range dd.*1 d) as [dataset_name ->];
    [rewrite length_fmap; lia|]. exec.
  unfold do_cross_val_score.
  destruct (cross_val_score (ambient s1) (clf s1) X y cv scorer)
    as [[v|err] amb].
  - exec. exact Hs1.
  - right. simpl. eexists. rewrite last_snoc. split; reflexivity.
Qed.

Lemma run_scorer_raises nc no ns dd i cv c o om m scorer :
  0 ≤ c < Z.of_nat nc → 0 ≤ o < Z.of_nat no → 0 ≤ m < Z.of_nat ns →
  triple (aligned nc no ns dd) (run_scorer i cv c o om m scorer)
    (λ _, aligned nc no ns dd) raised_by_a_call.
Proof.
  intros Hc Ho Hm s Hs. unfold run_scorer. exec.
  pose proof Hs as (_ & _ & _ & -> & _). simpl values. exec.
  apply (triple_for_each_same (aligned nc no ns dd) raised_by_a_call);
    [|exact Hs].
  intros [d [X y]] Hin. apply enumerate_bounds in Hin.
  rewrite length_fmap in Hin. apply run_dataset_raises; assumption.
Qed.

Lemma run_oversampling_method_raises nc no ns dd i r cv c o om :
  0 ≤ c < Z.of_nat nc → 0 ≤ o < Z.of_nat no →
  triple (aligned nc no ns dd) (run_oversampling_method i r cv c o om)
    (λ _, aligned nc no ns dd) raised_by_a_call.
Proof.
  intros Hc Ho s Hs. unfold run_oversampling_method. exec.
  destruct (set_params om r) as [om'|e] eqn:Hset;
    [|left; exact (set_params_raises _ _ _ Hset)].
  exec. pose proof Hs as (H1 & H2 & H3 & H4 & H5 & H6 & H7).
  simpl scorers_.
  apply (triple_for_each_same (aligned nc no ns dd) raised_by_a_call).
  - intros [m scorer] Hin. apply enumerate_bounds in Hin.
    apply run_scorer_raises; [assumption..|lia].
  - unfold aligned. simpl. rewrite length_insert. repeat split; assumption.
Qed.

Lemma run_classifier_raises nc no ns dd i r cv c classifier :
  0 ≤ c < Z.of_nat nc →
  triple (aligned nc no ns dd) (run_classifier i r cv c classifier)
    (λ _, aligned nc no ns dd) raised_by_a_call.
Proof.
  intros Hc s Hs. unfold run_classifier. exec.
  destruct (set_params (Some classifier) r) as [c'|e] eqn:Hset;
    [|left; exact (set_params_raises _ _ _ Hset)].
  exec. pose proof Hs as (H1 & H2 & H3 & H4 & H5 & H6 & H7).
  simpl oversampling_methods.
  apply (triple_for_each_same (aligned nc no ns dd) raised_by_a_call).
  - intros [o om] Hin. apply enumerate_bounds in Hin.
    apply run_oversampling_method_raises; [assumption|lia].
  - unfold aligned. simpl. rewrite length_insert. repeat split; assumption.
Qed.

Lemma run_experiment_raises nc no ns dd i r :
  triple (aligned nc no ns dd) (run_experiment i r)
    (λ _, aligned nc no ns dd) raised_by_a_call.
Proof.
  intros s Hs. unfold run_experiment. exec.
  pose proof Hs as (H1 & _).
  apply (triple_for_each_same (aligned nc no ns dd) raised_by_a_call);
    [|exact Hs].
  intros [c classifier] Hin. apply enumerate_bounds in Hin.
  apply run_classifier_raises. lia.
Qed.


End Errors.

Section Loading.
Context `{Library}.

(** *** The dictionary of datasets *)

Lemma dict_set_keys {V} (d : dict V) k v name :
  name ∈ (dict_set d k v).*1 ↔ name = k ∨ name ∈ d.*1.
Proof.
  induction d as [|[k' v'] d IH]; simpl.
  - rewrite list_elem_of_singleton, elem_of_nil. tauto.
  - destruct (String.eqb k' k) eqn:E; simpl.
    + apply String.eqb_eq in E as ->. rewrite !elem_of_cons. tauto.
    + rewrite !elem_of_cons, IH. tauto.
Qed.

Lemma dict_set_NoDup {V} (d : dict V) k v :
  NoDup d.*1 → NoDup (dict_set d k v).*1.
Proof.
  induction d as [|[k' v'] d IH]; simpl; intros Hd.
  - apply NoDup_singleton.
  - apply NoDup_cons in Hd as [Hk' Hd].
    destruct (String.eqb k' k) eqn:E; simpl.
    + apply String.eqb_eq in E as ->. apply NoDup_cons. auto.
    + apply String.eqb_neq in E. apply NoDup_cons. split; [|auto].
      rewrite dict_set_keys. intros [->|Hin]; [congruence|auto].
Qed.

Lemma dict_set_elem {V} (d : dict V) k v name x :
  (name, x) ∈ dict_set d k v → (name, x) = (k, v) ∨ (name, x) ∈ d.
Proof.
  induction d as [|[k' v'] d IH]; simpl.
  - rewrite list_elem_of_singleton. tauto.
  - destruct (String.eqb k' k); rewrite !elem_of_cons; [tauto|].
    intros [Heq|Hin]; [tauto|]. destruct (IH Hin); tauto.
Qed.

Lemma dict_set_length {V} (d : dict V) k v :
  (length (dict_set d k v) ≤ S (length d))%nat.
Proof.
  induction d as [|[k' v'] d IH]; simpl; [lia|].
  destruct (String.eqb k' k); simpl; lia.
Qed.

Lemma loaded_nil path : loaded path [] [].
Proof.
  unfold loaded. simpl. split; [constructor|]. split; [tauto|].
  split; [|lia]. intros name data Hin. inversion Hin.
Qed.

Lemma loaded_snoc path done d f frame data :
  loaded path done d → read_csv path f = Ok frame →
  split_target frame = Ok data →
  loaded path (done ++ [f]) (dict_set d (sub_csv f) data).
Proof.
  intros (Hnodup & Hkeys & Hvalues & Hlen) Hread Hsplit.
  split; [|split; [|split]].
  - apply dict_set_NoDup. exact Hnodup.
  - intros name. rewrite dict_set_keys, fmap_app, elem_of_app, Hkeys.
    simpl. rewrite list_elem_of_singleton. tauto.
  - intros name x Hin. apply dict_set_elem in Hin as [[= -> ->]|Hin].
    + exists f, frame. rewrite elem_of_app, list_elem_of_singleton. auto.
    + destruct (Hvalues name x Hin) as (f' & frame' & Hf' & Hrest).
      exists f', frame'. rewrite elem_of_app. auto.
  - pose proof (dict_set_length d (sub_csv f) data).
    rewrite length_app. simpl. lia.
Qed.

(** X8.
    Datasets loaded from a directory: the names are pairwise distinct,
    they are exactly the names derived from the matching file names, and
    every dataset is the split of a matching file with that derived
    name.  Files whose derived names coincide leave one dataset. *)
Theorem initialize_parameters_loads_distinct_names (s s' : State) path :
  datasets (self s) = DirPath path →
  initialize_parameters s = (Ok tt, s') →
  ∃ names d,
    listdir path = Ok names ∧ datasets (self s') = Dict d
    ∧ loaded path (List.filter match_csv names) d.
Proof.
  intros Hd. unfold initialize_parameters. exec.
  cbn [self with_self set_scorers_ datasets]. rewrite Hd. exec.
  destruct (chdir path) as [[]|e]; [|discriminate]. exec.
  cbn [cwd with_self set_cwd].
  destruct (listdir path) as [names|e]; [|discriminate]. exec.
  match goal with
  | |- context [for_each ?l ?body ?s0] =>
      pose proof (triple_for_each
        (λ done s', ∃ d, s' = with_self (set_datasets (Dict d)) s0
                         ∧ loaded path done d)
        (λ _ _, True) body l) as Hloop;
      assert (Hbody : ∀ done x rest, l = done ++ x :: rest →
        triple
          (λ s', ∃ d, s' = with_self (set_datasets (Dict d)) s0
                      ∧ loaded path done d)
          (body x)
          (λ _ s', ∃ d, s' = with_self (set_datasets (Dict d)) s0
                        ∧ loaded path (done ++ [x]) d)
          (λ _ _, True));
      [|specialize (Hloop Hbody s0
                      (ex_intro _ [] (conj eq_refl (loaded_nil path))));
        destruct (for_each l body s0) as [[[]|e] s2]; [|discriminate]]
  end.
  { intros done x rest _ s1 (d & -> & Hloaded). exec.
    destruct (read_csv path x) as [frame|e] eqn:Hread; [|exact I]. exec.
    destruct (split_target frame) as [[X y]|e] eqn:Hsplit; [|exact I]. exec.
    exists (dict_set d (sub_csv x) (X, y)). split; [reflexivity|].
    exact (loaded_snoc path done d x frame (X, y) Hloaded Hread Hsplit). }
  destruct Hloop as (d & -> & Hloaded). exec.
  cbn [self with_self set_datasets datasets set_random_states_ set_cv_scores_
       set_classifiers_names_ set_oversampling_methods_names_
       set_metrics_names_].
  simpl keys. exec. intros [= <-]. exists names, d. auto.
Qed.

End Loading.

End BinaryRunFacts.
(** * hyperlearn: reading, running, saving *)

Module ExperimentRunFacts.
Import Hyperlearn ExperimentWording ExperimentRunWording.

Section Reading.
Context `{Types} `{!Library} `{!Utils}.

(** *** [read_csv_dir] *)

Lemma read_csv_dir_spec dirpath names :
  listdir dirpath = Ok names →
  match read_csv_dir dirpath with
  | Ok ds => Forall2 (read_from dirpath) (List.filter match_csv names) ds
  | Raise e =>
      ∃ done f rest,
        List.filter match_csv names = done ++ f :: rest
        ∧ Forall (λ g, ∃ d, read_from dirpath g d) done
        ∧ unreadable dirpath e f
  end.
Proof.
  intros Hnames. unfold read_csv_dir. rewrite Hnames.
  set (csv_files := List.filter match_csv names).
  match goal with
  | |- context [for_each csv_files ?body []] =>
      pose proof (triple_for_each
        (λ done ds, Forall2 (read_from dirpath) done ds)
        (λ e _, ∃ done f rest,
           csv_files = done ++ f :: rest
           ∧ Forall (λ g, ∃ d, read_from dirpath g d) done
           ∧ unreadable dirpath e f)
        body csv_files) as Hloop;
      assert (Hbody : ∀ done x rest, csv_files = done ++ x :: rest →
        triple (λ ds, Forall2 (read_from dirpath) done ds) (body x)
          (λ _ ds, Forall2 (read_from dirpath) (done ++ [x]) ds)
          (λ e _, ∃ done f rest,
             csv_files = done ++ f :: rest
             ∧ Forall (λ g, ∃ d, read_from dirpath g d) done
             ∧ unreadable dirpath e f));
      [|specialize (Hloop Hbody [] (Forall2_nil_2 _ _ _));
        destruct (for_each csv_files body []) as [[[]|e] ds]; exact Hloop]
  end.
  intros done x rest Hl ds Hds.
  assert (Hdone : Forall (λ g, ∃ d, read_from dirpath g d) done).
  { clear Hl. induction Hds as [|g d done ds Hg _ IH]; [constructor|].
    constructor; [exists d; exact Hg|exact IH]. }
  exec.
  destruct (read_csv (path_join dirpath x)) as [frame|e] eqn:Hread.
  - exec. destruct (split_target frame) as [[X y]|e] eqn:Hsplit.
    + exec. apply Forall2_app; [exact Hds|].
      repeat constructor. simpl. exists frame. auto.
    + exec. exists done, x, rest. split; [exact Hl|]. split; [exact Hdone|].
      right. exists frame. auto.
  - exec. exists done, x, rest. split; [exact Hl|]. split; [exact Hdone|].
    left. exact Hread.
Qed.

(** X10.
    A normal return of [read_csv_dir] holds one dataset per file whose
    name matches, in the order of the listing, files with the same
    derived name included: each is named by the derived name of its file
    and holds the split of what was read from it. *)
Theorem read_csv_dir_returns_every_csv_file_in_order dirpath ds :
  read_csv_dir dirpath = Ok ds →
  ∃ names,
    listdir dirpath = Ok names
    ∧ Forall2 (read_from dirpath) (List.filter match_csv names) ds
    ∧ ds.*1 = sub_csv <$> List.filter match_csv names.
Proof.
  intros Hread. destruct (listdir dirpath) as [names|e] eqn:Hnames.
  - pose proof (read_csv_dir_spec dirpath names Hnames) as Hspec.
    rewrite Hread in Hspec. exists names. split; [reflexivity|].
    split; [exact Hspec|]. clear Hread.
    induction Hspec as [|f d fs ds' [Hname _] _ IH]; [reflexivity|].
    rewrite !fmap_cons. f_equal; [exact Hname|exact IH].
  - unfold read_csv_dir in Hread. rewrite Hnames in Hread. discriminate.
Qed.

(** X11.
    [read_csv_dir] raises what the listing raises, or what the first
    unreadable matching file raises: the matching files before it were
    read, and the datasets read so far are lost. *)
Theorem read_csv_dir_raises_at_the_first_unreadable_file dirpath e :
  read_csv_dir dirpath = Raise e →
  listdir dirpath = Raise e
  ∨ ∃ names done f rest,
      listdir dirpath = Ok names
      ∧ List.filter match_csv names = done ++ f :: rest
      ∧ Forall (λ g, ∃ d, read_from dirpath g d) done
      ∧ unreadable dirpath e f.
Proof.
  intros Hread. destruct (listdir dirpath) as [names|e'] eqn:Hnames.
  - right. pose proof (read_csv_dir_spec dirpath names Hnames) as Hspec.
    rewrite Hread in Hspec. destruct Hspec as (done & f & rest & Hspec).
    exists names, done, f, rest. split; [reflexivity|exact Hspec].
  - left. unfold read_csv_dir in Hread. rewrite Hnames in Hread.
    congruence.
Qed.

End Reading.

Section Running.
Context `{Types} `{!Library} `{!Utils}.

(** *** What a run keeps *)

Lemma same_arguments_refl {E} (e : Experiment E) : same_arguments e e.
Proof. repeat split. Qed.

Lemma kept_start {E} (s : State E) :
  kept (own (self s)) (self s) (filters s) (files s) (calls s) s.
Proof.
  split; [reflexivity|]. split; [apply same_arguments_refl|].
  split; [reflexivity|]. split; [reflexivity|].
  exists []. split; [symmetry; apply app_nil_r|constructor].
Qed.

Lemma kept_call {E} (x : E) e fs fl log (s : State E) c result a :
  kept x e fs fl log s →
  kept x e fs fl log
    {| self := self s; filters := filters s; ambient := a;
       progress_bar := progress_bar s; iterations := iterations s;
       calls := calls s ++
         [{| call_combination := c;
             call_search :=
               {| gs_estimator := c.2.1; gs_param_grid := c.2.2;
                  gs_scoring := scoring (self s);
                  gs_cv := result.1; gs_refit := false;
                  gs_n_jobs := n_jobs (self s) |};
             call_result := result.2 |}];
       files := files s |}.
Proof.
  intros (Hown & Hargs & Hfilters & Hfiles & new & Hcalls & Hnew).
  split; [exact Hown|]. split; [exact Hargs|]. split; [exact Hfilters|].
  split; [exact Hfiles|]. eexists (new ++ [_]). simpl.
  split; [rewrite Hcalls, <- app_assoc; reflexivity|].
  apply Forall_app. split; [exact Hnew|]. constructor; [|constructor].
  destruct Hargs as (Hscoring & _ & Hjobs & _).
  unfold search_of. simpl. auto.
Qed.

Lemma run_combination_kept {E} (x : E) e fs fl log c :
  triple (kept x e fs fl log) (run_combination c)
    (λ _, kept x e fs fl log) (λ _, kept x e fs fl log).
Proof.
  intros s Hs. unfold run_combination.
  destruct c as [[random_state [dataset_name [X y]]] [estimator param_grid]].
  exec.
  destruct (check_cv (cv (self s)) y (is_classifier estimator)) as [cv0|err];
    [|exact Hs].
  exec. unfold do_fit.
  match goal with
  | |- context [fit (ambient s) ?gscv X y] =>
      pose proof (λ result a,
        kept_call x e fs fl log s
          (random_state, (dataset_name, (X, y)), (estimator, param_grid))
          (gs_cv gscv, result) a Hs) as Hnew;
      simpl in Hnew;
      destruct (fit (ambient s) gscv X y) as [[fitted|err] a]
  end; [|exact (Hnew _ _)].
  specialize (Hnew (Ok fitted) a).
  exec. simpl results_. unfold attr.
  destruct (results_ (self s)) as [results|]; exec; [|exact Hnew].
  simpl progress_bar.
  destruct (progress_bar s); exec; exact Hnew.
Qed.

Lemma run_combinations_kept {E} (x : E) e fs fl log datasets (s : State E) :
  kept x e fs fl log s → kept x e fs fl log (run_combinations datasets s).2.
Proof.
  intros Hs. unfold run_combinations. exec.
  destruct (check_random_states _ _) as [seeds|err]; exec; [|exact Hs].
  unfold attr.
  cbn [self with_self random_states_ estimators_ param_grids_
       set_random_states_].
  destruct (estimators_ (self s)) as [estimators|]; exec; [|exact Hs].
  destruct (param_grids_ (self s)) as [param_grids|]; exec; [|exact Hs].
  match goal with
  | |- context [for_each ?l run_combination ?s0] =>
      apply (for_each_keeps (kept x e fs fl log) run_combination l
               (run_combination_kept x e fs fl log) s0)
  end.
  exact Hs.
Qed.

Lemma kept_filterwarnings {E} (x : E) e fs fl log action (s : State E) :
  kept x e fs fl log s →
  kept x e (action :: fs) fl log (filterwarnings action s).
Proof.
  intros (Hown & Hargs & Hfilters & Hfiles & Hcalls).
  split; [exact Hown|]. split; [exact Hargs|].
  split; [simpl; rewrite Hfilters; reflexivity|].
  split; [exact Hfiles|exact Hcalls].
Qed.

Lemma ExtendedExperiment_run_kept hide_warnings (s : State (list Spec)) :
  kept (own (self s)) (self s) (warning_action hide_warnings :: filters s)
    (files s) (calls s) (ExtendedExperiment_run hide_warnings s).2.
Proof.
  pose proof (kept_filterwarnings _ _ _ _ _ (warning_action hide_warnings)
                s (kept_start s)) as Hs.
  unfold ExtendedExperiment_run. exec.
  fold (warning_action hide_warnings).
  change (self (filterwarnings (warning_action hide_warnings) s))
    with (self s).
  destruct (datasets (self s)) as [given|]; exec; [|exact Hs].
  destruct (check_datasets given) as [ds|err]; exec; [|exact Hs].
  destruct (check_estimators _) as [estimators|err]; exec; [|exact Hs].
  destruct (check_param_grids _ _) as [param_grids|err]; exec; [|exact Hs].
  apply run_combinations_kept. exact Hs.
Qed.

Lemma ResamplingExperiment_run_kept hide_warnings (s : State Resampling) :
  ∃ x, (x = own (self s) ∨ x = with_chains (own (self s)))
       ∧ kept x (self s) (warning_action hide_warnings :: filters s)
           (files s) (calls s) (ResamplingExperiment_run hide_warnings s).2.
Proof.
  pose proof (kept_filterwarnings _ _ _ _ _ (warning_action hide_warnings)
                s (kept_start s)) as Hs.
  unfold ResamplingExperiment_run. exec.
  fold (warning_action hide_warnings).
  change (self (filterwarnings (warning_action hide_warnings) s))
    with (self s).
  destruct (datasets (self s)) as [given|]; exec; [|eauto].
  destruct (check_datasets given) as [ds|err]; exec; [|eauto].
  cbn [self with_self own set_own resamplers classifiers filterwarnings
       set_filters].
  fold (with_chains (own (self s))).
  exists (with_chains (own (self s))). split; [right; reflexivity|].
  assert (Hs' : kept (with_chains (own (self s))) (self s)
                  (warning_action hide_warnings :: filters s) (files s)
                  (calls s)
                  (with_self (set_own (with_chains (own (self s))))
                     (filterwarnings (warning_action hide_warnings) s))).
  { destruct Hs as (_ & Hrest). split; [reflexivity|exact Hrest]. }
  destruct (check_estimators _) as [checked|err]; exec; [|exact Hs'].
  destruct (check_param_grids _ _) as [param_grids|err]; exec; [|exact Hs'].
  apply run_combinations_kept. exact Hs'.
Qed.




(** X15.
    Every search [ExtendedExperiment.run] fits, in a run that ends
    normally or not, is built from the estimator and the grid of its
    combination, with the scoring and the number of jobs of the
    experiment, and never refits. *)
Theorem run_fits_searches_without_refit hide_warnings
    (s : State (list Spec)) :
  calls s = [] →
  Forall (search_of (self s))
    (calls (ExtendedExperiment_run hide_warnings s).2).
Proof.
  intros Hlog.
  destruct (ExtendedExperiment_run_kept hide_warnings s)
    as (_ & _ & _ & _ & new & Hcalls & Hnew).
  rewrite Hcalls, Hlog. exact Hnew.
Qed.

(** *** How many combinations a run evaluates *)


End Running.

Section Resamplers.
Context `{Types} `{!Library} `{!Utils}.

(** *** [ResamplingExperiment] *)

Lemma product2_length {A B} (a : list A) (b : list B) :
  length (product2 a b) = (length a * length b)%nat.
Proof.
  unfold product2. apply ExperimentFacts.bind_length_const. intros x.
  rewrite (ExperimentFacts.bind_length_const _ 1); [lia|]. reflexivity.
Qed.

Lemma product2_lookup {A B} (a : list A) (b : list B) i j x y :
  a !! i = Some x → b !! j = Some y →
  product2 a b !! (i * length b + j)%nat = Some (x, y).
Proof.
  intros Hi Hj. unfold product2.
  pose proof (lookup_lt_Some _ _ _ Hj) as Hjlt.
  rewrite (ExperimentFacts.bind_lookup_const _ (length b) a i j x);
    [|intros x'; rewrite (ExperimentFacts.bind_length_const _ 1);
      [lia|reflexivity]|exact Hi|exact Hjlt].
  replace j with (j * 1 + 0)%nat at 1 by lia.
  rewrite (ExperimentFacts.bind_lookup_const _ 1 b j 0 y);
    [reflexivity|reflexivity|exact Hj|lia].
Qed.

(** X17.
    Line 212 builds one chain for every pair of a resampler and a
    classifier, the resamplers outermost: the chain of the resampler at
    [i] and the classifier at [j] is at [i * len(classifiers) + j], and
    there are [len(resamplers) * len(classifiers)] chains. *)
Theorem resampling_estimators_pairs_resamplers_outermost
    (resamplers classifiers : list Spec) i j resampler classifier :
  resamplers !! i = Some resampler → classifiers !! j = Some classifier →
  resampling_estimators resamplers classifiers
    !! (i * length classifiers + j)%nat
  = Some (chain (resampler, classifier))
  ∧ length (resampling_estimators resamplers classifiers)
    = (length resamplers * length classifiers)%nat.
Proof.
  intros Hi Hj. unfold resampling_estimators. split.
  - rewrite list_lookup_fmap, (product2_lookup _ _ i j _ _ Hi Hj).
    reflexivity.
  - rewrite length_fmap. apply product2_length.
Qed.

(** [ResamplingExperiment.run] with the dataset attribute present. *)
Lemma ResamplingExperiment_run_spec hide_warnings given
    (s : State Resampling) :
  calls s = [] → datasets (self s) = Some given →
  match ResamplingExperiment_run hide_warnings s with
  | (Ok _, s') =>
      ∃ ds seeds checked grids,
        check_datasets given = Ok ds
        ∧ check_estimators
            (Chains (resampling_estimators (resamplers (own (self s)))
                       (classifiers (own (self s))))) = Ok checked
        ∧ check_param_grids
            (Chains (resampling_estimators (resamplers (own (self s)))
                       (classifiers (own (self s)))))
            (Some "resampling") = Ok grids
        ∧ check_random_states (random_state (self s))
            (experiment_repetitions (self s)) = Ok seeds
        ∧ during (total_iterations seeds ds checked)
            (product seeds ds (zip checked grids)) s'
  | (Raise e, s') =>
      calls s' = []
      ∨ ∃ ds seeds checked grids,
          check_datasets given = Ok ds
          ∧ check_estimators
              (Chains (resampling_estimators (resamplers (own (self s)))
                         (classifiers (own (self s))))) = Ok checked
          ∧ check_param_grids
              (Chains (resampling_estimators (resamplers (own (self s)))
                         (classifiers (own (self s)))))
              (Some "resampling") = Ok grids
          ∧ check_random_states (random_state (self s))
              (experiment_repetitions (self s)) = Ok seeds
          ∧ halted (total_iterations seeds ds checked)
              (product seeds ds (zip checked grids)) e s'
  end.
Proof.
  intros Hlog Hgiven. unfold ResamplingExperiment_run. exec.
  unfold filterwarnings, set_filters. cbn [self]. rewrite Hgiven. exec.
  destruct (check_datasets given) as [ds|e] eqn:Hds; [|left; exact Hlog].
  exec. cbn [self with_self own set_own resamplers classifiers].
  destruct (check_estimators _) as [checked|e] eqn:Hest;
    [|left; exact Hlog].
  exec.
  destruct (check_param_grids _ _) as [grids|e] eqn:Hgrids;
    [|left; exact Hlog].
  exec.
  match goal with
  | |- context [run_combinations ds ?s0] =>
      pose proof (ExperimentFacts.run_combinations_spec ds s0 Hlog) as Hrun;
      destruct (run_combinations ds s0) as [[[]|e] s']
  end.
  - destruct Hrun as (seeds & checked' & grids' & Hseeds & [= <-] & [= <-]
                      & Hduring).
    exists ds, seeds, checked, grids. auto.
  - destruct Hrun as [Hnone|(seeds & checked' & grids' & Hseeds & [= <-]
                              & [= <-] & Hhalted)];
      [left; exact Hnone|].
    right. exists ds, seeds, checked, grids. auto.
Qed.

(** X18.
    A normal run of [ResamplingExperiment.run] fits one search per
    combination of a seed, a dataset and a checked chain with its grid,
    in the order of [product], each with a shuffling splitter seeded by
    the combination; [results_] holds their records in that order and
    the progress bar counts them. *)
Theorem resampling_run_scores_every_chain hide_warnings given
    (s s' : State Resampling) :
  calls s = [] → datasets (self s) = Some given →
  ResamplingExperiment_run hide_warnings s = (Ok tt, s') →
  ∃ ds seeds checked grids,
    check_datasets given = Ok ds
    ∧ check_estimators
        (Chains (resampling_estimators (resamplers (own (self s)))
                   (classifiers (own (self s))))) = Ok checked
    ∧ check_param_grids
        (Chains (resampling_estimators (resamplers (own (self s)))
                   (classifiers (own (self s)))))
        (Some "resampling") = Ok grids
    ∧ check_random_states (random_state (self s))
        (experiment_repetitions (self s)) = Ok seeds
    ∧ call_combination <$> calls s'
      = product seeds ds (zip checked grids)
    ∧ Forall call_ok (calls s') ∧ Forall seeded_shuffled (calls s')
    ∧ results_ (self s') = Some (completed (calls s'))
    ∧ progress_bar s'
      = Some {| max_value := total_iterations seeds ds checked;
                value := Z.of_nat (length (calls s')) |}.
Proof.
  intros Hlog Hgiven Hrun.
  pose proof (ResamplingExperiment_run_spec hide_warnings given s Hlog
                Hgiven) as Hspec.
  rewrite Hrun in Hspec.
  destruct Hspec as (ds & seeds & checked & grids & Hds & Hest & Hgrids
                     & Hseeds & Hres & Hdone & Hok & Hcv & Hbar & _).
  exists ds, seeds, checked, grids.
  split; [exact Hds|]. split; [exact Hest|]. split; [exact Hgrids|].
  split; [exact Hseeds|]. split; [exact Hdone|]. split; [exact Hok|].
  split; [exact Hcv|]. split; [exact Hres|].
  rewrite Hbar, <- Hdone, length_fmap. reflexivity.
Qed.

(** X19.
    When [ResamplingExperiment.run] raises after a call of [fit], the
    calls made are a prefix of the combinations, at most the last one
    raised, and it raised the exception of the run; [results_] holds the
    records of the calls that returned. *)
Theorem resampling_run_stops_at_the_first_failure hide_warnings given
    (s s' : State Resampling) err :
  calls s = [] → datasets (self s) = Some given → calls s' ≠ [] →
  ResamplingExperiment_run hide_warnings s = (Raise err, s') →
  ∃ ds seeds checked grids,
    check_datasets given = Ok ds
    ∧ check_estimators
        (Chains (resampling_estimators (resamplers (own (self s)))
                   (classifiers (own (self s))))) = Ok checked
    ∧ check_param_grids
        (Chains (resampling_estimators (resamplers (own (self s)))
                   (classifiers (own (self s)))))
        (Some "resampling") = Ok grids
    ∧ check_random_states (random_state (self s))
        (experiment_repetitions (self s)) = Ok seeds
    ∧ (call_combination <$> calls s')
        `prefix_of` product seeds ds (zip checked grids)
    ∧ results_ (self s') = Some (completed (calls s'))
    ∧ (Forall call_ok (calls s')
       ∨ ∃ before c, calls s' = before ++ [c] ∧ Forall call_ok before
                     ∧ call_result c = Raise err).
Proof.
  intros Hlog Hgiven Hcalls Hrun.
  pose proof (ResamplingExperiment_run_spec hide_warnings given s Hlog
                Hgiven) as Hspec.
  rewrite Hrun in Hspec.
  destruct Hspec as [Hnone|(ds & seeds & checked & grids & Hds & Hest
                            & Hgrids & Hseeds & Hres & Hprefix & _ & _
                            & Hlast)]; [contradiction|].
  exists ds, seeds, checked, grids. auto 10.
Qed.

End Resamplers.

Section Saving.
Context `{Types} `{!Library} `{!Utils}.

(** *** [save] and [load_experiment] *)



End Saving.

End ExperimentRunFacts.
(** * The names of the datasets read from a directory *)

Module FileNames.
Import FileNameWording.

Lemma sub_csv_csv c rest :
  sub_csv (String c (String "c" (String "s" (String "v" rest))))
  = if is_newline c
    then String c (sub_csv (String "c" (String "s" (String "v" rest))))
    else sub_csv rest.
Proof. reflexivity. Qed.

Lemma csv_then_dec s : (∃ rest, csv_then s rest) ∨ (∀ rest, ¬ csv_then s rest).
Proof.
  unfold csv_then.
  destruct s as [|a1 [|a2 [|a3 rest]]];
    try (right; intros rest'; discriminate).
  destruct (decide (a1 = "c"%char)) as [->|H1];
    [|right; intros rest' [= ? ? ? ?]; contradiction].
  destruct (decide (a2 = "s"%char)) as [->|H2];
    [|right; intros rest' [= ? ? ?]; contradiction].
  destruct (decide (a3 = "v"%char)) as [->|H3];
    [|right; intros rest' [= ? ?]; contradiction].
  left. exists rest. reflexivity.
Qed.

Lemma sub_csv_other c s :
  (∀ rest, ¬ csv_then s rest) → sub_csv (String c s) = String c (sub_csv s).
Proof.
  unfold csv_then. intros Hnot.
  destruct s as [|a1 [|a2 [|a3 rest]]]; try reflexivity.
  - destruct a1 as [[] [] [] [] [] [] [] []]; reflexivity.
  - destruct a1 as [[] [] [] [] [] [] [] []]; try reflexivity.
    destruct a2 as [[] [] [] [] [] [] [] []]; reflexivity.
  - destruct a1 as [[] [] [] [] [] [] [] []]; try reflexivity.
    destruct a2 as [[] [] [] [] [] [] [] []]; try reflexivity.
    destruct a3 as [[] [] [] [] [] [] [] []]; try reflexivity.
    destruct (Hnot rest eq_refl).
Qed.

Lemma sub_csv_length_bound n s :
  (String.length s ≤ n)%nat →
  (String.length (sub_csv s) ≤ String.length s)%nat.
Proof.
  revert s. induction n as [|n IH]; intros s Hn.
  - destruct s; [simpl; lia|simpl in Hn; lia].
  - destruct s as [|c s]; [simpl; lia|]. simpl in Hn.
    destruct (csv_then_dec s) as [[rest ->]|Hnot].
    + rewrite sub_csv_csv. simpl in Hn. destruct (is_newline c).
      * change (String.length (String c ?t)) with (S (String.length t)).
        pose proof (IH (String "c" (String "s" (String "v" rest)))
                      ltac:(simpl; lia)).
        lia.
      * pose proof (IH rest ltac:(lia)). simpl. lia.
    + rewrite (sub_csv_other c s Hnot).
      change (String.length (String c ?t)) with (S (String.length t)).
      pose proof (IH s ltac:(lia)). lia.
Qed.

Lemma sub_csv_length s :
  (String.length (sub_csv s) ≤ String.length s)%nat.
Proof. exact (sub_csv_length_bound (String.length s) s (le_n _)). Qed.

Lemma no_csv_before_extension s :
  (∀ rest, ¬ csv_then s rest) → ∀ rest, ¬ csv_then (s +:+ ".csv") rest.
Proof.
  unfold csv_then. intros Hnot rest.
  destruct s as [|a1 [|a2 [|a3 s]]]; simpl; try (intros [=]; fail).
  intros [= -> -> -> _]. exact (Hnot s eq_refl).
Qed.

Lemma sub_csv_extension stem :
  sub_csv stem = stem → sub_csv (stem +:+ ".csv") = stem.
Proof.
  induction stem as [|c s IH]; intros Hfix; [reflexivity|].
  destruct (csv_then_dec s) as [[rest ->]|Hnot].
  - rewrite sub_csv_csv in Hfix.
    change (String c (String "c" (String "s" (String "v" rest))) +:+ ".csv")
      with (String c (String "c" (String "s" (String "v" (rest +:+ ".csv"))))).
    rewrite sub_csv_csv. destruct (is_newline c).
    + f_equal. apply IH. congruence.
    + pose proof (sub_csv_length rest) as Hlen. rewrite Hfix in Hlen.
      simpl in Hlen. lia.
  - rewrite (sub_csv_other c s Hnot) in Hfix.
    change (String c s +:+ ".csv") with (String c (s +:+ ".csv")).
    rewrite (sub_csv_other c _ (no_csv_before_extension s Hnot)).
    f_equal. apply IH. congruence.
Qed.

Lemma dot_plus_csv_extension stem :
  stem ≠ EmptyString → one_line stem = true →
  dot_plus_csv (stem +:+ ".csv") = true.
Proof.
  induction stem as [|c s IH]; intros Hne Hline; [congruence|].
  simpl in Hline. apply andb_prop in Hline as [Hc Hline].
  change (String c s +:+ ".csv") with (String c (s +:+ ".csv")).
  cbn [dot_plus_csv]. rewrite Hc. simpl andb.
  destruct s as [|c' s]; [reflexivity|].
  rewrite (IH ltac:(discriminate) Hline). apply orb_true_r.
Qed.

(** X9.
    A file named by a stem and the extension [.csv] is read by both
    loaders, under its stem, when the stem is not empty, has no line feed
    and nothing the pattern [.csv] of the substitution matches. *)
Theorem csv_file_is_read_under_its_stem stem :
  stem ≠ EmptyString → one_line stem = true → sub_csv stem = stem →
  match_csv (stem +:+ ".csv") = true ∧ sub_csv (stem +:+ ".csv") = stem.
Proof.
  intros Hne Hline Hfix. split.
  - unfold match_csv. rewrite (dot_plus_csv_extension stem Hne Hline).
    reflexivity.
  - exact (sub_csv_extension stem Hfix).
Qed.

End FileNames.
(** * The further properties on concrete inputs *)

Module NamesExamples.
Import Imbtools FileNameWording.

Lemma count_elements_keeps_distinct_names_witness :
  count_elements ["SVC"; "KNeighborsClassifier"]
  = ["SVC"; "KNeighborsClassifier"].
Proof.
  apply NamesAndSeeds.count_elements_keeps_distinct_names.
  apply NoDup_cons. split; [|apply NoDup_singleton].
  rewrite list_elem_of_singleton. discriminate.
Defined.

Lemma count_elements_separates_equal_names_witness :
  count_elements ["SVC"; "KNeighborsClassifier"; "SVC"] !! 0%nat
  ≠ count_elements ["SVC"; "KNeighborsClassifier"; "SVC"] !! 2%nat.
Proof.
  apply (NamesAndSeeds.count_elements_separates_equal_names
           ["SVC"; "KNeighborsClassifier"; "SVC"] 0 2 "SVC");
    [lia|reflexivity|reflexivity].
Defined.

Lemma csv_file_is_read_under_its_stem_witness :
  match_csv "iris.csv" = true ∧ sub_csv "iris.csv" = "iris".
Proof.
  apply (FileNames.csv_file_is_read_under_its_stem "iris");
    [discriminate|reflexivity|reflexivity].
Defined.

End NamesExamples.

Module BinaryRunExamples.
Import Imbtools BinaryWording BinaryRunWording BinaryDemo BinaryRunDemo.

Lemma BinaryExperiment_run_scores_every_tuple_witness :
  ∃ d, datasets (self (run (start two_by_two "." 0)).2) = Dict d
       ∧ length (cv_scores_ (self (run (start two_by_two "." 0)).2))
         = Nat.mul
             (Nat.mul
                (Nat.mul
                   (Nat.mul
                      (length (random_states_
                                 (self (run (start two_by_two "." 0)).2)))
                      (length (classifiers
                                 (self (run (start two_by_two "." 0)).2))))
                   (length (oversampling_methods
                              (self (run (start two_by_two "." 0)).2))))
                (length (scorers_ (self (run (start two_by_two "." 0)).2))))
             (length d).
Proof.
  apply (BinaryRunFacts.BinaryExperiment_run_scores_every_tuple
           (start two_by_two "." 0) (run (start two_by_two "." 0)).2);
    [reflexivity|vm_compute; reflexivity].
Defined.

Lemma BinaryExperiment_run_prints_every_score_witness :
  Forall2 (describes (self (run (start two_datasets "." 0)).2))
    (stdout (run (start two_datasets "." 0)).2)
    (completed_calls (calls (run (start two_datasets "." 0)).2)).
Proof.
  apply (BinaryRunFacts.BinaryExperiment_run_prints_every_score
           (start two_datasets "." 0)); reflexivity.
Defined.


Lemma initialize_parameters_loads_distinct_names_witness :
  ∃ names d,
    listdir "data" = Ok names
    ∧ datasets (self (initialize_parameters (start from_data "." 0)).2)
      = Dict d
    ∧ loaded "data" (List.filter match_csv names) d.
Proof.
  apply (BinaryRunFacts.initialize_parameters_loads_distinct_names
           (start from_data "." 0)
           (initialize_parameters (start from_data "." 0)).2 "data");
    [reflexivity|vm_compute; reflexivity].
Defined.

End BinaryRunExamples.

Module ExperimentRunExamples.
Import Hyperlearn ExperimentWording ExperimentRunWording ExperimentDemo
  ExperimentRunDemo.

Lemma read_csv_dir_returns_every_csv_file_in_order_witness :
  ∃ names,
    listdir "data" = Ok names
    ∧ Forall2 (read_from "data") (List.filter match_csv names)
        [("iris", ([["5.1"; "4.9"]], ["0"; "1"]))]
    ∧ [("iris", ([["5.1"; "4.9"]], ["0"; "1"]))].*1
      = sub_csv <$> List.filter match_csv names.
Proof.
  apply (ExperimentRunFacts.read_csv_dir_returns_every_csv_file_in_order
           "data" [("iris", ([["5.1"; "4.9"]], ["0"; "1"]))]).
  vm_compute. reflexivity.
Defined.

Lemma read_csv_dir_raises_at_the_first_unreadable_file_witness :
  @listdir types broken_library "data"
  = Raise (IndexError "single positional indexer is out-of-bounds")
  ∨ ∃ names done f rest,
      @listdir types broken_library "data" = Ok names
      ∧ List.filter match_csv names = done ++ f :: rest
      ∧ Forall (λ g, ∃ d, @read_from types broken_library "data" g d) done
      ∧ @unreadable types broken_library "data"
          (IndexError "single positional indexer is out-of-bounds") f.
Proof.
  apply (@ExperimentRunFacts.read_csv_dir_raises_at_the_first_unreadable_file
           types broken_library "data"
           (IndexError "single positional indexer is out-of-bounds")).
  vm_compute. reflexivity.
Defined.

Lemma run_fits_searches_without_refit_witness :
  Forall (search_of (self (start two_cubed 0)))
    (calls (ExtendedExperiment_run true (start two_cubed 0)).2).
Proof.
  apply (ExperimentRunFacts.run_fits_searches_without_refit true
           (start two_cubed 0)).
  reflexivity.
Defined.


Lemma resampling_estimators_pairs_resamplers_outermost_witness :
  resampling_estimators [no_resampler; spec "SMOTE"] [spec "SVC"; spec "KNN"]
    !! (1 * 2 + 0)%nat
  = Some (chain (spec "SMOTE", spec "SVC"))
  ∧ length (resampling_estimators [no_resampler; spec "SMOTE"]
              [spec "SVC"; spec "KNN"])
    = (2 * 2)%nat.
Proof.
  apply (ExperimentRunFacts.resampling_estimators_pairs_resamplers_outermost
           [no_resampler; spec "SMOTE"] [spec "SVC"; spec "KNN"] 1 0);
    reflexivity.
Defined.

Lemma resampling_run_scores_every_chain_witness :
  ∃ seeds checked grids,
    call_combination
      <$> calls (ResamplingExperiment_run true
                   (start two_by_two_chains 0)).2
    = product seeds [("a", good)] (zip checked grids)
    ∧ checked = ["SVC"; "KNN"; "SMOTE+SVC"; "SMOTE+KNN"]
    ∧ seeds = [Some 0; Some 3].
Proof.
  destruct (ExperimentRunFacts.resampling_run_scores_every_chain true
              [("a", good)] (start two_by_two_chains 0)
              (ResamplingExperiment_run true (start two_by_two_chains 0)).2)
    as (ds & seeds & checked & grids & Hds & Hest & Hgrids & Hseeds
        & Hdone & _).
  - reflexivity.
  - reflexivity.
  - vm_compute. reflexivity.
  - exists seeds, checked, grids.
    injection Hds as <-. injection Hest as <-. injection Hseeds as <-.
    split; [exact Hdone|]. split; reflexivity.
Defined.

Lemma resampling_run_stops_at_the_first_failure_witness :
  Forall call_ok
    (calls (ResamplingExperiment_run true (start second_unfit 0)).2)
  ∨ ∃ before c,
      calls (ResamplingExperiment_run true (start second_unfit 0)).2
      = before ++ [c]
      ∧ Forall call_ok before
      ∧ call_result c = Raise (LibraryError "no feature column").
Proof.
  destruct (ExperimentRunFacts.resampling_run_stops_at_the_first_failure
              true [("a", good); ("b", bad)] (start second_unfit 0)
              (ResamplingExperiment_run true (start second_unfit 0)).2
              (LibraryError "no feature column"))
    as (ds & seeds & checked & grids & _ & _ & _ & _ & _ & _ & Hlast).
  - reflexivity.
  - reflexivity.
  - vm_compute. discriminate.
  - vm_compute. reflexivity.
  - exact Hlast.
Defined.

End ExperimentRunExamples.
